(** * Book_Review: the catalogue's store rules and page logic

    The repository is a React front end over a hosted Postgres store.  Its
    rules live in two places: the SQL migration (tables, constraints,
    row-level-security policies) and the page components that call the store
    from their event handlers.  This file embeds both and states the
    properties of the specification over them. *)

From Stdlib Require Import ZArith QArith Qround Qabs Qpower String Ascii.
From Stdlib Require Import DecimalString List Sorted Permutation Lia Lqa SpecFloat.
From stdpp Require Import base decidable option list sorting strings.

Local Open Scope Z_scope.

(** ** Data model (the migration's tables, [lib/supabase.ts] interfaces) *)

(** [uuid] columns travel as strings; [timestamptz] is a point in time.
    A value of type [uuid] stands for a uuid in the text form in which the
    store prints it.  A request that carries an id which is no uuid at all
    is refused by the store's input function (22P02) before any statement
    runs; the statements below are the store's behaviour on uuids. *)
Definition uuid := string.
Definition timestamptz := Z.

Module Profile.
Record t := mk {
  id : uuid;
  name : string;
  email : string;
  created_at : timestamptz }.
End Profile.

Module Book.
Record t := mk {
  id : uuid;
  title : string;
  author : string;
  description : string;
  genre : string;
  published_year : Z;
  added_by : uuid;
  created_at : timestamptz;
  updated_at : timestamptz }.
End Book.

Module Review.
Record t := mk {
  id : uuid;
  book_id : uuid;
  user_id : uuid;
  rating : Z;
  review_text : string;
  created_at : timestamptz;
  updated_at : timestamptz }.
End Review.

(** The three tables, each row listed where it was inserted.  A scan
    without ORDER BY meets the rows in that order as long as none was
    rewritten: an update writes a new row version, which a scan may meet
    elsewhere.  Only an ORDER BY promises an order, and only on its key. *)
Module Db.
Record t := mk {
  profiles : list Profile.t;
  books : list Book.t;
  reviews : list Review.t }.
End Db.

(** ** Errors of the store *)

(** The SQLSTATE classes the migration's constraints and policies can raise. *)
Inductive PgError :=
| insufficient_privilege      (* 42501: row violates row-level security policy *)
| numeric_value_out_of_range  (* 22003: value does not fit column type integer *)
| check_violation             (* 23514 *)
| unique_violation            (* 23505 *)
| foreign_key_violation.      (* 23503 *)

Inductive result (A : Type) :=
| Ok (a : A)
| Err (e : PgError).
Arguments Ok {A} a.
Arguments Err {A} e.

Definition bind {A B} (r : result A) (k : A -> result B) : result B :=
  match r with
  | Ok a => k a
  | Err e => Err e
  end.

Notation "'let*' x ':=' r 'in' k" := (bind r (fun x => k))
  (at level 10, x pattern, r at level 100, k at level 200).

Definition guard (ok : bool) (e : PgError) : result unit :=
  if ok then Ok tt else Err e.

(** The error taxonomy of the specification (section 7), read over the
    store's error classes: a row refused by a policy is Unauthorized; a value
    that breaks the column's shape, a CHECK or a uniqueness rule is a
    ConstraintViolation; a dangling reference is NotFound.  ValidationError
    is the specification's name for input the forms refuse; the store raises
    none. *)
Inductive ErrorKind := Unauthorized | ConstraintViolation | NotFound | ValidationError.

Definition error_kind (e : PgError) : ErrorKind :=
  match e with
  | insufficient_privilege => Unauthorized
  | numeric_value_out_of_range => ConstraintViolation
  | check_violation => ConstraintViolation
  | unique_violation => ConstraintViolation
  | foreign_key_violation => NotFound
  end.

(** ** Column types and constraints *)

(** Column type [integer]: a signed 32-bit value. *)
Definition int4 (z : Z) : bool := (-2147483648 <=? z) && (z <=? 2147483647).

(** [CHECK (rating >= 1 AND rating <= 5)] *)
Definition rating_check (r : Review.t) : bool :=
  (Review.rating r >=? 1) && (Review.rating r <=? 5).

(** ** Row-level-security policies *)

(** The session: [auth.uid()] is the caller's id, or NULL for the anonymous
    role.  A policy declared [TO authenticated] does not apply to the
    anonymous role, and a comparison with NULL is never true. *)
Definition is_authenticated (uid : option uuid) : bool :=
  match uid with Some _ => true | None => false end.

Definition auth_uid_eq (uid : option uuid) (x : uuid) : bool :=
  match uid with Some u => String.eqb u x | None => false end.

(** "Users can update own profile": USING and WITH CHECK (auth.uid() = id) *)
Definition profiles_update_using (uid : option uuid) (p : Profile.t) : bool :=
  is_authenticated uid && auth_uid_eq uid (Profile.id p).
Definition profiles_update_check (uid : option uuid) (p : Profile.t) : bool :=
  is_authenticated uid && auth_uid_eq uid (Profile.id p).

(** "Authenticated users can create books": WITH CHECK (auth.uid() = added_by) *)
Definition books_insert_check (uid : option uuid) (b : Book.t) : bool :=
  is_authenticated uid && auth_uid_eq uid (Book.added_by b).

(** "Users can update own books": USING and WITH CHECK (auth.uid() = added_by) *)
Definition books_update_using (uid : option uuid) (b : Book.t) : bool :=
  is_authenticated uid && auth_uid_eq uid (Book.added_by b).
Definition books_update_check (uid : option uuid) (b : Book.t) : bool :=
  is_authenticated uid && auth_uid_eq uid (Book.added_by b).

(** "Users can delete own books": USING (auth.uid() = added_by) *)
Definition books_delete_using (uid : option uuid) (b : Book.t) : bool :=
  is_authenticated uid && auth_uid_eq uid (Book.added_by b).

(** "Authenticated users can create reviews": WITH CHECK (auth.uid() = user_id) *)
Definition reviews_insert_check (uid : option uuid) (r : Review.t) : bool :=
  is_authenticated uid && auth_uid_eq uid (Review.user_id r).

(** "Users can update own reviews": USING and WITH CHECK (auth.uid() = user_id) *)
Definition reviews_update_using (uid : option uuid) (r : Review.t) : bool :=
  is_authenticated uid && auth_uid_eq uid (Review.user_id r).
Definition reviews_update_check (uid : option uuid) (r : Review.t) : bool :=
  is_authenticated uid && auth_uid_eq uid (Review.user_id r).

(** "Users can delete own reviews": USING (auth.uid() = user_id) *)
Definition reviews_delete_using (uid : option uuid) (r : Review.t) : bool :=
  is_authenticated uid && auth_uid_eq uid (Review.user_id r).

(** ** Statements against the store

    An UPDATE or DELETE acts on the rows that satisfy both its WHERE clause
    and the policy's USING expression; the other rows are passed over without
    an error.  A new row that fails WITH CHECK, a column type or a constraint
    aborts the statement, and the store keeps its state. *)

(** One pass of an UPDATE: [sel] is WHERE and USING, [upd] builds the new row
    or raises.  Returns the rows and how many were written.  The new row is
    listed where the old one was; the store writes it as a new row version
    and a later scan may meet it elsewhere, so the place of a rewritten row
    in the list says nothing about a scan: what is stated of a table after
    an update is stated of its rows, each known by its id. *)
Fixpoint update_rows {A} (sel : A -> bool) (upd : A -> result A) (l : list A)
  : result (list A * nat) :=
  match l with
  | [] => Ok ([], O)
  | x :: l' =>
      if sel x then
        let* y := upd x in
        let* rest := update_rows sel upd l' in
        Ok (y :: fst rest, S (snd rest))
      else
        let* rest := update_rows sel upd l' in
        Ok (x :: fst rest, snd rest)
  end.

(** One pass of a DELETE: the rows kept, and how many were removed. *)
Definition delete_rows {A} (sel : A -> bool) (l : list A) : list A * nat :=
  (List.filter (fun x => negb (sel x)) l, List.length (List.filter sel l)).

(** *** Books *)

(** The book form's [formData], the payload of insert and update. *)
Record BookForm := mkBookForm {
  f_title : string;
  f_author : string;
  f_description : string;
  f_genre : string;
  f_published_year : Z }.

(** [from('books').insert({ ...formData, added_by })]; the id and both
    timestamps are the column defaults [gen_random_uuid()] and [now()]. *)
Definition insert_book (uid : option uuid) (new_id : uuid) (now : timestamptz)
    (f : BookForm) (added_by : uuid) (db : Db.t) : result Db.t :=
  let row := Book.mk new_id (f_title f) (f_author f) (f_description f)
               (f_genre f) (f_published_year f) added_by now now in
  let* _ := guard (int4 (f_published_year f)) numeric_value_out_of_range in
  let* _ := guard (books_insert_check uid row) insufficient_privilege in
  let* _ := guard (negb (existsb (fun b => String.eqb (Book.id b) new_id) (Db.books db)))
         unique_violation in
  let* _ := guard (existsb (fun p => String.eqb (Profile.id p) added_by) (Db.profiles db))
         foreign_key_violation in
  Ok (Db.mk (Db.profiles db) (Db.books db ++ [row]) (Db.reviews db)).

(** The new row of [update(formData)]: the five form columns are replaced,
    trigger [set_updated_at_books] stamps [updated_at]. *)
Definition book_set (now : timestamptz) (f : BookForm) (b : Book.t) : Book.t :=
  Book.mk (Book.id b) (f_title f) (f_author f) (f_description f) (f_genre f)
    (f_published_year f) (Book.added_by b) (Book.created_at b) now.

(** [from('books').update(formData).eq('id', id)] *)
Definition update_book (uid : option uuid) (now : timestamptz) (id : uuid)
    (f : BookForm) (db : Db.t) : result (Db.t * nat) :=
  let* _ := guard (int4 (f_published_year f)) numeric_value_out_of_range in
  let* res := update_rows
           (fun b => String.eqb (Book.id b) id && books_update_using uid b)
           (fun b =>
              let new := book_set now f b in
              let* _ := guard (books_update_check uid new) insufficient_privilege in
              Ok new)
           (Db.books db) in
  Ok (Db.mk (Db.profiles db) (fst res) (Db.reviews db), snd res).

(** [from('books').delete().eq('id', id)]; [reviews.book_id] is declared
    ON DELETE CASCADE, so the reviews of a removed book go with it. *)
Definition delete_book (uid : option uuid) (id : uuid) (db : Db.t)
  : result (Db.t * nat) :=
  let sel := fun b => String.eqb (Book.id b) id && books_delete_using uid b in
  let res := delete_rows sel (Db.books db) in
  let gone := List.map Book.id (List.filter sel (Db.books db)) in
  Ok (Db.mk (Db.profiles db) (fst res)
        (List.filter
           (fun r => negb (existsb (String.eqb (Review.book_id r)) gone))
           (Db.reviews db)),
      snd res).

(** *** Reviews *)

(** The payload of [from('reviews').insert(...)]. *)
Record ReviewInsert := mkReviewInsert {
  i_book_id : uuid;
  i_user_id : uuid;
  i_rating : Z;
  i_review_text : string }.

(** INSERT INTO reviews: column type, policy WITH CHECK, the rating CHECK,
    the primary key and UNIQUE(book_id, user_id) as the row enters the
    table, then the two foreign keys. *)
Definition insert_review (uid : option uuid) (new_id : uuid) (now : timestamptz)
    (p : ReviewInsert) (db : Db.t) : result Db.t :=
  let row := Review.mk new_id (i_book_id p) (i_user_id p) (i_rating p)
               (i_review_text p) now now in
  let* _ := guard (int4 (i_rating p)) numeric_value_out_of_range in
  let* _ := guard (reviews_insert_check uid row) insufficient_privilege in
  let* _ := guard (rating_check row) check_violation in
  let* _ := guard (negb (existsb (fun r => String.eqb (Review.id r) new_id) (Db.reviews db)))
         unique_violation in
  let* _ := guard (negb (existsb
                      (fun r => String.eqb (Review.book_id r) (i_book_id p)
                                && String.eqb (Review.user_id r) (i_user_id p))
                      (Db.reviews db)))
         unique_violation in
  let* _ := guard (existsb (fun b => String.eqb (Book.id b) (i_book_id p)) (Db.books db))
         foreign_key_violation in
  let* _ := guard (existsb (fun q => String.eqb (Profile.id q) (i_user_id p)) (Db.profiles db))
         foreign_key_violation in
  Ok (Db.mk (Db.profiles db) (Db.books db) (Db.reviews db ++ [row])).

(** The new row of [update({ rating, review_text })]; trigger
    [set_updated_at_reviews] stamps [updated_at]. *)
Definition review_set (now : timestamptz) (rating : Z) (text : string)
    (r : Review.t) : Review.t :=
  Review.mk (Review.id r) (Review.book_id r) (Review.user_id r) rating text
    (Review.created_at r) now.

(** [from('reviews').update({ rating, review_text }).eq('id', id)] *)
Definition update_review (uid : option uuid) (now : timestamptz) (id : uuid)
    (rating : Z) (text : string) (db : Db.t) : result (Db.t * nat) :=
  let* _ := guard (int4 rating) numeric_value_out_of_range in
  let* res := update_rows
           (fun r => String.eqb (Review.id r) id && reviews_update_using uid r)
           (fun r =>
              let new := review_set now rating text r in
              let* _ := guard (reviews_update_check uid new) insufficient_privilege in
              let* _ := guard (rating_check new) check_violation in
              Ok new)
           (Db.reviews db) in
  Ok (Db.mk (Db.profiles db) (Db.books db) (fst res), snd res).

(** [from('reviews').delete().eq('id', id)] *)
Definition delete_review (uid : option uuid) (id : uuid) (db : Db.t)
  : result (Db.t * nat) :=
  let res := delete_rows
               (fun r => String.eqb (Review.id r) id && reviews_delete_using uid r)
               (Db.reviews db) in
  Ok (Db.mk (Db.profiles db) (Db.books db) (fst res), snd res).

(** *** Profiles *)

(** No page of the application writes to [profiles]; the table is reached
    through the store's interface alone, where an UPDATE may name any
    subset of the columns. *)
Record ProfilePatch := mkProfilePatch {
  set_id : option uuid;
  set_name : option string;
  set_email : option string;
  set_created_at : option timestamptz }.

Definition profile_set (patch : ProfilePatch) (p : Profile.t) : Profile.t :=
  Profile.mk
    (default (Profile.id p) (set_id patch))
    (default (Profile.name p) (set_name patch))
    (default (Profile.email p) (set_email patch))
    (default (Profile.created_at p) (set_created_at patch)).

(** The new row for [p] in an UPDATE of [profiles]: policy WITH CHECK vets
    it, then the primary key and [email UNIQUE] are checked against the
    other rows of the table. *)
Definition profile_update_row (uid : option uuid) (patch : ProfilePatch)
    (table : list Profile.t) (p : Profile.t) : result Profile.t :=
  let new := profile_set patch p in
  let others :=
    List.filter (fun q => negb (String.eqb (Profile.id q) (Profile.id p))) table in
  let* _ := guard (profiles_update_check uid new) insufficient_privilege in
  let* _ := guard (negb (existsb
                      (fun q => String.eqb (Profile.id q) (Profile.id new)) others))
         unique_violation in
  let* _ := guard (negb (existsb
                      (fun q => String.eqb (Profile.email q) (Profile.email new)) others))
         unique_violation in
  Ok new.

(** UPDATE profiles SET ... WHERE id = [id]; policy USING selects the row. *)
Definition update_profile (uid : option uuid) (id : uuid) (patch : ProfilePatch)
    (db : Db.t) : result (Db.t * nat) :=
  let* res := update_rows
           (fun p => String.eqb (Profile.id p) id && profiles_update_using uid p)
           (profile_update_row uid patch (Db.profiles db))
           (Db.profiles db) in
  Ok (Db.mk (fst res) (Db.books db) (Db.reviews db), snd res).

(** The new row of [auth.users] as trigger [on_auth_user_created] sees it:
    its id, [raw_user_meta_data->>'name'] (NULL when the key is absent) and
    its email. *)
Record AuthUser := mkAuthUser {
  NEW_id : uuid;
  NEW_name : option string;
  NEW_email : string }.

(** [handle_new_user]: INSERT INTO profiles (id, name, email) VALUES (NEW.id,
    COALESCE(name, 'User'), NEW.email), [created_at] by default.  The
    function is SECURITY DEFINER, so no policy applies; the primary key and
    [email UNIQUE] do. *)
Definition handle_new_user (NEW : AuthUser) (now : timestamptz) (db : Db.t)
  : result Db.t :=
  let row := Profile.mk (NEW_id NEW) (default "User"%string (NEW_name NEW))
               (NEW_email NEW) now in
  let* _ := guard (negb (existsb (fun q => String.eqb (Profile.id q) (NEW_id NEW))
                           (Db.profiles db)))
         unique_violation in
  let* _ := guard (negb (existsb (fun q => String.eqb (Profile.email q) (NEW_email NEW))
                           (Db.profiles db)))
         unique_violation in
  Ok (Db.mk (Db.profiles db ++ [row]) (Db.books db) (Db.reviews db)).

(** ** Queries *)

(** *** ORDER BY

    The order clauses name one column each.  The store returns the matching
    rows sorted on that column; rows with equal keys come in no promised
    order.  [order_result] is that contract, [order_by] one sort that
    meets it. *)
Definition order_result {A} (R : relation A) (rows out : list A) : Prop :=
  Permutation rows out /\ Sorted R out.

Definition order_by {A} (R : relation A) `{forall x y, Decision (R x y)}
    (rows : list A) : list A :=
  merge_sort R rows.

(** [order('created_at', { ascending: false })] *)
Definition created_at_desc (a b : Book.t) : Prop :=
  Book.created_at b <= Book.created_at a.
(** [order('created_at', { ascending: true })] *)
Definition created_at_asc (a b : Book.t) : Prop :=
  Book.created_at a <= Book.created_at b.
(** [order('published_year', { ascending: false })] *)
Definition published_year_desc (a b : Book.t) : Prop :=
  Book.published_year b <= Book.published_year a.
(** [order('created_at', { ascending: false })] on reviews *)
Definition review_created_at_desc (a b : Review.t) : Prop :=
  Review.created_at b <= Review.created_at a.

#[global] Instance created_at_desc_dec : RelDecision created_at_desc.
Proof. intros a b. unfold created_at_desc. apply _. Defined.
#[global] Instance created_at_asc_dec : RelDecision created_at_asc.
Proof. intros a b. unfold created_at_asc. apply _. Defined.
#[global] Instance published_year_desc_dec : RelDecision published_year_desc.
Proof. intros a b. unfold published_year_desc. apply _. Defined.
#[global] Instance review_created_at_desc_dec : RelDecision review_created_at_desc.
Proof. intros a b. unfold review_created_at_desc. apply _. Defined.

(** *** ILIKE *)

(** Case folding of the letters A to Z; other characters, the pattern
    characters [%], [_] and the escape among them, fold to themselves.
    This is the folding of ILIKE on ASCII text.  Beyond ASCII the store
    folds by the rules of its locale, which are not modelled: what is said
    of the text filter is said of titles, authors and queries in ASCII. *)
Definition lower (c : ascii) : ascii :=
  let n := nat_of_ascii c in
  if (65 <=? n)%nat && (n <=? 90)%nat then ascii_of_nat (n + 32) else c.

(** LIKE: [%] matches any run of characters, [_] any one character, a
    backslash takes the next pattern character literally.  A pattern that
    ends in a lone backslash is refused by the store and matches nothing
    here; the listing's patterns end in [%]. *)
Fixpoint like (p : list ascii) : list ascii -> bool :=
  match p with
  | [] => fun s => match s with [] => true | _ => false end
  | c :: p' =>
      if Ascii.eqb c "%" then
        fix star (s : list ascii) : bool :=
          like p' s || match s with [] => false | _ :: s' => star s' end
      else if Ascii.eqb c "_" then
        fun s => match s with [] => false | _ :: s' => like p' s' end
      else if Ascii.eqb c "\" then
        match p' with
        | [] => fun _ => false
        | d :: p'' =>
            fun s => match s with
                     | [] => false
                     | e :: s' => Ascii.eqb d e && like p'' s'
                     end
        end
      else
        fun s => match s with
                 | [] => false
                 | e :: s' => Ascii.eqb c e && like p' s'
                 end
  end.

Definition ilike (pattern s : string) : bool :=
  like (List.map lower (list_ascii_of_string pattern))
       (List.map lower (list_ascii_of_string s)).

(** *** LIMIT and OFFSET *)

(** [range(from, to)]: skip [from] rows and return at most [to - from + 1],
    as OFFSET and LIMIT do.  This is the store's part of a range request.
    What the hosted API in front of the store answers when [from] lies
    beyond the last row is its own matter ([listing_reply] below). *)
Definition range {A} (from to : Z) (rows : list A) : list A :=
  take (Z.to_nat (to - from + 1)) (drop (Z.to_nat from) rows).

(** *** Sets of strings

    [new Set(values)] adds the values one by one and keeps each the first
    time it is seen; [Array.from] lists them in that order. *)
Fixpoint Set_add_all (set : list string) (values : list string) : list string :=
  match values with
  | [] => set
  | v :: values' =>
      if existsb (String.eqb v) set then Set_add_all set values'
      else Set_add_all (set ++ [v]) values'
  end.

Definition Set_from (values : list string) : list string := Set_add_all [] values.

(** ** The listing page, [BooksPage.tsx] *)

Module BooksPage.

Definition BOOKS_PER_PAGE : Z := 5.

Inductive SortBy := newest | oldest | year.

(** [or(`title.ilike.%q%,author.ilike.%q%`)]: the query is pasted between
    two [%] as it was typed.  The API reads the string as a filter
    expression before the store sees the pattern; characters of that
    grammar in the query (comma, parentheses, double quote, and [*], which
    it takes for [%]) are not modelled. *)
Definition search_filter (searchQuery : string) (b : Book.t) : bool :=
  ilike ("%" ++ searchQuery ++ "%") (Book.title b)
  || ilike ("%" ++ searchQuery ++ "%") (Book.author b).

(** The rows that pass the two optional filters; an empty string is falsy
    and adds no filter. *)
Definition matching (searchQuery selectedGenre : string) (rows : list Book.t)
  : list Book.t :=
  let rows := if String.eqb searchQuery "" then rows
              else List.filter (search_filter searchQuery) rows in
  if String.eqb selectedGenre "" then rows
  else List.filter (fun b => String.eqb (Book.genre b) selectedGenre) rows.

(** One order that meets the order clause of the query, by a merge sort.
    The store may return any order that is sorted on the key, and another
    one at the next request ([listing_reply]). *)
Definition ordered (sortBy : SortBy) (rows : list Book.t) : list Book.t :=
  match sortBy with
  | newest => order_by created_at_desc rows
  | oldest => order_by created_at_asc rows
  | year => order_by published_year_desc rows
  end.

(** The query that [fetchBooks] builds, evaluated by OFFSET and LIMIT over
    [ordered]: the page's rows and the exact count of all matching rows.
    This is one reply the store may give to a range that starts within the
    matching rows; the replies it may give, the API's errors among them,
    are [listing_reply], and what the component does with a reply is
    [fetchBooks_settled]. *)
Definition fetchBooks (db : Db.t) (currentPage : Z)
    (searchQuery selectedGenre : string) (sortBy : SortBy)
  : list Book.t * Z :=
  let rows := ordered sortBy (matching searchQuery selectedGenre (Db.books db)) in
  let from := (currentPage - 1) * BOOKS_PER_PAGE in
  let to := from + BOOKS_PER_PAGE - 1 in
  (range from to rows, Z.of_nat (List.length rows)).

(** [totalPages = Math.ceil(totalBooks / BOOKS_PER_PAGE)] *)
Definition totalPages (totalBooks : Z) : Z :=
  (totalBooks + BOOKS_PER_PAGE - 1) / BOOKS_PER_PAGE.

(** [fetchGenres]: [Array.from(new Set(data.map((b) => b.genre)))] *)
Definition fetchGenres (db : Db.t) : list string :=
  Set_from (List.map Book.genre (Db.books db)).

(** The numbered page buttons,
    [Array.from({ length: totalPages }, (_, i) => i + 1)]. *)
Definition page_buttons (totalPages : Z) : list Z :=
  List.map (fun i => Z.of_nat i + 1) (seq 0 (Z.to_nat totalPages)).

(** The previous button, [(p) => Math.max(1, p - 1)], and the next button,
    [(p) => Math.min(totalPages, p + 1)]. *)
Definition previous_page (p : Z) : Z := Z.max 1 (p - 1).
Definition next_page (totalPages p : Z) : Z := Z.min totalPages (p + 1).

(** The component's state. *)
Record State := mkState {
  books : list Book.t;
  loading : bool;
  currentPage : Z;
  totalBooks : Z;
  searchQuery : string;
  selectedGenre : string;
  sortBy : SortBy }.

(** The state the component starts in. *)
Definition initial : State := mkState [] true 1 0 "" "" newest.

(** The reply [{ data, error, count }] that [fetchBooks] awaits: the rows of
    the page with the exact count of all matching rows, or an error. *)
Inductive Reply :=
| Data (data : list Book.t) (count : Z)
| Failed.

(** [fetchBooks] from the reply on: the rows and the count are stored; an
    error is thrown to the catch, which logs it and leaves both as they
    were; the spinner stops either way. *)
Definition fetchBooks_settled (reply : Reply) (st : State) : State :=
  match reply with
  | Data data count =>
      mkState data false (currentPage st) count (searchQuery st)
        (selectedGenre st) (sortBy st)
  | Failed =>
      mkState (books st) false (currentPage st) (totalBooks st) (searchQuery st)
        (selectedGenre st) (sortBy st)
  end.

(** Typing in the search box: [setSearchQuery(e.target.value)]. *)
Definition onSearchChange (value : string) (st : State) : State :=
  mkState (books st) (loading st) (currentPage st) (totalBooks st) value
    (selectedGenre st) (sortBy st).

(** Submitting the search form: [setCurrentPage(1)]. *)
Definition handleSearch (st : State) : State :=
  mkState (books st) (loading st) 1 (totalBooks st) (searchQuery st)
    (selectedGenre st) (sortBy st).

(** The genre and sort menus set their value and [setCurrentPage(1)]. *)
Definition onGenreChange (value : string) (st : State) : State :=
  mkState (books st) (loading st) 1 (totalBooks st) (searchQuery st) value
    (sortBy st).
Definition onSortChange (value : SortBy) (st : State) : State :=
  mkState (books st) (loading st) 1 (totalBooks st) (searchQuery st)
    (selectedGenre st) value.

(** The pagination buttons; [totalPages] is computed from [totalBooks]. *)
Definition onPrevious (st : State) : State :=
  mkState (books st) (loading st) (previous_page (currentPage st)) (totalBooks st)
    (searchQuery st) (selectedGenre st) (sortBy st).
Definition onNext (st : State) : State :=
  mkState (books st) (loading st)
    (next_page (totalPages (totalBooks st)) (currentPage st)) (totalBooks st)
    (searchQuery st) (selectedGenre st) (sortBy st).
Definition onPage (page : Z) (st : State) : State :=
  mkState (books st) (loading st) page (totalBooks st) (searchQuery st)
    (selectedGenre st) (sortBy st).

(** What is shown: the spinner, the empty state, or the books with the
    pagination bar, which is rendered when there is more than one page. *)
Inductive View :=
| Spinner
| NoBooksFound
| Listing (books : list Book.t) (pagination : option (list Z)).

Definition render (st : State) : View :=
  if loading st then Spinner
  else
    match books st with
    | [] => NoBooksFound
    | _ =>
        Listing (books st)
          (if 1 <? totalPages (totalBooks st)
           then Some (page_buttons (totalPages (totalBooks st)))
           else None)
    end.

End BooksPage.

(** ** Numbers on the page

    The page computes the average in JavaScript numbers, which are IEEE 754
    binary64 values.  A number is carried here as the rational it denotes.
    Ratings are integers between 1 and 5 and an array holds fewer than 2^32
    elements, so every partial sum of [reduce] is an integer below 2^53 and
    exact; the quotient is rounded to the nearest binary64 number. *)

(** The exponent of a rational [x <> 0]: 2^e <= |x| < 2^(e+1). *)
Definition exponent (x : Q) : Z :=
  let k := Z.log2 (Z.abs (Qnum x)) - Z.log2 (Zpos (Qden x)) in
  if Qle_bool (2 ^ k) (Qabs x) then k else k - 1.

(** The nearest integer, a half going to the even neighbour. *)
Definition round_ties_even (x : Q) : Z :=
  let f := Qfloor x in
  match (x - inject_Z f ?= 1 # 2)%Q with
  | Lt => f
  | Gt => f + 1
  | Eq => if Z.even f then f else f + 1
  end.

(** The binary64 number nearest to [x] (roundTiesToEven): 53 significant
    bits at the exponent of [x].  Overflow and subnormal numbers are left
    out: a quotient of two integers below 2^53 is far from both. *)
Definition binary64 (x : Q) : Q :=
  if Qeq_bool x 0 then 0%Q
  else
    let e := exponent x - 52 in
    (inject_Z (round_ties_even (x / 2 ^ e)) * 2 ^ e)%Q.

(** [Math.round]: the nearest integer, halves towards plus infinity. *)
Definition Math_round (x : Q) : Z := Qfloor (x + (1 # 2)).

(** The integer [n] of [Number.prototype.toFixed(1)] for [x >= 0]: [n / 10]
    is as close to [x] as possible, the larger [n] on a tie. *)
Definition tenths (x : Q) : Z := Qfloor (x * 10 + (1 # 2)).

Definition digits (n : Z) : string :=
  NilZero.string_of_uint (N.to_uint (Z.to_N n)).

(** [x.toFixed(1)] *)
Definition toFixed1 (x : Q) : string :=
  if Qle_bool 0 x then
    digits (tenths x / 10) ++ "." ++ digits (tenths x mod 10)
  else
    "-" ++ digits (tenths (- x) / 10) ++ "." ++ digits (tenths (- x) mod 10).

(** ** The book page, [BookDetailsPage.tsx] *)

Module BookDetailsPage.

(** The route parameter, the session's user and the component's state. *)
Record State := mkState {
  id : uuid;
  user : option uuid;
  book : option Book.t;
  reviews : list Review.t;
  loading : bool;
  rating : Z;
  reviewText : string;
  submitting : bool;
  editingReview : option uuid;
  error : option PgError }.

(** Truthiness of a [string | null]. *)
Definition truthy (s : option string) : bool :=
  match s with
  | Some x => negb (String.eqb x "")
  | None => false
  end.

Definition fetchBookDetails (db : Db.t) (st : State) : State :=
  mkState (id st) (user st)
    (List.find (fun b => String.eqb (Book.id b) (id st)) (Db.books db))
    (reviews st) false (rating st) (reviewText st) (submitting st)
    (editingReview st) (error st).

Definition fetchReviews (db : Db.t) (st : State) : State :=
  mkState (id st) (user st) (book st)
    (order_by review_created_at_desc
       (List.filter (fun r => String.eqb (Review.book_id r) (id st)) (Db.reviews db)))
    (loading st) (rating st) (reviewText st) (submitting st)
    (editingReview st) (error st).

(** The store call of [handleSubmitReview]: update when a review is being
    edited, insert otherwise. *)
Definition submit_call (u : uuid) (new_id : uuid) (now : timestamptz)
    (db : Db.t) (st : State) : result Db.t :=
  if truthy (editingReview st) then
    let* res := update_review (Some u) now (default ""%string (editingReview st))
                  (rating st) (reviewText st) db in
    Ok (fst res)
  else
    insert_review (Some u) new_id now
      (mkReviewInsert (id st) u (rating st) (reviewText st)) db.

(** Returns the store, the state and the route navigated to, if any. *)
Definition handleSubmitReview (new_id : uuid) (now : timestamptz)
    (db : Db.t) (st : State) : Db.t * State * option string :=
  match user st with
  | None => (db, st, Some "/login"%string)
  | Some u =>
      match submit_call u new_id now db st with
      | Ok db' =>
          (db',
           fetchReviews db'
             (mkState (id st) (user st) (book st) (reviews st) (loading st)
                5 ""%string false None None),
           None)
      | Err e =>
          (db,
           mkState (id st) (user st) (book st) (reviews st) (loading st)
             (rating st) (reviewText st) false (editingReview st) (Some e),
           None)
      end
  end.

Definition handleEditReview (review : Review.t) (st : State) : State :=
  mkState (id st) (user st) (book st) (reviews st) (loading st)
    (Review.rating review) (Review.review_text review) (submitting st)
    (Some (Review.id review)) (error st).

(** [confirmed] is the answer to the [confirm] dialog. *)
Definition handleDeleteReview (confirmed : bool) (reviewId : uuid)
    (db : Db.t) (st : State) : Db.t * State :=
  if confirmed then
    match delete_review (user st) reviewId db with
    | Ok (db', _) => (db', fetchReviews db' st)
    | Err _ => (db, st)
    end
  else (db, st).

(** Returns the store and the route navigated to, if any. *)
Definition handleDeleteBook (confirmed : bool) (db : Db.t) (st : State)
  : Db.t * option string :=
  if confirmed then
    match delete_book (user st) (id st) db with
    | Ok (db', _) => (db', Some "/"%string)
    | Err _ => (db, None)
    end
  else (db, None).

(** [reviews.reduce((sum, r) => sum + r.rating, 0) / reviews.length], or 0 *)
Definition averageRating (st : State) : Q :=
  let total := fold_left (fun sum r => sum + Review.rating r) (reviews st) 0 in
  if (0 <? List.length (reviews st))%nat then
    binary64 (inject_Z total / inject_Z (Z.of_nat (List.length (reviews st))))
  else 0%Q.

(** [reviews.find((r) => r.user_id === user?.id)] *)
Definition userReview (st : State) : option Review.t :=
  List.find
    (fun r => match user st with
              | Some u => String.eqb (Review.user_id r) u
              | None => false
              end)
    (reviews st).

(** What the page shows once the book is loaded. *)
Record Page := mkPage {
  stars : list bool;
  label : string;
  owner_controls : bool;
  review_form : option string;
  review_controls : list bool }.

Inductive View :=
| Spinner
| BookNotFound
| Details (p : Page).

Definition render (st : State) : View :=
  if loading st then Spinner
  else
    match book st with
    | None => BookNotFound
    | Some b =>
        Details
          (mkPage
             (List.map (fun i => i <? Math_round (averageRating st)) [0; 1; 2; 3; 4])
             (toFixed1 (averageRating st))
             (match user st with
              | Some u => String.eqb (Book.added_by b) u
              | None => false
              end)
             (match user st, userReview st with
              | Some _, None =>
                  Some (if truthy (editingReview st)
                        then "Edit Your Review" else "Write a Review")%string
              | _, _ => None
              end)
             (List.map
                (fun r => match user st with
                          | Some u => String.eqb (Review.user_id r) u
                          | None => false
                          end)
                (reviews st)))
    end.

End BookDetailsPage.

(** ** The book form, [BookFormPage.tsx] *)

Module BookFormPage.

(** The [published_year] input: [type="number" required min="1000"
    max={new Date().getFullYear()}], default step 1.  The browser lets the
    form submit only when the value is in range. *)
Definition published_year_valid (current_year value : Z) : bool :=
  (1000 <=? value) && (value <=? current_year).

(** What [handleSubmit] can catch: an error of the store, or the
    TypeError of [user!.id] without a user. *)
Inductive Thrown :=
| StoreError (e : PgError)
| TypeError.

(** [handleSubmit]: [id] is the route parameter, present on the edit route.
    Returns the store and either the route navigated to or the error. *)
Definition handleSubmit (id : option uuid) (user : option uuid)
    (new_id : uuid) (now : timestamptz) (formData : BookForm) (db : Db.t)
  : Db.t * (string + Thrown) :=
  if BookDetailsPage.truthy id then
    let id := default ""%string id in
    match update_book user now id formData db with
    | Ok (db', _) => (db', inl ("/books/" ++ id)%string)
    | Err e => (db, inr (StoreError e))
    end
  else
    match user with
    | None => (db, inr TypeError)
    | Some u =>
        match insert_book user new_id now formData u db with
        | Ok db' => (db', inl ("/books/" ++ new_id)%string)
        | Err e => (db, inr (StoreError e))
        end
    end.

(** The form's initial [formData]; the year is [new Date().getFullYear()]. *)
Definition initial_formData (current_year : Z) : BookForm :=
  mkBookForm "" "" "" "" current_year.

(** [fetchBook], run on the edit route: a book of another user sends the
    visitor home, the user's own book fills the form, and a missing book
    leaves the form as it is.  Returns the form and the route navigated
    to, if any.  The catch branch, which sends the visitor home after an
    error of the select, has no part here: the store raises nothing on a
    select by a uuid (it does on a route parameter that is no uuid). *)
Definition fetchBook (id : uuid) (user : option uuid) (formData : BookForm)
    (db : Db.t) : BookForm * option string :=
  match List.find (fun b => String.eqb (Book.id b) id) (Db.books db) with
  | Some data =>
      if negb (match user with
               | Some u => String.eqb (Book.added_by data) u
               | None => false
               end)
      then (formData, Some "/"%string)
      else (mkBookForm (Book.title data) (Book.author data) (Book.description data)
              (Book.genre data) (Book.published_year data), None)
  | None => (formData, None)
  end.

End BookFormPage.

(** ** The profile page, [ProfilePage.tsx] *)

Module ProfilePage.

(** [fetchUserData]: the user's books, newest first, and the user's reviews,
    newest first, each with the book it refers to (the embedded [books]
    of the select). *)
Definition fetchUserData (user : uuid) (db : Db.t)
  : list Book.t * list (Review.t * option Book.t) :=
  (order_by created_at_desc
     (List.filter (fun b => String.eqb (Book.added_by b) user) (Db.books db)),
   List.map
     (fun r => (r, List.find (fun b => String.eqb (Book.id b) (Review.book_id r))
                     (Db.books db)))
     (order_by review_created_at_desc
        (List.filter (fun r => String.eqb (Review.user_id r) user) (Db.reviews db)))).

End ProfilePage.

(** ** Invariants and outcomes of the store *)

(** The primary keys of the three tables. *)
Definition books_pkey (db : Db.t) : Prop := List.NoDup (List.map Book.id (Db.books db)).
Definition reviews_pkey (db : Db.t) : Prop := List.NoDup (List.map Review.id (Db.reviews db)).
Definition profiles_pkey (db : Db.t) : Prop := List.NoDup (List.map Profile.id (Db.profiles db)).

(** [UNIQUE(book_id, user_id)] on [reviews]. *)
Definition reviews_pairs_unique (db : Db.t) : Prop :=
  List.NoDup (List.map (fun r => (Review.book_id r, Review.user_id r)) (Db.reviews db)).

(** The store after the owner's update: row [B] is replaced, in place. *)
Definition books_after_update (now : timestamptz) (f : BookForm) (B : Book.t)
    (db : Db.t) : Db.t :=
  Db.mk (Db.profiles db)
    (List.map (fun b => if String.eqb (Book.id b) (Book.id B)
                        then book_set now f b else b) (Db.books db))
    (Db.reviews db).

(** The store after the owner's delete: row [B] and its reviews are gone. *)
Definition books_after_delete (B : Book.t) (db : Db.t) : Db.t :=
  Db.mk (Db.profiles db)
    (List.filter (fun b => negb (String.eqb (Book.id b) (Book.id B))) (Db.books db))
    (List.filter (fun r => negb (String.eqb (Review.book_id r) (Book.id B)))
       (Db.reviews db)).

(** The text form of a uuid as the store prints it: 8-4-4-4-12 lower-case
    hexadecimal digits.  On this form equality of uuids is equality of
    strings. *)
Definition hex_digit (c : ascii) : bool :=
  let n := nat_of_ascii c in
  ((48 <=? n)%nat && (n <=? 57)%nat) || ((97 <=? n)%nat && (n <=? 102)%nat).

Definition canonical_uuid (s : string) : bool :=
  let cs := list_ascii_of_string s in
  (List.length cs =? 36)%nat
  && forallb
       (fun ic : nat * ascii =>
          if ((fst ic =? 8) || (fst ic =? 13) || (fst ic =? 18) || (fst ic =? 23))%nat
          then Ascii.eqb (snd ic) "-"
          else hex_digit (snd ic))
       (combine (seq 0 36) cs).

(** ** A small catalogue, the running example *)

Definition alice : Profile.t := Profile.mk "u-alice" "Alice" "alice@example.org" 10.
Definition bob : Profile.t := Profile.mk "u-bob" "Bob" "bob@example.org" 20.

Definition hobbit : Book.t :=
  Book.mk "b-hobbit" "The Hobbit" "J.R.R. Tolkien" "There and back again."
    "Fantasy" 1937 "u-alice" 100 100.
Definition dune : Book.t :=
  Book.mk "b-dune" "Dune" "Frank Herbert" "The spice must flow."
    "Science Fiction" 1965 "u-bob" 100 100.

Definition alice_on_dune : Review.t :=
  Review.mk "r-1" "b-dune" "u-alice" 5 "A classic." 150 150.

Definition shelf : Db.t := Db.mk [alice; bob] [hobbit; dune] [alice_on_dune].

Definition second_edition : BookForm :=
  mkBookForm "Dune" "Frank Herbert" "Revised." "Science Fiction" 1965.

(** The row a successful insert of [p] adds to [reviews]. *)
Definition review_row (new_id : uuid) (now : timestamptz) (p : ReviewInsert) : Review.t :=
  Review.mk new_id (i_book_id p) (i_user_id p) (i_rating p) (i_review_text p) now now.

(** The checks of an insert into [reviews] other than the rating's: the
    caller is the author, the id is fresh, the pair is new, and the book and
    the author's profile exist. *)
Definition review_insertable (uid : option uuid) (new_id : uuid) (p : ReviewInsert)
    (db : Db.t) : Prop :=
  uid = Some (i_user_id p)
  /\ (forall r, In r (Db.reviews db) -> Review.id r <> new_id)
  /\ (forall r, In r (Db.reviews db) ->
        ~ (Review.book_id r = i_book_id p /\ Review.user_id r = i_user_id p))
  /\ (exists b, In b (Db.books db) /\ Book.id b = i_book_id p)
  /\ (exists q, In q (Db.profiles db) /\ Profile.id q = i_user_id p).



(** A catalogue of twelve volumes, one more than two full pages. *)
Definition volume (n : Z) : Book.t :=
  Book.mk ("v-" ++ digits n)%string ("Volume " ++ digits n)%string "Anon." ""
    "Serial" 2000
    "u-alice" (1000 + n) (1000 + n).

Definition serial : Db.t :=
  Db.mk [alice] (List.map volume [1; 2; 3; 4; 5; 6; 7; 8; 9; 10; 11; 12]) [].

(** The relation each sort key orders by. *)
Definition sort_order (sortBy : BooksPage.SortBy) : relation Book.t :=
  match sortBy with
  | BooksPage.newest => created_at_desc
  | BooksPage.oldest => created_at_asc
  | BooksPage.year => published_year_desc
  end.

(** The order the specification asks for: the sort key first, and id
    ascending between books with equal keys. *)
Definition with_id_tiebreak (R : relation Book.t) (a b : Book.t) : Prop :=
  R a b /\ (R b a -> String.leb (Book.id a) (Book.id b) = true).

(** ** The API's reply to the listing's query

    [fetchBooks] asks for the rows [from .. to] of the matching books in the
    order of the sort key, with their exact count.  The store may return the
    rows in any order that is sorted on the key, and need not repeat that
    order in the next request.  A range that starts at row 0, or at a row
    that exists, is answered with its rows.  What the hosted API answers to
    a range that starts beyond the last row is not decided by the
    repository: the empty page with the count, or an error (range not
    satisfiable).  Both are admitted here. *)
Definition listing_reply (db : Db.t) (currentPage : Z)
    (searchQuery selectedGenre : string) (sortBy : BooksPage.SortBy)
    (reply : BooksPage.Reply) : Prop :=
  exists rows,
    order_result (sort_order sortBy)
      (BooksPage.matching searchQuery selectedGenre (Db.books db)) rows
    /\ let from := (currentPage - 1) * BooksPage.BOOKS_PER_PAGE in
       let to := from + BooksPage.BOOKS_PER_PAGE - 1 in
       let count := Z.of_nat (List.length rows) in
       if (from =? 0) || ((0 <? from) && (from <? count))
       then reply = BooksPage.Data (range from to rows) count
       else reply = BooksPage.Data [] count \/ reply = BooksPage.Failed.

(** One run of the effect: [fetchBooks] with the state's controls and a
    reply the API may give. *)
Definition refetch (db : Db.t) (st st' : BooksPage.State) : Prop :=
  exists reply,
    listing_reply db (BooksPage.currentPage st) (BooksPage.searchQuery st)
      (BooksPage.selectedGenre st) (BooksPage.sortBy st) reply
    /\ st' = BooksPage.fetchBooks_settled reply st.

(** The state holds the rows and the count of a reply to its own controls:
    the last fetch went through and nothing was changed since. *)
Definition in_step (db : Db.t) (st : BooksPage.State) : Prop :=
  BooksPage.loading st = false
  /\ listing_reply db (BooksPage.currentPage st) (BooksPage.searchQuery st)
       (BooksPage.selectedGenre st) (BooksPage.sortBy st)
       (BooksPage.Data (BooksPage.books st) (BooksPage.totalBooks st)).

(** The reply the evaluation [BooksPage.fetchBooks] gives to a page in
    range, and the error otherwise. *)
Definition evaluated (db : Db.t) (q g : string) (sortBy : BooksPage.SortBy)
    (page : Z) : BooksPage.Reply :=
  if (1 <=? page)
     && (((page - 1) * 5 <? Z.of_nat (List.length (BooksPage.matching q g (Db.books db))))
         || (page =? 1))
  then BooksPage.Data (fst (BooksPage.fetchBooks db page q g sortBy))
         (snd (BooksPage.fetchBooks db page q g sortBy))
  else BooksPage.Failed.

(** The listing of [serial], oldest first, on its third and last page. *)
Definition last_page : BooksPage.State :=
  BooksPage.fetchBooks_settled (evaluated serial "" "" BooksPage.oldest 3)
    (BooksPage.onPage 3 (BooksPage.onSortChange BooksPage.oldest BooksPage.initial)).

(** No two different matching books have the same sort key. *)
Definition keys_distinct (sortBy : BooksPage.SortBy) (rows : list Book.t) : Prop :=
  forall a b, In a rows -> In b rows ->
    sort_order sortBy a b -> sort_order sortBy b a -> a = b.

(** The store after the owner's update of profile [P]. *)
Definition profiles_after_update (patch : ProfilePatch) (P : Profile.t)
    (db : Db.t) : Db.t :=
  Db.mk
    (List.map (fun p => if String.eqb (Profile.id p) (Profile.id P)
                        then profile_set patch p else p) (Db.profiles db))
    (Db.books db) (Db.reviews db).

Definition new_address : ProfilePatch :=
  mkProfilePatch None None (Some "alice@elsewhere.example"%string) None.

(** Alice looking at [dune], which she has reviewed. *)
Definition alice_view : BookDetailsPage.State :=
  BookDetailsPage.mkState "b-dune" (Some "u-alice"%string) (Some dune)
    [alice_on_dune] false 5 "" false None None.

(** The row a successful insert of [formData] adds to [books]. *)
Definition book_row (new_id : uuid) (now : timestamptz) (f : BookForm)
    (added_by : uuid) : Book.t :=
  Book.mk new_id (f_title f) (f_author f) (f_description f) (f_genre f)
    (f_published_year f) added_by now now.

(** A book dated well before the form's lower bound. *)
Definition iliad : BookForm :=
  mkBookForm "The Iliad" "Homer" "Sing, goddess." "Poetry" (-750).

(** Case-insensitive substring, in the specification's words: the folded
    query occurs somewhere inside the folded text. *)
Definition contains_ci (q s : string) : Prop :=
  exists pre post,
    List.map lower (list_ascii_of_string s)
    = pre ++ List.map lower (list_ascii_of_string q) ++ post.

(** A character with no special meaning in a LIKE pattern. *)
Definition plain_char (c : ascii) : bool :=
  negb (Ascii.eqb c "%" || Ascii.eqb c "_" || Ascii.eqb c "\").

Definition plain (q : string) : Prop :=
  Forall (fun c => plain_char c = true) (list_ascii_of_string q).

(** ** Consistency of the store

    What the migration's constraints promise of every state of the three
    tables. *)

(** [email UNIQUE] on [profiles]. *)
Definition emails_unique (db : Db.t) : Prop :=
  List.NoDup (List.map Profile.email (Db.profiles db)).

(** [CHECK (rating >= 1 AND rating <= 5)] on every stored review. *)
Definition ratings_in_range (l : list Review.t) : Prop :=
  Forall (fun r => 1 <= Review.rating r <= 5) l.

(** [books.added_by REFERENCES profiles(id)] *)
Definition books_added_by_fkey (db : Db.t) : Prop :=
  forall b, In b (Db.books db) ->
    exists q, In q (Db.profiles db) /\ Profile.id q = Book.added_by b.

(** [reviews.book_id REFERENCES books(id)] *)
Definition reviews_book_id_fkey (db : Db.t) : Prop :=
  forall r, In r (Db.reviews db) ->
    exists b, In b (Db.books db) /\ Book.id b = Review.book_id r.

(** [reviews.user_id REFERENCES profiles(id)] *)
Definition reviews_user_id_fkey (db : Db.t) : Prop :=
  forall r, In r (Db.reviews db) ->
    exists q, In q (Db.profiles db) /\ Profile.id q = Review.user_id r.

Record consistent (db : Db.t) : Prop := mkConsistent {
  c_profiles_pkey : profiles_pkey db;
  c_emails_unique : emails_unique db;
  c_books_pkey : books_pkey db;
  c_books_added_by_fkey : books_added_by_fkey db;
  c_reviews_pkey : reviews_pkey db;
  c_reviews_pairs_unique : reviews_pairs_unique db;
  c_ratings_in_range : ratings_in_range (Db.reviews db);
  c_reviews_book_id_fkey : reviews_book_id_fkey db;
  c_reviews_user_id_fkey : reviews_user_id_fkey db }.

(** The empty store. *)
Definition empty_db : Db.t := Db.mk [] [] [].

(** The statements the pages and the sign-up trigger send to the store. *)
Inductive Statement :=
| SignUp (NEW : AuthUser) (now : timestamptz)
| UpdateProfile (uid : option uuid) (id : uuid) (patch : ProfilePatch)
| InsertBook (uid : option uuid) (new_id : uuid) (now : timestamptz)
    (f : BookForm) (added_by : uuid)
| UpdateBook (uid : option uuid) (now : timestamptz) (id : uuid) (f : BookForm)
| DeleteBook (uid : option uuid) (id : uuid)
| InsertReview (uid : option uuid) (new_id : uuid) (now : timestamptz)
    (p : ReviewInsert)
| UpdateReview (uid : option uuid) (now : timestamptz) (id : uuid)
    (rating : Z) (text : string)
| DeleteReview (uid : option uuid) (id : uuid).

(** A statement that raises leaves the store as it was. *)
Definition execute (s : Statement) (db : Db.t) : Db.t :=
  let outcome :=
    match s with
    | SignUp NEW now => handle_new_user NEW now db
    | UpdateProfile uid id patch =>
        let* res := update_profile uid id patch db in Ok (fst res)
    | InsertBook uid new_id now f added_by => insert_book uid new_id now f added_by db
    | UpdateBook uid now id f =>
        let* res := update_book uid now id f db in Ok (fst res)
    | DeleteBook uid id =>
        let* res := delete_book uid id db in Ok (fst res)
    | InsertReview uid new_id now p => insert_review uid new_id now p db
    | UpdateReview uid now id rating text =>
        let* res := update_review uid now id rating text db in Ok (fst res)
    | DeleteReview uid id =>
        let* res := delete_review uid id db in Ok (fst res)
    end in
  match outcome with
  | Ok db' => db'
  | Err _ => db
  end.

Definition run (log : list Statement) (db : Db.t) : Db.t :=
  fold_left (fun d s => execute s d) log db.

(** A morning at the catalogue: two sign-ups, a book, a review, a second
    review by the same reader, and a rating out of range. *)
Definition morning : list Statement :=
  [SignUp (mkAuthUser "u-alice" (Some "Alice"%string) "alice@example.org") 10;
   SignUp (mkAuthUser "u-bob" None "bob@example.org") 20;
   InsertBook (Some "u-bob"%string) "b-dune" 100
     (mkBookForm "Dune" "Frank Herbert" "The spice must flow." "Science Fiction" 1965)
     "u-bob";
   InsertReview (Some "u-alice"%string) "r-1" 150
     (mkReviewInsert "b-dune" "u-alice" 5 "A classic.");
   InsertReview (Some "u-alice"%string) "r-2" 160
     (mkReviewInsert "b-dune" "u-alice" 4 "Again.");
   InsertReview (Some "u-bob"%string) "r-3" 170
     (mkReviewInsert "b-dune" "u-bob" 6 "Six stars!")].

(** The store after the author's edit of review [R]. *)
Definition reviews_after_update (now : timestamptz) (rating : Z) (text : string)
    (R : Review.t) (db : Db.t) : Db.t :=
  Db.mk (Db.profiles db) (Db.books db)
    (List.map (fun r => if String.eqb (Review.id r) (Review.id R)
                        then review_set now rating text r else r) (Db.reviews db)).

(** The store after the author's delete of review [R]. *)
Definition reviews_after_delete (R : Review.t) (db : Db.t) : Db.t :=
  Db.mk (Db.profiles db) (Db.books db)
    (List.filter (fun r => negb (String.eqb (Review.id r) (Review.id R)))
       (Db.reviews db)).

(** ** Numbers: what the statements about the average refer to *)







(** * Properties *)

(** ** Helper lemmas on tables *)

Lemma policy_authenticated uid x :
  is_authenticated uid && auth_uid_eq uid x = auth_uid_eq uid x.
Proof. destruct uid; reflexivity. Qed.

Lemma auth_uid_eq_true uid x : auth_uid_eq uid x = true <-> uid = Some x.
Proof.
  destruct uid as [u|]; simpl.
  - rewrite String.eqb_eq. split; congruence.
  - split; discriminate.
Qed.

Section Rows.
Context {A : Type}.
Implicit Types (l : list A) (sel : A -> bool).

Lemma key_unique (key : A -> string) l a b :
  List.NoDup (List.map key l) -> In a l -> In b l -> key a = key b -> a = b.
Proof.
  induction l as [|x l IH]; simpl; [tauto|].
  intros Hnd Ha Hb Hk. inversion Hnd as [|? ? Hx Hnd']; subst.
  destruct Ha as [Ha|Ha], Hb as [Hb|Hb]; subst; auto.
  - exfalso. apply Hx. rewrite Hk. now apply in_map.
  - exfalso. apply Hx. rewrite <- Hk. now apply in_map.
Qed.

Lemma filter_none sel l :
  (forall x, In x l -> sel x = false) -> List.filter sel l = [].
Proof.
  induction l as [|x l IH]; intros H; simpl; [reflexivity|].
  rewrite H by (simpl; auto). apply IH. intros; apply H; simpl; auto.
Qed.

Lemma filter_all sel l :
  (forall x, In x l -> sel x = true) -> List.filter sel l = l.
Proof.
  induction l as [|x l IH]; intros H; simpl; [reflexivity|].
  rewrite H by (simpl; auto). f_equal. apply IH. intros; apply H; simpl; auto.
Qed.

Lemma key_count (key : A -> string) l a :
  List.NoDup (List.map key l) -> In a l ->
  List.length (List.filter (fun x => String.eqb (key x) (key a)) l) = 1%nat.
Proof.
  induction l as [|x l IH]; simpl; [tauto|].
  intros Hnd Hin. inversion Hnd as [|? ? Hx Hnd']; subst.
  destruct (String.eqb_spec (key x) (key a)) as [Hk|Hk].
  - simpl. f_equal.
    rewrite filter_none; [reflexivity|]. intros y Hy.
    destruct (String.eqb_spec (key y) (key a)) as [Hy'|]; [|reflexivity].
    exfalso. apply Hx. rewrite Hk, <- Hy'. now apply in_map.
  - destruct Hin as [->|Hin]; [congruence|]. now apply IH.
Qed.

Lemma update_rows_map sel (upd : A -> result A) (g : A -> A) l :
  (forall x, In x l -> sel x = true -> upd x = Ok (g x)) ->
  update_rows sel upd l =
    Ok (List.map (fun x => if sel x then g x else x) l,
        List.length (List.filter sel l)).
Proof.
  induction l as [|x l IH]; intros Hupd; simpl; [reflexivity|].
  rewrite IH by (intros; apply Hupd; simpl; auto).
  destruct (sel x) eqn:Hs; simpl; [|reflexivity].
  rewrite (Hupd x) by (simpl; auto). reflexivity.
Qed.

Lemma update_rows_none sel (upd : A -> result A) l :
  (forall x, In x l -> sel x = false) -> update_rows sel upd l = Ok (l, O).
Proof.
  induction l as [|x l IH]; intros H; simpl; [reflexivity|].
  rewrite H by (simpl; auto). rewrite IH by (intros; apply H; simpl; auto).
  reflexivity.
Qed.

Lemma delete_rows_none sel l :
  (forall x, In x l -> sel x = false) -> delete_rows sel l = (l, O).
Proof.
  intros H. unfold delete_rows. rewrite (filter_none sel l H). simpl. f_equal.
  apply filter_all. intros x Hx. now rewrite H.
Qed.

End Rows.

(** On a table with a primary key, the WHERE clause [id = B.id] together
    with an owner policy selects the row [B] when the caller owns it, and no
    row otherwise. *)
Lemma book_selection uid db B (owner_policy : option uuid -> Book.t -> bool) :
  (forall b, owner_policy uid b = is_authenticated uid && auth_uid_eq uid (Book.added_by b)) ->
  books_pkey db -> In B (Db.books db) ->
  forall b, In b (Db.books db) ->
    String.eqb (Book.id b) (Book.id B) && owner_policy uid b =
    String.eqb (Book.id b) (Book.id B) && auth_uid_eq uid (Book.added_by B).
Proof.
  intros Hpol Hpk HB b Hb.
  destruct (String.eqb_spec (Book.id b) (Book.id B)) as [Hid|]; [|reflexivity].
  simpl. rewrite (key_unique Book.id _ b B Hpk Hb HB Hid).
  rewrite Hpol. apply policy_authenticated.
Qed.

(** ** Books: update and delete by owner only *)

Lemma update_book_owner uid now f db B :
  books_pkey db -> In B (Db.books db) -> int4 (f_published_year f) = true ->
  auth_uid_eq uid (Book.added_by B) = true ->
  update_book uid now (Book.id B) f db = Ok (books_after_update now f B db, 1%nat).
Proof.
  intros Hpk HB Hy Hown. unfold update_book. rewrite Hy. simpl.
  rewrite (update_rows_map _ _ (book_set now f)).
  - simpl. unfold books_after_update. do 2 f_equal.
    + f_equal. apply map_ext_in. intros b Hb.
      rewrite (book_selection uid db B books_update_using) by auto.
      rewrite Hown, andb_true_r. reflexivity.
    + rewrite <- (key_count Book.id (Db.books db) B Hpk HB).
      f_equal. apply filter_ext_in. intros b Hb.
      rewrite (book_selection uid db B books_update_using) by auto.
      rewrite Hown, andb_true_r. reflexivity.
  - intros b Hb Hsel. apply andb_prop in Hsel as [_ Hu].
    unfold books_update_check, book_set. simpl.
    unfold books_update_using in Hu. rewrite Hu. reflexivity.
Qed.

Lemma update_book_other uid now f db B :
  books_pkey db -> In B (Db.books db) -> int4 (f_published_year f) = true ->
  auth_uid_eq uid (Book.added_by B) = false ->
  update_book uid now (Book.id B) f db = Ok (db, O).
Proof.
  intros Hpk HB Hy Hown. unfold update_book. rewrite Hy. simpl.
  rewrite update_rows_none; [destruct db; reflexivity|].
  intros b Hb. rewrite (book_selection uid db B books_update_using) by auto.
  rewrite Hown. apply andb_false_r.
Qed.

Lemma delete_book_owner uid db B :
  books_pkey db -> In B (Db.books db) ->
  auth_uid_eq uid (Book.added_by B) = true ->
  delete_book uid (Book.id B) db = Ok (books_after_delete B db, 1%nat).
Proof.
  intros Hpk HB Hown. unfold delete_book, delete_rows, books_after_delete. simpl.
  assert (Hsel : List.filter
            (fun b => String.eqb (Book.id b) (Book.id B) && books_delete_using uid b)
            (Db.books db)
          = List.filter (fun b => String.eqb (Book.id b) (Book.id B)) (Db.books db)).
  { apply filter_ext_in. intros b Hb.
    rewrite (book_selection uid db B books_delete_using) by auto.
    rewrite Hown. apply andb_true_r. }
  rewrite Hsel. do 2 f_equal.
  - f_equal.
    + apply filter_ext_in. intros b Hb.
      rewrite (book_selection uid db B books_delete_using) by auto.
      rewrite Hown, andb_true_r. reflexivity.
    + pose proof (key_count Book.id (Db.books db) B Hpk HB) as Hc.
      clear Hsel.
      destruct (List.filter _ (Db.books db)) as [|b0 [|? ?]] eqn:Hf;
        try (simpl in Hc; congruence).
      assert (Hb : In b0 [b0]) by (simpl; auto). rewrite <- Hf in Hb.
      apply filter_In in Hb as [_ Hb]. apply String.eqb_eq in Hb.
      apply filter_ext. intros r. simpl. rewrite Hb, orb_false_r. reflexivity.
  - apply (key_count Book.id (Db.books db) B Hpk HB).
Qed.

Lemma delete_book_other uid db B :
  books_pkey db -> In B (Db.books db) ->
  auth_uid_eq uid (Book.added_by B) = false ->
  delete_book uid (Book.id B) db = Ok (db, O).
Proof.
  intros Hpk HB Hown. unfold delete_book.
  assert (Hsel : forall b, In b (Db.books db) ->
            String.eqb (Book.id b) (Book.id B) && books_delete_using uid b = false).
  { intros b Hb. rewrite (book_selection uid db B books_delete_using) by auto.
    rewrite Hown. apply andb_false_r. }
  rewrite (delete_rows_none _ _ Hsel), (filter_none _ _ Hsel). simpl.
  rewrite filter_all by reflexivity. destruct db; reflexivity.
Qed.

Lemma shelf_books_pkey : books_pkey shelf.
Proof.
  unfold books_pkey. simpl.
  repeat (constructor; [simpl; intuition discriminate|]). constructor.
Defined.

(** C1, amended.  For every actor and every existing book B, [update] and
    [delete] take effect exactly when the actor's identity equals
    [B.added_by]: the owner's update replaces B, the owner's delete removes B
    with its reviews.  A request by anyone else, anonymous callers included,
    leaves the store as it was and completes without an error, with no row
    affected. *)
Theorem book_update_delete_owner_only
    (uid : option uuid) (now : timestamptz) (f : BookForm) (db : Db.t) (B : Book.t) :
  books_pkey db -> In B (Db.books db) -> int4 (f_published_year f) = true ->
  (uid = Some (Book.added_by B) ->
     update_book uid now (Book.id B) f db = Ok (books_after_update now f B db, 1%nat)
     /\ In (book_set now f B) (Db.books (books_after_update now f B db))
     /\ delete_book uid (Book.id B) db = Ok (books_after_delete B db, 1%nat)
     /\ ~ In B (Db.books (books_after_delete B db)))
  /\ (uid <> Some (Book.added_by B) ->
     update_book uid now (Book.id B) f db = Ok (db, O)
     /\ delete_book uid (Book.id B) db = Ok (db, O)).
Proof.
  intros Hpk HB Hy. split.
  - intros Hown. apply auth_uid_eq_true in Hown. repeat split.
    + now apply update_book_owner.
    + unfold books_after_update. simpl.
      apply in_map_iff. exists B. now rewrite String.eqb_refl.
    + now apply delete_book_owner.
    + unfold books_after_delete. simpl. rewrite filter_In.
      rewrite String.eqb_refl. simpl. intros [_ ?]; discriminate.
  - intros Hother.
    assert (Hown : auth_uid_eq uid (Book.added_by B) = false).
    { destruct (auth_uid_eq uid (Book.added_by B)) eqn:E; [|reflexivity].
      apply auth_uid_eq_true in E. contradiction. }
    split; [now apply update_book_other | now apply delete_book_other].
Qed.

Lemma book_update_delete_owner_only_witness :
  (Some "u-bob"%string = Some (Book.added_by dune) ->
     update_book (Some "u-bob"%string) 200 (Book.id dune) second_edition shelf
       = Ok (books_after_update 200 second_edition dune shelf, 1%nat)
     /\ In (book_set 200 second_edition dune)
          (Db.books (books_after_update 200 second_edition dune shelf))
     /\ delete_book (Some "u-bob"%string) (Book.id dune) shelf
        = Ok (books_after_delete dune shelf, 1%nat)
     /\ ~ In dune (Db.books (books_after_delete dune shelf)))
  /\ (Some "u-bob"%string <> Some (Book.added_by dune) ->
     update_book (Some "u-bob"%string) 200 (Book.id dune) second_edition shelf
       = Ok (shelf, O)
     /\ delete_book (Some "u-bob"%string) (Book.id dune) shelf = Ok (shelf, O)).
Proof.
  apply (book_update_delete_owner_only (Some "u-bob"%string) 200 second_edition
           shelf dune).
  - exact shelf_books_pkey.
  - simpl. right. left. reflexivity.
  - reflexivity.
Defined.

(** C1 as stated fails: Alice does not own [dune], yet her delete and her
    update both complete without any error, let alone an Unauthorized one;
    the store is simply unchanged, and [handleDeleteBook] navigates home as
    after a successful delete. *)
Lemma non_owner_request_reports_no_error :
  Some "u-alice"%string <> Some (Book.added_by dune)
  /\ delete_book (Some "u-alice"%string) (Book.id dune) shelf = Ok (shelf, O)
  /\ update_book (Some "u-alice"%string) 200 (Book.id dune) second_edition shelf
     = Ok (shelf, O)
  /\ ~ (exists e, delete_book (Some "u-alice"%string) (Book.id dune) shelf = Err e
                  /\ error_kind e = Unauthorized)
  /\ ~ (exists e, update_book (Some "u-alice"%string) 200 (Book.id dune)
                    second_edition shelf = Err e
                  /\ error_kind e = Unauthorized)
  /\ BookDetailsPage.handleDeleteBook true shelf
       (BookDetailsPage.mkState "b-dune" (Some "u-alice"%string) (Some dune)
          [alice_on_dune] false 5 "" false None None)
     = (shelf, Some "/"%string).
Proof.
  repeat split; try reflexivity; try discriminate.
  - intros [e [H _]]. discriminate H.
  - intros [e [H _]]. discriminate H.
Qed.

(** ** Reviews: one per user and book, rating between 1 and 5 *)

Lemma existsb_false_iff {A} (f : A -> bool) (l : list A) :
  existsb f l = false <-> forall x, In x l -> f x = false.
Proof.
  induction l as [|x l IH]; simpl.
  - split; [intros _ ? []|reflexivity].
  - rewrite orb_false_iff, IH. split.
    + intros [Hx Hl] y [<-|Hy]; auto.
    + intros H. split; [apply H; auto|intros; apply H; auto].
Qed.

Lemma int4_rating (r : Z) : 1 <= r <= 5 -> int4 r = true.
Proof. intros H. unfold int4. apply andb_true_iff. split; apply Z.leb_le; lia. Qed.

Lemma rating_check_iff (r : Review.t) :
  rating_check r = true <-> 1 <= Review.rating r <= 5.
Proof.
  unfold rating_check. rewrite andb_true_iff, Z.geb_le, Z.leb_le. lia.
Qed.

(** An insert succeeds exactly when every check of the table passes, and
    then appends the new row. *)
Lemma insert_review_ok_iff uid new_id now p db :
  (exists db', insert_review uid new_id now p db = Ok db')
  <-> (1 <= i_rating p <= 5 /\ review_insertable uid new_id p db).
Proof.
  unfold insert_review, review_insertable, guard, reviews_insert_check.
  cbn [Review.user_id]. rewrite policy_authenticated.
  fold (review_row new_id now p).
  destruct (int4 (i_rating p)) eqn:Hi; simpl.
  2:{ split; [intros [? ?]; discriminate|].
      intros [Hr _]. rewrite int4_rating in Hi by exact Hr. discriminate. }
  destruct (auth_uid_eq uid (i_user_id p)) eqn:Hu; simpl.
  2:{ split; [intros [? ?]; discriminate|].
      intros (_ & Hid & _). apply auth_uid_eq_true in Hid. congruence. }
  apply auth_uid_eq_true in Hu.
  destruct (rating_check (review_row new_id now p)) eqn:Hc; simpl.
  2:{ split; [intros [? ?]; discriminate|].
      intros [Hr _]. apply (rating_check_iff (review_row new_id now p)) in Hr.
      congruence. }
  apply rating_check_iff in Hc. simpl in Hc.
  destruct (existsb (fun r => String.eqb (Review.id r) new_id) (Db.reviews db)) eqn:Hpk;
    simpl.
  { split; [intros [? ?]; discriminate|].
    intros (_ & _ & Hfresh & _). apply existsb_exists in Hpk as (r & Hr & Heq).
    apply String.eqb_eq in Heq. now apply Hfresh in Hr. }
  destruct (existsb _ (Db.reviews db)) eqn:Hun in |- *; simpl.
  { split; [intros [? ?]; discriminate|].
    intros (_ & _ & _ & Hnew & _). apply existsb_exists in Hun as (r & Hr & Heq).
    apply andb_true_iff in Heq as [Hb Hw].
    apply String.eqb_eq in Hb, Hw. exfalso. now apply (Hnew r Hr). }
  destruct (existsb _ (Db.books db)) eqn:Hfb; simpl.
  2:{ split; [intros [? ?]; discriminate|].
      intros (_ & _ & _ & _ & (b & Hb & Hid) & _).
      rewrite existsb_false_iff in Hfb. apply Hfb in Hb.
      apply String.eqb_neq in Hb. contradiction. }
  destruct (existsb _ (Db.profiles db)) eqn:Hfp; simpl.
  2:{ split; [intros [? ?]; discriminate|].
      intros (_ & _ & _ & _ & _ & (q & Hq & Hid)).
      rewrite existsb_false_iff in Hfp. apply Hfp in Hq.
      apply String.eqb_neq in Hq. contradiction. }
  split; [intros _|eauto].
  split; [exact Hc|]. split; [exact Hu|].
  rewrite existsb_false_iff in Hpk, Hun. repeat split.
  - intros r Hr. apply Hpk in Hr. now apply String.eqb_neq in Hr.
  - intros r Hr [Hb Hw]. apply Hun in Hr.
    rewrite Hb, Hw, !String.eqb_refl in Hr. discriminate.
  - apply existsb_exists in Hfb as (b & Hb & Heq).
    apply String.eqb_eq in Heq. eauto.
  - apply existsb_exists in Hfp as (q & Hq & Heq).
    apply String.eqb_eq in Heq. eauto.
Qed.

(** What a successful insert returns. *)
Lemma insert_review_ok_row uid new_id now p db db' :
  insert_review uid new_id now p db = Ok db' ->
  db' = Db.mk (Db.profiles db) (Db.books db)
          (Db.reviews db ++ [review_row new_id now p]).
Proof.
  unfold insert_review, guard, review_row.
  repeat match goal with
         | |- context [if ?c then _ else _] => destruct c; simpl; try discriminate
         end.
  congruence.
Qed.

(** Inserts keep the uniqueness of (book_id, user_id). *)
Lemma insert_review_keeps_pairs_unique uid new_id now p db db' :
  reviews_pairs_unique db ->
  insert_review uid new_id now p db = Ok db' ->
  reviews_pairs_unique db'.
Proof.
  intros Hun Hok.
  assert (Hc : exists d, insert_review uid new_id now p db = Ok d) by eauto.
  apply insert_review_ok_iff in Hc as (_ & _ & _ & Hnew & _).
  apply insert_review_ok_row in Hok. subst db'.
  unfold reviews_pairs_unique in *. simpl. rewrite map_app. simpl.
  apply (Permutation_NoDup (Permutation_cons_append _ _)).
  constructor; [|exact Hun].
  intros Hin. apply in_map_iff in Hin as (r & Heq & Hr).
  injection Heq as Hb Hu. apply (Hnew r Hr). now split.
Qed.

(** A second review for the same pair is refused with a constraint error. *)
Lemma insert_review_twice a B rA new_id now rating text db :
  In rA (Db.reviews db) -> Review.book_id rA = B -> Review.user_id rA = a ->
  exists e,
    insert_review (Some a) new_id now (mkReviewInsert B a rating text) db = Err e
    /\ error_kind e = ConstraintViolation
    /\ (1 <= rating <= 5 -> e = unique_violation).
Proof.
  intros HrA HB Ha. unfold insert_review, guard, reviews_insert_check.
  cbn [Review.user_id i_user_id i_book_id i_rating i_review_text auth_uid_eq
       is_authenticated andb].
  rewrite String.eqb_refl.
  destruct (int4 rating) eqn:Hi; simpl.
  2:{ eexists; repeat split. intros Hr. rewrite int4_rating in Hi by exact Hr.
      discriminate. }
  destruct (rating_check _) eqn:Hc; simpl.
  2:{ eexists; repeat split. intros Hr.
      apply (rating_check_iff (Review.mk new_id B a rating text now now)) in Hr.
      congruence. }
  destruct (existsb (fun r => String.eqb (Review.id r) new_id) (Db.reviews db));
    simpl; [eexists; repeat split|].
  assert (Hdup : existsb
            (fun r => String.eqb (Review.book_id r) B && String.eqb (Review.user_id r) a)
            (Db.reviews db) = true).
  { apply existsb_exists. exists rA. split; [exact HrA|].
    rewrite HB, Ha, !String.eqb_refl. reflexivity. }
  rewrite Hdup. simpl. eexists; repeat split.
Qed.

(** C2.  Once a review by A for book B exists, every further create by A for
    B is refused with a ConstraintViolation (the uniqueness rule, when the
    rating is in range) and the store is unchanged, also when the request
    comes from the page's submit handler.  A create by another actor A' for
    the same book is decided by its own checks alone: A's review [rA] is no
    obstacle, and it is still there afterwards. *)
Theorem one_review_per_user_and_book
    (db : Db.t) (a a' B : uuid) (rA : Review.t) (new_id : uuid)
    (now : timestamptz) (rating : Z) (text : string) (st : BookDetailsPage.State) :
  In rA (Db.reviews db) -> Review.book_id rA = B -> Review.user_id rA = a ->
  a' <> a ->
  (exists e,
      insert_review (Some a) new_id now (mkReviewInsert B a rating text) db = Err e
      /\ error_kind e = ConstraintViolation
      /\ (1 <= rating <= 5 -> e = unique_violation))
  /\ (BookDetailsPage.user st = Some a -> BookDetailsPage.id st = B ->
      BookDetailsPage.truthy (BookDetailsPage.editingReview st) = false ->
      exists e st',
        BookDetailsPage.handleSubmitReview new_id now db st = (db, st', None)
        /\ BookDetailsPage.error st' = Some e
        /\ error_kind e = ConstraintViolation)
  /\ ((exists db',
         insert_review (Some a') new_id now (mkReviewInsert B a' rating text) db = Ok db')
      <-> (1 <= rating <= 5
           /\ (forall r, In r (Db.reviews db) -> Review.id r <> new_id)
           /\ (forall r, In r (Db.reviews db) -> r <> rA ->
                 ~ (Review.book_id r = B /\ Review.user_id r = a'))
           /\ (exists b, In b (Db.books db) /\ Book.id b = B)
           /\ (exists q, In q (Db.profiles db) /\ Profile.id q = a')))
  /\ (forall db',
        insert_review (Some a') new_id now (mkReviewInsert B a' rating text) db = Ok db' ->
        Db.reviews db' =
          Db.reviews db ++ [review_row new_id now (mkReviewInsert B a' rating text)]
        /\ In rA (Db.reviews db')).
Proof.
  intros HrA HB Ha Hne. split; [|split; [|split; [split|]]].
  - now apply (insert_review_twice a B rA).
  - intros Hu Hid Hed.
    destruct (insert_review_twice a B rA new_id now (BookDetailsPage.rating st)
                (BookDetailsPage.reviewText st) db HrA HB Ha) as (e & He & Hk & _).
    unfold BookDetailsPage.handleSubmitReview, BookDetailsPage.submit_call.
    rewrite Hu, Hed, Hid, He. exists e. eexists. repeat split. exact Hk.
  - intros H. apply insert_review_ok_iff in H as [Hr (_ & Hfresh & Hnew & Hb & Hq)].
    simpl in *. split; [exact Hr|]. split; [exact Hfresh|].
    split; [|split; assumption]. intros r Hin _. exact (Hnew r Hin).
  - intros (Hr & Hfresh & Hnew & Hb & Hq). apply insert_review_ok_iff.
    split; [exact Hr|]. unfold review_insertable. simpl.
    split; [reflexivity|]. split; [exact Hfresh|]. split; [|split; assumption].
    intros r Hin [Hrb Hru]. apply (Hnew r Hin); [|now split].
    intros ->. congruence.
  - intros db' H. apply insert_review_ok_row in H. subst db'. simpl.
    split; [reflexivity|]. apply in_or_app. now left.
Qed.

Lemma one_review_per_user_and_book_witness :
  (exists e,
      insert_review (Some "u-alice"%string) "r-2" 160
        (mkReviewInsert "b-dune" "u-alice" 4 "Again.") shelf = Err e
      /\ error_kind e = ConstraintViolation
      /\ (1 <= 4 <= 5 -> e = unique_violation))
  /\ insert_review (Some "u-bob"%string) "r-2" 160
       (mkReviewInsert "b-dune" "u-bob" 4 "Mine.") shelf
     = Ok (Db.mk [alice; bob] [hobbit; dune]
             [alice_on_dune; Review.mk "r-2" "b-dune" "u-bob" 4 "Mine." 160 160]).
Proof.
  split.
  - apply (one_review_per_user_and_book shelf "u-alice" "u-bob" "b-dune"
             alice_on_dune "r-2" 160 4 "Again."
             (BookDetailsPage.mkState "b-dune" (Some "u-alice"%string) (Some dune)
                [alice_on_dune] false 4 "Again." false None None)).
    + simpl. left. reflexivity.
    + reflexivity.
    + reflexivity.
    + discriminate.
  - reflexivity.
Defined.

(** C3.  With the other checks of the table passed, a review is created if
    and only if its rating lies between 1 and 5; any other rating is refused
    with a ConstraintViolation and nothing is stored, and ratings 0 and 6
    in particular fail the CHECK constraint. *)
Theorem review_rating_between_1_and_5
    (uid : option uuid) (new_id : uuid) (now : timestamptz)
    (B u : uuid) (r : Z) (text : string) (db : Db.t) :
  review_insertable uid new_id (mkReviewInsert B u r text) db ->
  ((exists db', insert_review uid new_id now (mkReviewInsert B u r text) db = Ok db')
   <-> 1 <= r <= 5)
  /\ (~ 1 <= r <= 5 ->
      exists e, insert_review uid new_id now (mkReviewInsert B u r text) db = Err e
                /\ error_kind e = ConstraintViolation)
  /\ (r = 0 \/ r = 6 ->
      insert_review uid new_id now (mkReviewInsert B u r text) db = Err check_violation).
Proof.
  intros Hins. split; [|split].
  - rewrite insert_review_ok_iff. simpl. tauto.
  - intros Hr. destruct Hins as (Hu & _). apply auth_uid_eq_true in Hu. simpl in Hu.
    unfold insert_review, guard, reviews_insert_check.
    cbn [Review.user_id i_user_id i_rating]. rewrite policy_authenticated, Hu.
    destruct (int4 r); simpl; [|eexists; split; reflexivity].
    destruct (rating_check _) eqn:Hc; simpl; [|eexists; split; reflexivity].
    apply rating_check_iff in Hc. simpl in Hc. contradiction.
  - intros Hr. destruct Hins as (Hu & _). apply auth_uid_eq_true in Hu. simpl in Hu.
    unfold insert_review, guard, reviews_insert_check.
    cbn [Review.user_id i_user_id i_rating]. rewrite policy_authenticated, Hu.
    destruct Hr as [-> | ->]; reflexivity.
Qed.

Lemma review_rating_between_1_and_5_witness :
  ((exists db', insert_review (Some "u-bob"%string) "r-2" 160
                  (mkReviewInsert "b-dune" "u-bob" 6 "Six stars!") shelf = Ok db')
   <-> 1 <= 6 <= 5)
  /\ (~ 1 <= 6 <= 5 ->
      exists e, insert_review (Some "u-bob"%string) "r-2" 160
                  (mkReviewInsert "b-dune" "u-bob" 6 "Six stars!") shelf = Err e
                /\ error_kind e = ConstraintViolation)
  /\ (6 = 0 \/ 6 = 6 ->
      insert_review (Some "u-bob"%string) "r-2" 160
        (mkReviewInsert "b-dune" "u-bob" 6 "Six stars!") shelf = Err check_violation).
Proof.
  apply (review_rating_between_1_and_5 (Some "u-bob"%string) "r-2" 160
           "b-dune" "u-bob" 6 "Six stars!" shelf).
  unfold review_insertable. simpl. repeat split.
  - intros r [<-|[]]. discriminate.
  - intros r [<-|[]] [_ H]. discriminate H.
  - exists dune. split; [right; left; reflexivity|reflexivity].
  - exists bob. split; [right; left; reflexivity|reflexivity].
Defined.

(** ** The average rating *)



(** *** Powers of two *)







(** *** Rounding to the nearest integer *)







(** *** The exponent *)



(** *** binary64 *)














(** The mean [x] of [N] ratings of sum [T]. *)
Section Mean.
Variables (T N : Z) (x : Q).
Hypothesis HN : 0 < N.
Hypothesis HT : N <= T <= 5 * N.
Hypothesis Hx : (x * inject_Z N == inject_Z T)%Q.
Hypothesis HN32 : N < 2 ^ 32.






End Mean.

(** *** The quotient agrees with the Standard Library's binary64 division *)


(** *** The page's average *)









(** ** Pagination *)

Lemma ordered_Permutation (sortBy : BooksPage.SortBy) (rows : list Book.t) :
  Permutation (BooksPage.ordered sortBy rows) rows.
Proof. destruct sortBy; apply merge_sort_Permutation. Qed.

Lemma ordered_length (sortBy : BooksPage.SortBy) (rows : list Book.t) :
  List.length (BooksPage.ordered sortBy rows) = List.length rows.
Proof. apply Permutation_length, ordered_Permutation. Qed.

Lemma range_page {A} (rows : list A) (p : Z) :
  range ((p - 1) * BooksPage.BOOKS_PER_PAGE)
        ((p - 1) * BooksPage.BOOKS_PER_PAGE + BooksPage.BOOKS_PER_PAGE - 1) rows
  = take 5 (drop (Z.to_nat ((p - 1) * 5)) rows).
Proof.
  unfold range, BooksPage.BOOKS_PER_PAGE. f_equal.
  replace ((p - 1) * 5 + 5 - 1 - (p - 1) * 5 + 1) with 5 by lia. reflexivity.
Qed.

#[local] Instance created_at_desc_total : Total created_at_desc.
Proof. intros a b. unfold created_at_desc. lia. Qed.
#[local] Instance created_at_asc_total : Total created_at_asc.
Proof. intros a b. unfold created_at_asc. lia. Qed.
#[local] Instance published_year_desc_total : Total published_year_desc.
Proof. intros a b. unfold published_year_desc. lia. Qed.

Lemma sort_order_total (sortBy : BooksPage.SortBy) (a b : Book.t) :
  sort_order sortBy a b \/ sort_order sortBy b a.
Proof. destruct sortBy; simpl; apply total; apply _. Qed.

Lemma sort_order_trans (sortBy : BooksPage.SortBy) (a b c : Book.t) :
  sort_order sortBy a b -> sort_order sortBy b c -> sort_order sortBy a c.
Proof.
  destruct sortBy; simpl;
    unfold created_at_desc, created_at_asc, published_year_desc; lia.
Qed.

Lemma ordered_Sorted (sortBy : BooksPage.SortBy) (rows : list Book.t) :
  Sorted (sort_order sortBy) (BooksPage.ordered sortBy rows).
Proof. destruct sortBy; simpl; unfold order_by; apply Sorted_merge_sort; apply _. Qed.

Lemma ordered_order_result (sortBy : BooksPage.SortBy) (rows : list Book.t) :
  order_result (sort_order sortBy) rows (BooksPage.ordered sortBy rows).
Proof. split; [symmetry; apply ordered_Permutation | apply ordered_Sorted]. Qed.

Lemma order_result_length {A} (R : relation A) (rows out : list A) :
  order_result R rows out -> List.length out = List.length rows.
Proof. intros [H _]. symmetry. now apply Permutation_length. Qed.

(** A range that starts at row 0 or at a row that exists is answered with
    its rows and the count. *)
Lemma listing_reply_within
    (db : Db.t) (p : Z) (q g : string) (sortBy : BooksPage.SortBy)
    (reply : BooksPage.Reply) :
  1 <= p ->
  (p - 1) * 5 < Z.of_nat (List.length (BooksPage.matching q g (Db.books db)))
  \/ p = 1 ->
  listing_reply db p q g sortBy reply ->
  exists rows,
    order_result (sort_order sortBy) (BooksPage.matching q g (Db.books db)) rows
    /\ reply = BooksPage.Data (take 5 (drop (Z.to_nat ((p - 1) * 5)) rows))
                 (Z.of_nat (List.length (BooksPage.matching q g (Db.books db)))).
Proof.
  intros Hp Hin (rows & Hord & H). exists rows. split; [exact Hord|].
  cbv zeta in H. rewrite range_page, (order_result_length _ _ _ Hord) in H.
  unfold BooksPage.BOOKS_PER_PAGE in H.
  destruct (Z.eqb_spec ((p - 1) * 5) 0) as [E0|E0]; [exact H|].
  destruct (Z.ltb_spec 0 ((p - 1) * 5)) as [E1|E1]; [|lia].
  destruct (Z.ltb_spec ((p - 1) * 5)
              (Z.of_nat (List.length (BooksPage.matching q g (Db.books db)))))
    as [E2|E2]; [exact H|lia].
Qed.

(** A range that starts beyond the last row: the empty page, or an error. *)
Lemma listing_reply_beyond
    (db : Db.t) (p : Z) (q g : string) (sortBy : BooksPage.SortBy)
    (reply : BooksPage.Reply) :
  1 < p ->
  Z.of_nat (List.length (BooksPage.matching q g (Db.books db))) <= (p - 1) * 5 ->
  listing_reply db p q g sortBy reply ->
  reply = BooksPage.Data []
            (Z.of_nat (List.length (BooksPage.matching q g (Db.books db))))
  \/ reply = BooksPage.Failed.
Proof.
  intros Hp Hout (rows & Hord & H).
  cbv zeta in H. rewrite (order_result_length _ _ _ Hord) in H.
  unfold BooksPage.BOOKS_PER_PAGE in H.
  destruct (Z.eqb_spec ((p - 1) * 5) 0) as [E0|E0]; [lia|].
  destruct (Z.ltb_spec ((p - 1) * 5)
              (Z.of_nat (List.length (BooksPage.matching q g (Db.books db)))))
    as [E2|E2]; [lia|].
  rewrite andb_false_r in H. exact H.
Qed.

(** The evaluation [BooksPage.fetchBooks] is one of the replies to a range
    that starts within the rows. *)
Lemma fetchBooks_admissible
    (db : Db.t) (p : Z) (q g : string) (sortBy : BooksPage.SortBy) :
  1 <= p ->
  (p - 1) * 5 < Z.of_nat (List.length (BooksPage.matching q g (Db.books db)))
  \/ p = 1 ->
  listing_reply db p q g sortBy
    (BooksPage.Data (fst (BooksPage.fetchBooks db p q g sortBy))
       (snd (BooksPage.fetchBooks db p q g sortBy))).
Proof.
  intros Hp Hin.
  exists (BooksPage.ordered sortBy (BooksPage.matching q g (Db.books db))).
  split; [apply ordered_order_result|].
  rewrite <- (ordered_length sortBy) in Hin.
  unfold BooksPage.fetchBooks. cbv zeta. cbn [fst snd].
  unfold BooksPage.BOOKS_PER_PAGE.
  destruct (Z.eqb_spec ((p - 1) * 5) 0) as [E0|E0]; [reflexivity|].
  destruct (Z.ltb_spec 0 ((p - 1) * 5)) as [E1|E1]; [|lia].
  destruct (Z.ltb_spec ((p - 1) * 5)
              (Z.of_nat (List.length
                 (BooksPage.ordered sortBy (BooksPage.matching q g (Db.books db))))))
    as [E2|E2]; [reflexivity|lia].
Qed.

(** The reply to a range that starts beyond the last row, or before the
    first, may be the error. *)
Lemma failed_admissible
    (db : Db.t) (p : Z) (q g : string) (sortBy : BooksPage.SortBy) :
  p < 1
  \/ (1 < p
      /\ Z.of_nat (List.length (BooksPage.matching q g (Db.books db))) <= (p - 1) * 5) ->
  listing_reply db p q g sortBy BooksPage.Failed.
Proof.
  intros Hout.
  exists (BooksPage.ordered sortBy (BooksPage.matching q g (Db.books db))).
  split; [apply ordered_order_result|].
  cbv zeta. rewrite ordered_length. unfold BooksPage.BOOKS_PER_PAGE.
  destruct (Z.eqb_spec ((p - 1) * 5) 0) as [E0|E0]; [lia|].
  destruct (Z.ltb_spec 0 ((p - 1) * 5)) as [E1|E1]; [|now right].
  destruct (Z.ltb_spec ((p - 1) * 5)
              (Z.of_nat (List.length (BooksPage.matching q g (Db.books db)))))
    as [E2|E2]; [lia|now right].
Qed.

(** C5, amended.  For page [p >= 1] whose first position lies within the
    [n] matching books (or for page 1) the reply holds the books at
    positions [(p-1)*5 .. (p-1)*5+4] of the matching books sorted on the key
    (fewer when the sequence ends earlier), together with [n]; the page
    stores both.  With 12 matches page 3 holds exactly 2 books.  A page
    beyond the last, as page 4 of 12 matches, is answered either with the
    empty slice and the count, which the page stores, or with an error,
    after which the page keeps the books and the count it had. *)
Theorem listing_page_slice
    (db : Db.t) (p : Z) (q g : string) (sortBy : BooksPage.SortBy)
    (reply : BooksPage.Reply) (st : BooksPage.State) :
  1 <= p ->
  listing_reply db p q g sortBy reply ->
  let n := Z.of_nat (List.length (BooksPage.matching q g (Db.books db))) in
  let st' := BooksPage.fetchBooks_settled reply st in
  ((p - 1) * 5 < n \/ p = 1 ->
     exists rows data,
       order_result (sort_order sortBy) (BooksPage.matching q g (Db.books db)) rows
       /\ reply = BooksPage.Data data n
       /\ (forall k : nat, (k < 5)%nat ->
             data !! k = rows !! (Z.to_nat ((p - 1) * 5) + k)%nat)
       /\ (forall k : nat, (5 <= k)%nat -> data !! k = None)
       /\ Z.of_nat (List.length data) = Z.min 5 (n - (p - 1) * 5)
       /\ BooksPage.books st' = data
       /\ BooksPage.totalBooks st' = n)
  /\ (n = 12 -> p = 3 ->
        exists data, reply = BooksPage.Data data 12 /\ List.length data = 2%nat)
  /\ (n <= (p - 1) * 5 -> 1 < p ->
        (reply = BooksPage.Data [] n
         /\ BooksPage.books st' = [] /\ BooksPage.totalBooks st' = n)
        \/ (reply = BooksPage.Failed
            /\ BooksPage.books st' = BooksPage.books st
            /\ BooksPage.totalBooks st' = BooksPage.totalBooks st))
  /\ BooksPage.loading st' = false.
Proof.
  intros Hp Hreply n st'.
  assert (Hwithin : (p - 1) * 5 < n \/ p = 1 ->
            exists rows data,
              order_result (sort_order sortBy)
                (BooksPage.matching q g (Db.books db)) rows
              /\ reply = BooksPage.Data data n
              /\ data = take 5 (drop (Z.to_nat ((p - 1) * 5)) rows)
              /\ Z.of_nat (List.length data) = Z.min 5 (n - (p - 1) * 5)).
  { intros Hin.
    destruct (listing_reply_within db p q g sortBy reply Hp Hin Hreply)
      as (rows & Hord & ->).
    exists rows, (take 5 (drop (Z.to_nat ((p - 1) * 5)) rows)).
    split; [exact Hord|]. split; [reflexivity|]. split; [reflexivity|].
    rewrite length_take, length_drop, (order_result_length _ _ _ Hord).
    fold n. lia. }
  split; [|split; [|split]].
  - intros Hin. destruct (Hwithin Hin) as (rows & data & Hord & Hr & Hd & Hlen).
    exists rows, data. split; [exact Hord|]. split; [exact Hr|].
    split; [|split; [|split; [exact Hlen|]]].
    + intros k Hk. rewrite Hd, lookup_take_lt by exact Hk. apply lookup_drop.
    + intros k Hk. rewrite Hd. apply lookup_take_ge. exact Hk.
    + unfold st'. rewrite Hr. split; reflexivity.
  - intros Hn Hp3. destruct (Hwithin ltac:(lia)) as (rows & data & _ & Hr & _ & Hlen).
    exists data. rewrite Hr, Hn. split; [reflexivity|]. lia.
  - intros Hout Hp1.
    destruct (listing_reply_beyond db p q g sortBy reply Hp1 Hout Hreply) as [Hr|Hr];
      [left|right]; unfold st'; rewrite Hr; repeat split.
  - unfold st'. destruct reply; reflexivity.
Qed.

Lemma listing_page_slice_witness :
  exists data,
    BooksPage.Data (fst (BooksPage.fetchBooks serial 3 "" "" BooksPage.oldest))
      (snd (BooksPage.fetchBooks serial 3 "" "" BooksPage.oldest))
    = BooksPage.Data data 12
    /\ List.length data = 2%nat.
Proof.
  destruct (listing_page_slice serial 3 "" "" BooksPage.oldest
              (BooksPage.Data
                 (fst (BooksPage.fetchBooks serial 3 "" "" BooksPage.oldest))
                 (snd (BooksPage.fetchBooks serial 3 "" "" BooksPage.oldest)))
              BooksPage.initial) as (_ & H & _).
  - lia.
  - apply fetchBooks_admissible; [lia|]. left. vm_compute. reflexivity.
  - apply H; reflexivity.
Defined.

(** C5 as stated fails on page 4 of 12 matches: the error is among the
    replies to that range, and after it the page still shows the two books
    of page 3 with the count 12 instead of an empty slice. *)
Lemma page_beyond_the_last_may_fail :
  List.length (BooksPage.matching "" "" (Db.books serial)) = 12%nat
  /\ listing_reply serial 4 "" "" BooksPage.oldest BooksPage.Failed
  /\ BooksPage.Failed <> BooksPage.Data [] 12
  /\ List.map Book.title
       (BooksPage.books
          (BooksPage.fetchBooks_settled BooksPage.Failed
             (BooksPage.onPage 4 last_page)))
     = ["Volume 11"; "Volume 12"]%string
  /\ BooksPage.totalBooks
       (BooksPage.fetchBooks_settled BooksPage.Failed
          (BooksPage.onPage 4 last_page)) = 12.
Proof.
  split; [reflexivity|]. split; [|split; [discriminate|split; reflexivity]].
  apply failed_admissible. right. split; [lia|]. vm_compute. discriminate.
Qed.

(** ** Sort order *)

(** C7, amended.  The listing is ordered on one key only: creation
    timestamp descending for newest, ascending for oldest, published year
    descending for by-year.  The result holds the matching books, each once,
    and every book that comes earlier is ordered before the later ones by
    that key; the key's order is total and transitive, and books with equal
    keys may come either way round: no tiebreak on id is applied. *)
Theorem listing_sorted_on_key_only
    (db : Db.t) (q g : string) (sortBy : BooksPage.SortBy) :
  order_result (sort_order sortBy) (BooksPage.matching q g (Db.books db))
    (BooksPage.ordered sortBy (BooksPage.matching q g (Db.books db)))
  /\ StronglySorted (sort_order sortBy)
       (BooksPage.ordered sortBy (BooksPage.matching q g (Db.books db)))
  /\ (forall a b, sort_order BooksPage.newest a b
                  <-> Book.created_at a >= Book.created_at b)
  /\ (forall a b, sort_order BooksPage.oldest a b
                  <-> Book.created_at a <= Book.created_at b)
  /\ (forall a b, sort_order BooksPage.year a b
                  <-> Book.published_year a >= Book.published_year b)
  /\ (forall a b, sort_order sortBy a b \/ sort_order sortBy b a)
  /\ (forall a b, sort_order sortBy a b -> sort_order sortBy b a ->
        order_result (sort_order sortBy) [a; b] [a; b]
        /\ order_result (sort_order sortBy) [a; b] [b; a]).
Proof.
  split; [|split; [|split; [|split; [|split; [|split]]]]].
  - split; [symmetry; apply ordered_Permutation | apply ordered_Sorted].
  - apply Sorted_StronglySorted; [|apply ordered_Sorted].
    intros a b c. apply sort_order_trans.
  - intros a b. simpl. unfold created_at_desc. lia.
  - intros a b. simpl. unfold created_at_asc. lia.
  - intros a b. simpl. unfold published_year_desc. lia.
  - apply sort_order_total.
  - intros a b Hab Hba. split; split.
    + apply Permutation_refl.
    + repeat constructor; assumption.
    + apply perm_swap.
    + repeat constructor; assumption.
Qed.

Lemma listing_sorted_on_key_only_witness :
  StronglySorted (sort_order BooksPage.newest)
    (BooksPage.ordered BooksPage.newest (BooksPage.matching "" "" (Db.books serial)))
  /\ List.map Book.title
       (fst (BooksPage.fetchBooks serial 1 "" "" BooksPage.newest))
     = ["Volume 12"; "Volume 11"; "Volume 10"; "Volume 9"; "Volume 8"]%string.
Proof.
  split; [|reflexivity].
  apply (listing_sorted_on_key_only serial "" "" BooksPage.newest).
Defined.

(** C7 as stated fails: [hobbit] and [dune] were created at the same time
    and [dune] has the smaller id, yet the listing shows [hobbit] first under
    both newest and oldest; the order clause admits either arrangement. *)
Lemma ties_are_not_broken_by_id :
  Book.created_at hobbit = Book.created_at dune
  /\ String.ltb (Book.id dune) (Book.id hobbit) = true
  /\ fst (BooksPage.fetchBooks shelf 1 "" "" BooksPage.newest) = [hobbit; dune]
  /\ fst (BooksPage.fetchBooks shelf 1 "" "" BooksPage.oldest) = [hobbit; dune]
  /\ ~ Sorted (with_id_tiebreak (sort_order BooksPage.newest))
         (fst (BooksPage.fetchBooks shelf 1 "" "" BooksPage.newest))
  /\ ~ Sorted (with_id_tiebreak (sort_order BooksPage.oldest))
         (fst (BooksPage.fetchBooks shelf 1 "" "" BooksPage.oldest))
  /\ order_result (sort_order BooksPage.newest) (Db.books shelf) [dune; hobbit].
Proof.
  assert (Hno : forall R : relation Book.t, R dune hobbit ->
            ~ Sorted (with_id_tiebreak R) [hobbit; dune]).
  { intros R Hback Hs. inversion Hs as [|? ? _ Hhd]; subst.
    inversion Hhd as [|? ? [_ Htie]]; subst.
    specialize (Htie Hback). discriminate Htie. }
  split; [reflexivity|]. split; [reflexivity|].
  split; [reflexivity|]. split; [reflexivity|].
  split; [|split].
  - apply Hno. simpl. unfold created_at_desc. simpl. lia.
  - apply Hno. simpl. unfold created_at_asc. simpl. lia.
  - split.
    + apply perm_swap.
    + repeat constructor. simpl. unfold created_at_desc. simpl. lia.
Qed.

(** ** Profiles: update by owner only *)

Lemma profile_selection uid db P :
  profiles_pkey db -> In P (Db.profiles db) ->
  forall p, In p (Db.profiles db) ->
    String.eqb (Profile.id p) (Profile.id P) && profiles_update_using uid p =
    String.eqb (Profile.id p) (Profile.id P) && auth_uid_eq uid (Profile.id P).
Proof.
  intros Hpk HP p Hp.
  destruct (String.eqb_spec (Profile.id p) (Profile.id P)) as [Hid|]; [|reflexivity].
  simpl. rewrite (key_unique Profile.id _ p P Hpk Hp HP Hid).
  apply policy_authenticated.
Qed.

Lemma update_rows_err {A} (sel : A -> bool) (upd : A -> result A) (l : list A)
    (B : A) (e : PgError) :
  In B l -> sel B = true -> upd B = Err e ->
  (forall x, In x l -> sel x = true -> x = B) ->
  update_rows sel upd l = Err e.
Proof.
  induction l as [|x l IH]; simpl; [tauto|].
  intros HB HsB He Huniq.
  destruct (sel x) eqn:Hs.
  - rewrite (Huniq x) by auto. rewrite He. reflexivity.
  - destruct HB as [->|HB]; [congruence|].
    rewrite IH by auto. reflexivity.
Qed.

(** A new row that passes the checks is the patched row, with the id it
    had. *)
Lemma profile_update_row_ok uid patch table P y :
  uid = Some (Profile.id P) ->
  profile_update_row uid patch table P = Ok y ->
  y = profile_set patch P /\ Profile.id y = Profile.id P.
Proof.
  intros -> H. unfold profile_update_row, guard, profiles_update_check in H.
  rewrite policy_authenticated in H. simpl in H.
  destruct (String.eqb_spec (Profile.id P) (default (Profile.id P) (set_id patch)))
    as [Hid|]; simpl in H; [|discriminate].
  repeat match type of H with
         | context [if ?c then _ else _] => destruct c; simpl in H; try discriminate
         end.
  injection H as <-. split; [reflexivity|]. simpl. congruence.
Qed.

(** C8, amended.  An update of profile P takes effect exactly when the
    acting identity equals P's id; a request by anyone else leaves the store
    unchanged, with no row affected and no error.  A permitted update never
    changes the id: a new id is refused by the policy.  It may, however,
    change the other columns, the email included, subject to the email's
    uniqueness. *)
Theorem profile_update_owner_only
    (uid : option uuid) (patch : ProfilePatch) (db : Db.t) (P : Profile.t) :
  profiles_pkey db -> In P (Db.profiles db) ->
  (uid <> Some (Profile.id P) ->
     update_profile uid (Profile.id P) patch db = Ok (db, O))
  /\ (uid = Some (Profile.id P) ->
      (forall db' n, update_profile uid (Profile.id P) patch db = Ok (db', n) ->
         n = 1%nat /\ db' = profiles_after_update patch P db
         /\ In (profile_set patch P) (Db.profiles db')
         /\ Profile.id (profile_set patch P) = Profile.id P)
      /\ (forall x, set_id patch = Some x -> x <> Profile.id P ->
            update_profile uid (Profile.id P) patch db = Err insufficient_privilege)
      /\ (set_id patch = None ->
          (forall q, In q (Db.profiles db) -> Profile.id q <> Profile.id P ->
             Profile.email q <> Profile.email (profile_set patch P)) ->
          update_profile uid (Profile.id P) patch db
            = Ok (profiles_after_update patch P db, 1%nat))).
Proof.
  intros Hpk HP.
  assert (Hmap : forall y, uid = Some (Profile.id P) ->
            profile_update_row uid patch (Db.profiles db) P = Ok y ->
            update_profile uid (Profile.id P) patch db
              = Ok (profiles_after_update patch P db, 1%nat)).
  { intros y Hu Hy. unfold update_profile.
    rewrite (update_rows_map _ _ (profile_set patch)).
    - simpl. unfold profiles_after_update. do 2 f_equal.
      + f_equal. apply map_ext_in. intros p Hp.
        rewrite (profile_selection uid db P Hpk HP p Hp).
        rewrite (proj2 (auth_uid_eq_true uid _) Hu), andb_true_r. reflexivity.
      + rewrite <- (key_count Profile.id (Db.profiles db) P Hpk HP).
        f_equal. apply filter_ext_in. intros p Hp.
        rewrite (profile_selection uid db P Hpk HP p Hp).
        rewrite (proj2 (auth_uid_eq_true uid _) Hu), andb_true_r. reflexivity.
    - intros p Hp Hsel. apply andb_prop in Hsel as [Hid _].
      apply String.eqb_eq in Hid.
      rewrite (key_unique Profile.id _ p P Hpk Hp HP Hid).
      rewrite Hy. f_equal. now apply (profile_update_row_ok uid patch (Db.profiles db) P y). }
  assert (Hin : In (profile_set patch P) (Db.profiles (profiles_after_update patch P db))).
  { unfold profiles_after_update. simpl. apply in_map_iff. exists P.
    now rewrite String.eqb_refl. }
  split.
  - intros Hother. unfold update_profile.
    rewrite update_rows_none; [destruct db; reflexivity|].
    intros p Hp. rewrite (profile_selection uid db P Hpk HP p Hp).
    destruct (auth_uid_eq uid (Profile.id P)) eqn:E; [|apply andb_false_r].
    apply auth_uid_eq_true in E. contradiction.
  - intros Hu. split; [|split].
    + intros db' n Hok.
      destruct (profile_update_row uid patch (Db.profiles db) P) as [y|e] eqn:Hy.
      * rewrite (Hmap y Hu eq_refl) in Hok. injection Hok as <- <-.
        destruct (profile_update_row_ok uid patch (Db.profiles db) P y Hu Hy) as [_ Hid].
        repeat split; auto.
        destruct (profile_update_row_ok uid patch (Db.profiles db) P y Hu Hy) as [-> Hid'].
        exact Hid'.
      * exfalso. unfold update_profile in Hok.
        rewrite (update_rows_err _ _ _ P e) in Hok; try discriminate; auto.
        -- rewrite (profile_selection uid db P Hpk HP P HP), String.eqb_refl.
           simpl. now apply auth_uid_eq_true.
        -- intros p Hp Hsel. apply andb_prop in Hsel as [Hid _].
           apply String.eqb_eq in Hid.
           exact (key_unique Profile.id _ p P Hpk Hp HP Hid).
    + intros x Hx Hne. unfold update_profile.
      rewrite (update_rows_err _ _ _ P insufficient_privilege); auto.
      * rewrite (profile_selection uid db P Hpk HP P HP), String.eqb_refl.
        simpl. now apply auth_uid_eq_true.
      * unfold profile_update_row, guard, profiles_update_check.
        rewrite policy_authenticated, Hu. simpl. rewrite Hx. simpl.
        destruct (String.eqb_spec (Profile.id P) x); [congruence|reflexivity].
      * intros p Hp Hsel. apply andb_prop in Hsel as [Hid _].
        apply String.eqb_eq in Hid.
        exact (key_unique Profile.id _ p P Hpk Hp HP Hid).
    + intros Hid Hemail. apply (Hmap (profile_set patch P) Hu).
      unfold profile_update_row, guard, profiles_update_check.
      rewrite policy_authenticated, Hu. simpl. rewrite Hid. simpl.
      rewrite String.eqb_refl. simpl.
      assert (H1 : existsb (fun q => String.eqb (Profile.id q) (Profile.id P))
                (List.filter
                   (fun q => negb (String.eqb (Profile.id q) (Profile.id P)))
                   (Db.profiles db)) = false).
      { apply existsb_false_iff. intros q Hq. apply filter_In in Hq as [_ Hq].
        now apply negb_true_iff in Hq. }
      rewrite H1. simpl.
      assert (H2 : existsb
                (fun q => String.eqb (Profile.email q)
                            (default (Profile.email P) (set_email patch)))
                (List.filter
                   (fun q => negb (String.eqb (Profile.id q) (Profile.id P)))
                   (Db.profiles db)) = false).
      { apply existsb_false_iff. intros q Hq. apply filter_In in Hq as [Hq Hne].
        apply negb_true_iff, String.eqb_neq in Hne.
        apply String.eqb_neq. specialize (Hemail q Hq Hne).
        unfold profile_set in Hemail. simpl in Hemail. exact Hemail. }
      rewrite H2. simpl. unfold profile_set. rewrite Hid. reflexivity.
Qed.

Lemma shelf_profiles_pkey : profiles_pkey shelf.
Proof.
  unfold profiles_pkey. simpl.
  repeat (constructor; [simpl; intuition discriminate|]). constructor.
Defined.

Lemma profile_update_owner_only_witness :
  update_profile (Some "u-bob"%string) (Profile.id alice) new_address shelf
  = Ok (shelf, O).
Proof.
  destruct (profile_update_owner_only (Some "u-bob"%string) new_address shelf alice)
    as [H _].
  - exact shelf_profiles_pkey.
  - simpl. left. reflexivity.
  - apply H. discriminate.
Defined.

(** C8 as stated fails: Alice's update of her own profile changes her
    email, and the store accepts it. *)
Lemma owner_may_change_email :
  update_profile (Some "u-alice"%string) (Profile.id alice) new_address shelf
  = Ok (Db.mk [Profile.mk "u-alice" "Alice" "alice@elsewhere.example" 10; bob]
          [hobbit; dune] [alice_on_dune], 1%nat)
  /\ Profile.email alice <> "alice@elsewhere.example"%string.
Proof. split; [reflexivity|discriminate]. Qed.

(** ** The review form on the book page *)

Lemma find_none_iff {A} (f : A -> bool) (l : list A) :
  List.find f l = None <-> forall x, In x l -> f x = false.
Proof.
  split; [apply find_none|].
  induction l as [|x l IH]; intros H; simpl; [reflexivity|].
  rewrite H by (simpl; auto). apply IH. intros; apply H; simpl; auto.
Qed.

Lemma userReview_none (st : BookDetailsPage.State) (u : uuid) :
  BookDetailsPage.user st = Some u ->
  (BookDetailsPage.userReview st = None
   <-> forall r, In r (BookDetailsPage.reviews st) -> Review.user_id r <> u).
Proof.
  intros Hu. unfold BookDetailsPage.userReview. rewrite Hu, find_none_iff.
  split; intros H r Hr; specialize (H r Hr).
  - now apply String.eqb_neq.
  - now apply String.eqb_neq.
Qed.

(** C9.  On the book page the review form is rendered if and only if a user
    is signed in and none of the book's reviews is theirs.  When the user's
    review exists, the edit action records the review being edited and
    loads its rating and text, but the page still shows no form. *)
Theorem review_form_visibility (st : BookDetailsPage.State) (b : Book.t) :
  BookDetailsPage.loading st = false ->
  BookDetailsPage.book st = Some b ->
  exists p,
    BookDetailsPage.render st = BookDetailsPage.Details p
    /\ (BookDetailsPage.review_form p <> None
        <-> exists u, BookDetailsPage.user st = Some u
                      /\ forall r, In r (BookDetailsPage.reviews st) ->
                                   Review.user_id r <> u)
    /\ (forall u r,
          BookDetailsPage.user st = Some u ->
          In r (BookDetailsPage.reviews st) -> Review.user_id r = u ->
          BookDetailsPage.editingReview (BookDetailsPage.handleEditReview r st)
            = Some (Review.id r)
          /\ BookDetailsPage.rating (BookDetailsPage.handleEditReview r st)
             = Review.rating r
          /\ BookDetailsPage.reviewText (BookDetailsPage.handleEditReview r st)
             = Review.review_text r
          /\ exists p',
               BookDetailsPage.render (BookDetailsPage.handleEditReview r st)
                 = BookDetailsPage.Details p'
               /\ BookDetailsPage.review_form p' = None).
Proof.
  intros Hl Hb. unfold BookDetailsPage.render. rewrite Hl, Hb.
  eexists. split; [reflexivity|]. cbn [BookDetailsPage.review_form]. split.
  - destruct (BookDetailsPage.user st) as [u|] eqn:Hu.
    + destruct (BookDetailsPage.userReview st) eqn:Hr.
      * split; [intros H; contradiction|].
        intros (u' & Hu' & Hnone). injection Hu' as <-.
        apply (userReview_none st u Hu) in Hnone. congruence.
      * split; [|intros _; discriminate].
        intros _. exists u. split; [reflexivity|].
        now apply (userReview_none st u Hu).
    + split; [intros H; contradiction|]. intros (u & Hu' & _). discriminate.
  - intros u r Hu Hr Hru. repeat split.
    cbn [BookDetailsPage.handleEditReview BookDetailsPage.loading
         BookDetailsPage.book BookDetailsPage.user].
    rewrite Hl, Hb, Hu. eexists. split; [reflexivity|].
    cbn [BookDetailsPage.review_form].
    destruct (BookDetailsPage.userReview _) eqn:Hnone; [reflexivity|].
    exfalso.
    exact (proj1 (userReview_none (BookDetailsPage.handleEditReview r st) u Hu)
             Hnone r Hr Hru).
Qed.

Lemma review_form_visibility_witness :
  BookDetailsPage.editingReview
    (BookDetailsPage.handleEditReview alice_on_dune alice_view) = Some "r-1"%string
  /\ exists p',
       BookDetailsPage.render
         (BookDetailsPage.handleEditReview alice_on_dune alice_view)
         = BookDetailsPage.Details p'
       /\ BookDetailsPage.review_form p' = None.
Proof.
  destruct (review_form_visibility alice_view dune) as (p & _ & _ & H).
  - reflexivity.
  - reflexivity.
  - destruct (H "u-alice"%string alice_on_dune) as (He & _ & _ & Hp).
    + reflexivity.
    + simpl. left. reflexivity.
    + reflexivity.
    + split; [exact He|exact Hp].
Defined.

(** ** The published year *)

Lemma insert_book_ok u new_id now f db :
  int4 (f_published_year f) = true ->
  (forall b, In b (Db.books db) -> Book.id b <> new_id) ->
  (exists q, In q (Db.profiles db) /\ Profile.id q = u) ->
  insert_book (Some u) new_id now f u db
  = Ok (Db.mk (Db.profiles db) (Db.books db ++ [book_row new_id now f u])
          (Db.reviews db)).
Proof.
  intros Hy Hfresh (q & Hq & Hid). unfold insert_book, guard, books_insert_check.
  rewrite Hy. simpl. rewrite String.eqb_refl. simpl.
  assert (H1 : existsb (fun b => String.eqb (Book.id b) new_id) (Db.books db) = false).
  { apply existsb_false_iff. intros b Hb. apply String.eqb_neq. now apply Hfresh. }
  rewrite H1. simpl.
  assert (H2 : existsb (fun p => String.eqb (Profile.id p) u) (Db.profiles db) = true).
  { apply existsb_exists. exists q. split; [exact Hq|]. now apply String.eqb_eq. }
  rewrite H2. reflexivity.
Qed.

(** C10.  The form admits a published year exactly when it lies between
    1000 and the current year.  Nothing behind the form repeats that check:
    for any year that fits the column type [integer], in range or not, the
    submit handler's insert stores the row with that year, and the owner's
    update writes it; a year that does not fit the column type is the only
    one the store refuses. *)
Theorem published_year_range_is_form_only
    (current_year : Z) (u new_id : uuid) (now : timestamptz) (f : BookForm)
    (db : Db.t) :
  (forall b, In b (Db.books db) -> Book.id b <> new_id) ->
  (exists q, In q (Db.profiles db) /\ Profile.id q = u) ->
  books_pkey db ->
  (BookFormPage.published_year_valid current_year (f_published_year f) = true
   <-> 1000 <= f_published_year f <= current_year)
  /\ (int4 (f_published_year f) = true ->
      insert_book (Some u) new_id now f u db
        = Ok (Db.mk (Db.profiles db) (Db.books db ++ [book_row new_id now f u])
                (Db.reviews db))
      /\ Book.published_year (book_row new_id now f u) = f_published_year f
      /\ BookFormPage.handleSubmit None (Some u) new_id now f db
         = (Db.mk (Db.profiles db) (Db.books db ++ [book_row new_id now f u])
              (Db.reviews db),
            inl ("/books/" ++ new_id)%string)
      /\ (forall B, In B (Db.books db) -> Book.added_by B = u ->
            update_book (Some u) now (Book.id B) f db
              = Ok (books_after_update now f B db, 1%nat)
            /\ Book.published_year (book_set now f B) = f_published_year f))
  /\ (int4 (f_published_year f) = false ->
      insert_book (Some u) new_id now f u db = Err numeric_value_out_of_range
      /\ forall B, update_book (Some u) now (Book.id B) f db
                   = Err numeric_value_out_of_range).
Proof.
  intros Hfresh Hq Hpk. split; [|split].
  - unfold BookFormPage.published_year_valid.
    rewrite andb_true_iff, !Z.leb_le. reflexivity.
  - intros Hy. pose proof (insert_book_ok u new_id now f db Hy Hfresh Hq) as Hins.
    split; [exact Hins|]. split; [reflexivity|]. split.
    + unfold BookFormPage.handleSubmit. simpl. rewrite Hins. reflexivity.
    + intros B HB Hown. split; [|reflexivity].
      apply update_book_owner; auto. rewrite <- Hown. simpl.
      apply String.eqb_refl.
  - intros Hy. split.
    + unfold insert_book, guard. rewrite Hy. reflexivity.
    + intros B. unfold update_book, guard. rewrite Hy. reflexivity.
Qed.

Lemma published_year_range_is_form_only_witness :
  (BookFormPage.published_year_valid 2025 (f_published_year iliad) = true
   <-> 1000 <= f_published_year iliad <= 2025)
  /\ BookFormPage.published_year_valid 2025 (f_published_year iliad) = false
  /\ BookFormPage.handleSubmit None (Some "u-bob"%string) "b-iliad" 300 iliad shelf
     = (Db.mk [alice; bob]
          [hobbit; dune;
           Book.mk "b-iliad" "The Iliad" "Homer" "Sing, goddess." "Poetry" (-750)
             "u-bob" 300 300]
          [alice_on_dune],
        inl "/books/b-iliad"%string).
Proof.
  destruct (published_year_range_is_form_only 2025 "u-bob" "b-iliad" 300 iliad shelf)
    as (Hform & Hstore & _).
  - intros b [<-|[<-|[]]]; discriminate.
  - exists bob. split; [right; left; reflexivity|reflexivity].
  - exact shelf_books_pkey.
  - split; [exact Hform|]. split; [reflexivity|].
    destruct (Hstore eq_refl) as (_ & _ & H & _). exact H.
Defined.

(** ** The text filter *)

Lemma like_nil (s : list ascii) : like [] s = true <-> s = [].
Proof. destruct s; simpl; split; congruence. Qed.

Lemma like_percent_unfold (p s : list ascii) :
  like ("%"%char :: p) s
  = like p s || match s with [] => false | _ :: s' => like ("%"%char :: p) s' end.
Proof. destruct s; reflexivity. Qed.

Lemma like_plain_cons (c : ascii) (p s : list ascii) :
  plain_char c = true ->
  like (c :: p) s
  = match s with [] => false | e :: s' => Ascii.eqb c e && like p s' end.
Proof.
  unfold plain_char. rewrite negb_true_iff, !orb_false_iff.
  intros [[H1 H2] H3]. simpl. rewrite H1, H2, H3. reflexivity.
Qed.

(** A pattern that starts with [%] matches when the rest matches some
    suffix. *)
Lemma like_percent (p s : list ascii) :
  like ("%"%char :: p) s = true
  <-> exists pre s', s = pre ++ s' /\ like p s' = true.
Proof.
  induction s as [|e s IH]; rewrite like_percent_unfold, orb_true_iff.
  - split.
    + intros [H|H]; [|discriminate]. exists [], []. auto.
    + intros (pre & s' & Hs & H). left.
      symmetry in Hs. apply app_eq_nil in Hs as [_ ->]. exact H.
  - rewrite IH. split.
    + intros [H|(pre & s' & -> & H)].
      * exists [], (e :: s). auto.
      * exists (e :: pre), s'. auto.
    + intros (pre & s' & Hs & H). destruct pre as [|e' pre]; simpl in Hs.
      * left. now subst s'.
      * right. injection Hs as -> ->. eauto.
Qed.

(** A run of plain characters matches itself, letter by letter. *)
Lemma like_plain (q p s : list ascii) :
  Forall (fun c => plain_char c = true) q ->
  like (q ++ p) s = true <-> exists s', s = q ++ s' /\ like p s' = true.
Proof.
  intros Hq. revert s. induction Hq as [|c q Hc Hq IH]; intros s; simpl app.
  - split; [eauto|]. now intros (s' & -> & H).
  - rewrite like_plain_cons by exact Hc. destruct s as [|e s].
    + split; [discriminate|]. intros (s' & Hs & _). discriminate.
    + rewrite andb_true_iff, IH, Ascii.eqb_eq. split.
      * intros [-> (s' & -> & H)]. eauto.
      * intros (s' & Hs & H). injection Hs as -> ->. eauto.
Qed.

Lemma list_ascii_of_string_app (a b : string) :
  list_ascii_of_string (a ++ b) = list_ascii_of_string a ++ list_ascii_of_string b.
Proof. induction a as [|c a IH]; simpl; [reflexivity|]. now rewrite IH. Qed.

Lemma plain_char_lower (c : ascii) :
  plain_char c = true -> plain_char (lower c) = true.
Proof. destruct c as [[] [] [] [] [] [] [] []]; vm_compute; auto. Qed.

(** For a query without pattern characters, [ilike] on [%q%] is the
    case-insensitive substring test. *)
Lemma ilike_plain (q s : string) :
  plain q -> ilike ("%" ++ q ++ "%") s = true <-> contains_ci q s.
Proof.
  intros Hq. unfold ilike, contains_ci.
  rewrite !list_ascii_of_string_app, !map_app. simpl app.
  change (List.map lower (list_ascii_of_string "%")) with ["%"%char].
  rewrite like_percent.
  assert (Hq' : Forall (fun c => plain_char c = true)
                  (List.map lower (list_ascii_of_string q))).
  { unfold plain in Hq. induction Hq; simpl; constructor; auto using plain_char_lower. }
  split.
  - intros (pre & s' & Hs & H). apply (like_plain _ _ _ Hq') in H as (post & -> & _).
    eauto.
  - intros (pre & post & Hs). exists pre, (List.map lower (list_ascii_of_string q) ++ post).
    split; [exact Hs|]. apply (like_plain _ _ _ Hq'). exists post. split; [reflexivity|].
    apply like_percent. exists post, []. split; [now rewrite app_nil_r|reflexivity].
Qed.

Lemma search_filter_plain (q : string) (b : Book.t) :
  plain q ->
  BooksPage.search_filter q b = true
  <-> contains_ci q (Book.title b) \/ contains_ci q (Book.author b).
Proof.
  intros Hq. unfold BooksPage.search_filter.
  rewrite orb_true_iff, !ilike_plain by exact Hq. reflexivity.
Qed.

(** The specification's example: "tolk" finds the book by J.R.R. Tolkien and
    leaves out "Dune". *)
Lemma search_tolk :
  plain "tolk"
  /\ BooksPage.fetchBooks shelf 1 "tolk" "" BooksPage.newest = ([hobbit], 1)
  /\ contains_ci "tolk" (Book.author hobbit)
  /\ BooksPage.search_filter "tolk" dune = false.
Proof.
  assert (Hp : plain "tolk") by (repeat constructor).
  split; [exact Hp|]. split; [reflexivity|]. split; [|reflexivity].
  apply (ilike_plain "tolk" _ Hp). reflexivity.
Qed.

(** C6 at the query "_" .  The underscore occurs neither in the title nor in
    the author of [dune] (nor of [hobbit]), so a substring filter selects no
    book; the listing returns both, because the query is pasted into the
    pattern unescaped and [_] matches any character. *)
Theorem underscore_query_matches_every_book :
  ~ contains_ci "_" (Book.title dune)
  /\ ~ contains_ci "_" (Book.author dune)
  /\ ~ contains_ci "_" (Book.title hobbit)
  /\ ~ contains_ci "_" (Book.author hobbit)
  /\ BooksPage.search_filter "_" dune = true
  /\ BooksPage.fetchBooks shelf 1 "_" "" BooksPage.newest = ([hobbit; dune], 2).
Proof.
  assert (Hno : forall s : string,
            ~ In "_"%char (List.map lower (list_ascii_of_string s)) ->
            ~ contains_ci "_" s).
  { intros s Hs (pre & post & H). apply Hs. rewrite H.
    apply in_or_app. right. left. reflexivity. }
  split; [|split; [|split; [|split; [|split]]]]; try reflexivity;
    apply Hno; vm_compute; intuition discriminate.
Qed.

(** * Further properties of the store and the pages *)

(** ** Consistency is kept by every statement *)

Section RowsMore.
Context {A : Type}.
Implicit Types (l : list A) (sel : A -> bool).

Lemma update_rows_in sel (upd : A -> result A) l l' n y :
  update_rows sel upd l = Ok (l', n) -> In y l' ->
  exists x, In x l /\ (y = x \/ (sel x = true /\ upd x = Ok y)).
Proof.
  revert l' n. induction l as [|x l IH]; intros l' n H Hy; simpl in H.
  - injection H as <- <-. destruct Hy.
  - destruct (sel x) eqn:Hs.
    + destruct (upd x) as [y0|] eqn:Hu; simpl in H; [|discriminate].
      destruct (update_rows sel upd l) as [[l0 n0]|] eqn:Hr; simpl in H; [|discriminate].
      injection H as <- <-. destruct Hy as [<-|Hy].
      * exists x. split; [now left|]. right. auto.
      * destruct (IH _ _ eq_refl Hy) as (x' & Hx' & Hc). exists x'. split; [now right|exact Hc].
    + destruct (update_rows sel upd l) as [[l0 n0]|] eqn:Hr; simpl in H; [|discriminate].
      injection H as <- <-. destruct Hy as [<-|Hy].
      * exists x. split; [now left|now left].
      * destruct (IH _ _ eq_refl Hy) as (x' & Hx' & Hc). exists x'. split; [now right|exact Hc].
Qed.

Lemma update_rows_keys {K} (key : A -> K) sel (upd : A -> result A) l l' n :
  (forall x y, sel x = true -> upd x = Ok y -> key y = key x) ->
  update_rows sel upd l = Ok (l', n) ->
  List.map key l' = List.map key l.
Proof.
  intros Hk. revert l' n. induction l as [|x l IH]; intros l' n H; simpl in H.
  - now injection H as <- <-.
  - destruct (sel x) eqn:Hs.
    + destruct (upd x) as [y0|] eqn:Hu; simpl in H; [|discriminate].
      destruct (update_rows sel upd l) as [[l0 n0]|] eqn:Hr; simpl in H; [|discriminate].
      injection H as <- <-. simpl. rewrite (Hk x y0 Hs Hu). f_equal. now apply (IH _ n0).
    + destruct (update_rows sel upd l) as [[l0 n0]|] eqn:Hr; simpl in H; [|discriminate].
      injection H as <- <-. simpl. f_equal. now apply (IH _ n0).
Qed.

Lemma NoDup_map_filter {K} (key : A -> K) sel l :
  List.NoDup (List.map key l) -> List.NoDup (List.map key (List.filter sel l)).
Proof.
  induction l as [|x l IH]; simpl; intros H; [constructor|].
  inversion H as [|? ? Hx Hl]; subst. destruct (sel x); simpl; [|now apply IH].
  constructor; [|now apply IH]. intros Hin. apply Hx.
  apply in_map_iff in Hin as (y & Hy & Hin). apply filter_In in Hin as [Hin _].
  rewrite <- Hy. now apply in_map.
Qed.

Lemma NoDup_map_snoc {K} (key : A -> K) l x :
  List.NoDup (List.map key l) -> (forall y, In y l -> key y <> key x) ->
  List.NoDup (List.map key (l ++ [x])).
Proof.
  intros Hl Hx. rewrite map_app. simpl.
  apply (Permutation_NoDup (Permutation_cons_append _ _)).
  constructor; [|exact Hl]. intros Hin.
  apply in_map_iff in Hin as (y & Hy & Hin). now apply (Hx y Hin).
Qed.

End RowsMore.

Lemma insert_book_inv uid new_id now f added_by db db' :
  insert_book uid new_id now f added_by db = Ok db' ->
  db' = Db.mk (Db.profiles db) (Db.books db ++ [book_row new_id now f added_by])
          (Db.reviews db)
  /\ int4 (f_published_year f) = true
  /\ uid = Some added_by
  /\ (forall b, In b (Db.books db) -> Book.id b <> new_id)
  /\ (exists q, In q (Db.profiles db) /\ Profile.id q = added_by).
Proof.
  unfold insert_book, guard, books_insert_check. cbn [Book.added_by].
  rewrite policy_authenticated.
  destruct (int4 (f_published_year f)); simpl; [|discriminate].
  destruct (auth_uid_eq uid added_by) eqn:Hu; simpl; [|discriminate].
  destruct (existsb _ (Db.books db)) eqn:Hpk; simpl; [discriminate|].
  destruct (existsb _ (Db.profiles db)) eqn:Hfk; simpl; [|discriminate].
  intros H. injection H as <-. split; [reflexivity|]. split; [reflexivity|].
  split; [now apply auth_uid_eq_true|]. split.
  - intros b Hb. rewrite existsb_false_iff in Hpk. apply String.eqb_neq. now apply Hpk.
  - apply existsb_exists in Hfk as (q & Hq & Heq). apply String.eqb_eq in Heq. eauto.
Qed.

Lemma insert_book_keeps_consistent uid new_id now f added_by db db' :
  consistent db -> insert_book uid new_id now f added_by db = Ok db' -> consistent db'.
Proof.
  intros [Hpp He Hbp Hbf Hrp Hru Hrr Hrb Hrf].
  intros H. apply insert_book_inv in H as (-> & _ & _ & Hfresh & Hq).
  constructor; try assumption.
  - unfold books_pkey. simpl. now apply NoDup_map_snoc.
  - intros b Hb. simpl in *. apply in_app_or in Hb as [Hb|[<-|[]]]; [now apply Hbf|exact Hq].
  - intros r Hr. destruct (Hrb r Hr) as (b & Hb & Hid). exists b.
    split; [|exact Hid]. simpl. apply in_or_app. now left.
Qed.

Lemma update_book_keeps_consistent uid now id f db db' n :
  consistent db -> update_book uid now id f db = Ok (db', n) -> consistent db'.
Proof.
  intros [Hpp He Hbp Hbf Hrp Hru Hrr Hrb Hrf].
  intros H. unfold update_book, guard in H.
  destruct (int4 (f_published_year f)); simpl in H; [|discriminate].
  destruct (update_rows _ _ (Db.books db)) as [[l' n']|] eqn:Hu; simpl in H; [|discriminate].
  injection H as <- <-.
  assert (Hupd : forall x y : Book.t,
            (let new := book_set now f x in
             let* _ := guard (books_update_check uid new) insufficient_privilege in
             Ok new) = Ok y -> y = book_set now f x).
  { intros x y. simpl. unfold guard.
    destruct (books_update_check uid (book_set now f x)); simpl; congruence. }
  assert (Hids : List.map Book.id l' = List.map Book.id (Db.books db)).
  { apply (update_rows_keys Book.id _ _ _ _ _ (fun x y _ Hxy =>
             f_equal Book.id (Hupd x y Hxy)) Hu). }
  constructor; try assumption.
  - unfold books_pkey. simpl. rewrite Hids. exact Hbp.
  - intros b Hb. simpl in *.
    destruct (update_rows_in _ _ _ _ _ b Hu Hb) as (x & Hx & [->|[_ Hy]]).
    + now apply Hbf.
    + rewrite (Hupd x b Hy). simpl. now apply Hbf.
  - intros r Hr. destruct (Hrb r Hr) as (b & Hb & Hid). simpl.
    assert (Hin : In (Review.book_id r) (List.map Book.id l')).
    { rewrite Hids, <- Hid. now apply in_map. }
    apply in_map_iff in Hin as (b' & Hb' & Hin). eauto.
Qed.

Lemma delete_book_keeps_consistent uid id db db' n :
  consistent db -> delete_book uid id db = Ok (db', n) -> consistent db'.
Proof.
  intros [Hpp He Hbp Hbf Hrp Hru Hrr Hrb Hrf].
  intros H. unfold delete_book, delete_rows in H. injection H as <- <-.
  constructor; try assumption; simpl.
  - unfold books_pkey. simpl. now apply NoDup_map_filter.
  - intros b Hb. simpl in Hb. apply filter_In in Hb as [Hb _]. now apply Hbf.
  - unfold reviews_pkey. simpl. now apply NoDup_map_filter.
  - unfold reviews_pairs_unique. simpl.
    now apply (NoDup_map_filter (fun r => (Review.book_id r, Review.user_id r))).
  - unfold ratings_in_range in *. rewrite List.Forall_forall in *.
    intros r Hr. apply filter_In in Hr as [Hr _]. now apply Hrr.
  - intros r Hr. simpl in *. apply filter_In in Hr as [Hr Hkeep].
    destruct (Hrb r Hr) as (b & Hb & Hid). exists b. split; [|exact Hid].
    apply filter_In. split; [exact Hb|].
    destruct (String.eqb (Book.id b) id && books_delete_using uid b) eqn:Hs;
      [|reflexivity].
    exfalso. apply negb_true_iff in Hkeep. rewrite existsb_false_iff in Hkeep.
    specialize (Hkeep (Book.id b)). rewrite Hid, String.eqb_refl in Hkeep.
    assert (Hgone : In (Review.book_id r)
              (List.map Book.id
                 (List.filter
                    (fun b0 => String.eqb (Book.id b0) id && books_delete_using uid b0)
                    (Db.books db)))).
    { rewrite <- Hid. apply in_map. apply filter_In. now split. }
    specialize (Hkeep Hgone). discriminate.
  - intros r Hr. simpl in *. apply filter_In in Hr as [Hr _]. now apply Hrf.
Qed.

(** What the checked new row of an UPDATE of [reviews] is. *)
Lemma review_update_row_ok uid now rating text (x y : Review.t) :
  (let new := review_set now rating text x in
   let* _ := guard (reviews_update_check uid new) insufficient_privilege in
   let* _ := guard (rating_check new) check_violation in
   Ok new) = Ok y ->
  y = review_set now rating text x /\ 1 <= rating <= 5.
Proof.
  simpl. unfold guard.
  destruct (reviews_update_check uid (review_set now rating text x)); simpl;
    [|discriminate].
  destruct (rating_check (review_set now rating text x)) eqn:Hc; simpl;
    [|discriminate].
  intros H. injection H as <-. split; [reflexivity|].
  apply rating_check_iff in Hc. exact Hc.
Qed.

Lemma insert_review_keeps_consistent uid new_id now p db db' :
  consistent db -> insert_review uid new_id now p db = Ok db' -> consistent db'.
Proof.
  intros Hc.
  intros H.
  pose proof (insert_review_keeps_pairs_unique _ _ _ _ _ _
                (c_reviews_pairs_unique _ Hc) H) as Hpairs.
  assert (Hex : exists d, insert_review uid new_id now p db = Ok d) by eauto.
  apply insert_review_ok_iff in Hex as (Hr & _ & Hfresh & _ & Hb & Hq).
  apply insert_review_ok_row in H. subst db'.
  destruct Hc as [Hpp He Hbp Hbf Hrp Hru Hrr Hrb Hrf].
  constructor; try assumption.
  - unfold reviews_pkey. simpl. now apply NoDup_map_snoc.
  - unfold ratings_in_range in *. simpl. apply Forall_app. split; [exact Hrr|].
    constructor; [exact Hr|constructor].
  - intros r Hin. simpl in *. apply in_app_or in Hin as [Hin|[<-|[]]];
      [now apply Hrb|exact Hb].
  - intros r Hin. simpl in *. apply in_app_or in Hin as [Hin|[<-|[]]];
      [now apply Hrf|exact Hq].
Qed.

Lemma update_review_keeps_consistent uid now id rating text db db' n :
  consistent db -> update_review uid now id rating text db = Ok (db', n) ->
  consistent db'.
Proof.
  intros Hc.
  intros H. unfold update_review, guard in H.
  destruct (int4 rating); simpl in H; [|discriminate].
  destruct (update_rows _ _ (Db.reviews db)) as [[l' n']|] eqn:Hu; simpl in H;
    [|discriminate].
  injection H as <- <-.
  destruct Hc as [Hpp He Hbp Hbf Hrp Hru Hrr Hrb Hrf].
  assert (Hin : forall y, In y l' ->
            exists x, In x (Db.reviews db)
              /\ Review.book_id y = Review.book_id x
              /\ Review.user_id y = Review.user_id x
              /\ 1 <= Review.rating y <= 5).
  { intros y Hy. destruct (update_rows_in _ _ _ _ _ y Hu Hy) as (x & Hx & [->|[_ Hy']]).
    - exists x. repeat split; auto.
      + unfold ratings_in_range in Hrr. rewrite List.Forall_forall in Hrr.
        now apply Hrr.
      + unfold ratings_in_range in Hrr. rewrite List.Forall_forall in Hrr.
        now apply Hrr.
    - apply review_update_row_ok in Hy' as [-> Hr]. exists x. auto. }
  constructor; try assumption.
  - unfold reviews_pkey. simpl.
    rewrite (update_rows_keys Review.id _ _ _ _ _
               (fun x y _ Hxy =>
                  f_equal Review.id (proj1 (review_update_row_ok _ _ _ _ x y Hxy)))
               Hu).
    exact Hrp.
  - unfold reviews_pairs_unique. simpl.
    rewrite (update_rows_keys (fun r => (Review.book_id r, Review.user_id r)) _ _ _ _ _
               (fun x y _ Hxy =>
                  f_equal (fun r => (Review.book_id r, Review.user_id r))
                    (proj1 (review_update_row_ok _ _ _ _ x y Hxy))) Hu).
    exact Hru.
  - unfold ratings_in_range. simpl. apply List.Forall_forall. intros y Hy.
    destruct (Hin y Hy) as (_ & _ & _ & _ & H). exact H.
  - intros y Hy. simpl in *. destruct (Hin y Hy) as (x & Hx & -> & _). now apply Hrb.
  - intros y Hy. simpl in *. destruct (Hin y Hy) as (x & Hx & _ & -> & _). now apply Hrf.
Qed.

Lemma delete_review_keeps_consistent uid id db db' n :
  consistent db -> delete_review uid id db = Ok (db', n) -> consistent db'.
Proof.
  intros Hc.
  intros H. unfold delete_review, delete_rows in H. injection H as <- <-.
  destruct Hc as [Hpp He Hbp Hbf Hrp Hru Hrr Hrb Hrf].
  constructor; try assumption; simpl.
  - unfold reviews_pkey. simpl. now apply NoDup_map_filter.
  - unfold reviews_pairs_unique. simpl.
    now apply (NoDup_map_filter (fun r => (Review.book_id r, Review.user_id r))).
  - unfold ratings_in_range in *. rewrite List.Forall_forall in *.
    intros r Hr. apply filter_In in Hr as [Hr _]. now apply Hrr.
  - intros r Hr. simpl in *. apply filter_In in Hr as [Hr _]. now apply Hrb.
  - intros r Hr. simpl in *. apply filter_In in Hr as [Hr _]. now apply Hrf.
Qed.

(** A new profile row that passed the checks keeps its id and takes an
    email no other row uses. *)
Lemma profile_update_row_inv uid patch table (x y : Profile.t) :
  profile_update_row uid patch table x = Ok y ->
  auth_uid_eq uid (Profile.id x) = true ->
  y = profile_set patch x
  /\ Profile.id y = Profile.id x
  /\ (forall q, In q table -> Profile.id q <> Profile.id x ->
        Profile.email q <> Profile.email y).
Proof.
  intros H Hu. apply auth_uid_eq_true in Hu.
  destruct (profile_update_row_ok uid patch table x y Hu H) as [Hy Hid].
  split; [exact Hy|]. split; [exact Hid|].
  unfold profile_update_row, guard in H.
  destruct (profiles_update_check uid (profile_set patch x)); simpl in H; [|discriminate].
  destruct (existsb _ _) in H; simpl in H; [discriminate|].
  destruct (existsb _ _) eqn:He in H; simpl in H; [discriminate|].
  intros q Hq Hne. rewrite existsb_false_iff in He.
  specialize (He q). rewrite Hy. apply String.eqb_neq. apply He.
  apply filter_In. split; [exact Hq|]. apply negb_true_iff. now apply String.eqb_neq.
Qed.

(** Replacing the row with key [k] by one whose email no other row uses
    keeps the emails distinct. *)
Lemma emails_unique_replace (l : list Profile.t) (k : uuid) (y : Profile.t) :
  List.NoDup (List.map Profile.id l) ->
  List.NoDup (List.map Profile.email l) ->
  (forall q, In q l -> Profile.id q <> k -> Profile.email q <> Profile.email y) ->
  List.NoDup
    (List.map Profile.email
       (List.map (fun x => if String.eqb (Profile.id x) k then y else x) l)).
Proof.
  induction l as [|x l IH]; simpl; intros Hid Hem Hy; [constructor|].
  inversion Hid as [|? ? Hxid Hid']; subst. inversion Hem as [|? ? Hxem Hem']; subst.
  destruct (String.eqb_spec (Profile.id x) k) as [Hk|Hk].
  - rewrite (map_ext_in _ (fun x => x)), map_id.
    + constructor; [|exact Hem']. intros Hin.
      apply in_map_iff in Hin as (q & Hq & Hin).
      apply (Hy q); auto. intros Hqk. apply Hxid. rewrite Hk, <- Hqk. now apply in_map.
    + intros q Hq. destruct (String.eqb_spec (Profile.id q) k) as [Hqk|]; [|reflexivity].
      exfalso. apply Hxid. rewrite Hk, <- Hqk. now apply in_map.
  - constructor; [|apply IH; auto].
    intros Hin. apply in_map_iff in Hin as (z & Hz & Hin).
    apply in_map_iff in Hin as (q & Hq & Hin). subst z.
    destruct (String.eqb (Profile.id q) k).
    + apply (Hy x); auto.
    + apply Hxem. rewrite <- Hz. now apply in_map.
Qed.

Lemma handle_new_user_inv NEW now db db' :
  handle_new_user NEW now db = Ok db' ->
  db' = Db.mk (Db.profiles db
               ++ [Profile.mk (NEW_id NEW) (default "User"%string (NEW_name NEW))
                     (NEW_email NEW) now])
          (Db.books db) (Db.reviews db)
  /\ (forall q, In q (Db.profiles db) -> Profile.id q <> NEW_id NEW)
  /\ (forall q, In q (Db.profiles db) -> Profile.email q <> NEW_email NEW).
Proof.
  unfold handle_new_user, guard.
  destruct (existsb _ _) eqn:H1; simpl; [discriminate|].
  destruct (existsb _ _) eqn:H2 in |- *; simpl; [discriminate|].
  intros H. injection H as <-. split; [reflexivity|].
  rewrite existsb_false_iff in H1, H2.
  split; intros q Hq; apply String.eqb_neq; auto.
Qed.

Lemma update_profile_keeps_consistent uid id patch db db' n :
  consistent db -> update_profile uid id patch db = Ok (db', n) -> consistent db'.
Proof.
  intros [Hpp He Hbp Hbf Hrp Hru Hrr Hrb Hrf].
  intros H. unfold update_profile in H.
  destruct (update_rows _ _ (Db.profiles db)) as [[l' n']|] eqn:Hu; simpl in H;
    [|discriminate].
  injection H as <- <-.
  set (sel := fun p => String.eqb (Profile.id p) id && profiles_update_using uid p) in *.
  assert (Hsel : forall x, sel x = true ->
            Profile.id x = id /\ auth_uid_eq uid (Profile.id x) = true).
  { intros x Hx. unfold sel in Hx. apply andb_prop in Hx as [Hx1 Hx2].
    apply String.eqb_eq in Hx1. unfold profiles_update_using in Hx2.
    rewrite policy_authenticated in Hx2. auto. }
  assert (Hids : List.map Profile.id l' = List.map Profile.id (Db.profiles db)).
  { apply (update_rows_keys Profile.id _ _ _ _ _
             (fun x y Hx Hxy =>
                proj1 (proj2 (profile_update_row_inv _ _ _ x y Hxy (proj2 (Hsel x Hx)))))
             Hu). }
  assert (Hems : List.NoDup (List.map Profile.email l')).
  { destruct (existsb sel (Db.profiles db)) eqn:Hany.
    - apply existsb_exists in Hany as (P & HP & HsP).
      destruct (Hsel P HsP) as [HidP HuP].
      assert (Huniq : forall x, In x (Db.profiles db) -> sel x = true -> x = P).
      { intros x Hx Hsx. apply (key_unique Profile.id _ x P Hpp Hx HP).
        destruct (Hsel x Hsx) as [-> _]. now symmetry. }
      destruct (profile_update_row uid patch (Db.profiles db) P) as [y|e] eqn:Hy.
      + destruct (profile_update_row_inv _ _ _ P y Hy HuP) as (_ & Hyid & Hyem).
        rewrite (update_rows_map sel _ (fun _ => y)) in Hu.
        * injection Hu as <- _.
          rewrite (map_ext_in _ (fun x => if String.eqb (Profile.id x) id then y else x)).
          -- apply emails_unique_replace; auto.
             intros q Hq Hne. apply Hyem; auto. congruence.
          -- intros x Hx. destruct (sel x) eqn:Hsx.
             ++ destruct (Hsel x Hsx) as [-> _]. now rewrite String.eqb_refl.
             ++ destruct (String.eqb_spec (Profile.id x) id) as [Hxid|]; [|reflexivity].
                exfalso. assert (x = P).
                { apply (key_unique Profile.id _ x P Hpp Hx HP). congruence. }
                congruence.
        * intros x Hx Hsx. rewrite (Huniq x Hx Hsx). exact Hy.
      + rewrite (update_rows_err sel _ _ P e HP HsP Hy Huniq) in Hu. discriminate.
    - rewrite existsb_false_iff in Hany.
      rewrite (update_rows_none sel _ _ Hany) in Hu. injection Hu as <- _. exact He. }
  constructor; try assumption; simpl.
  - unfold profiles_pkey. simpl. rewrite Hids. exact Hpp.
  - intros b Hb. simpl in *. destruct (Hbf b Hb) as (q & Hq & Hid).
    assert (Hin : In (Book.added_by b) (List.map Profile.id l')).
    { rewrite Hids, <- Hid. now apply in_map. }
    apply in_map_iff in Hin as (q' & Hq' & Hin). eauto.
  - intros r Hr. simpl in *. destruct (Hrf r Hr) as (q & Hq & Hid).
    assert (Hin : In (Review.user_id r) (List.map Profile.id l')).
    { rewrite Hids, <- Hid. now apply in_map. }
    apply in_map_iff in Hin as (q' & Hq' & Hin). eauto.
Qed.

Lemma handle_new_user_keeps_consistent NEW now db db' :
  consistent db -> handle_new_user NEW now db = Ok db' -> consistent db'.
Proof.
  intros [Hpp He Hbp Hbf Hrp Hru Hrr Hrb Hrf].
  intros H. apply handle_new_user_inv in H as (-> & Hid & Hem).
  constructor; try assumption; simpl.
  - unfold profiles_pkey. simpl. now apply NoDup_map_snoc.
  - unfold emails_unique. simpl. now apply NoDup_map_snoc.
  - intros b Hb. simpl in *. destruct (Hbf b Hb) as (q & Hq & Hq').
    exists q. split; [apply in_or_app; now left|exact Hq'].
  - intros r Hr. simpl in *. destruct (Hrf r Hr) as (q & Hq & Hq').
    exists q. split; [apply in_or_app; now left|exact Hq'].
Qed.

Lemma empty_db_consistent : consistent empty_db.
Proof.
  constructor; try (constructor; fail); intros x [].
Qed.

Lemma shelf_consistent : consistent shelf.
Proof.
  constructor.
  - exact shelf_profiles_pkey.
  - unfold emails_unique. simpl.
    repeat (constructor; [simpl; intuition discriminate|]). constructor.
  - exact shelf_books_pkey.
  - intros b [<-|[<-|[]]]; [exists alice|exists bob]; simpl; auto.
  - unfold reviews_pkey. simpl. repeat constructor. intros [].
  - unfold reviews_pairs_unique. simpl. repeat constructor. intros [].
  - unfold ratings_in_range. simpl. repeat constructor; simpl; lia.
  - intros r [<-|[]]. exists dune. simpl. auto.
  - intros r [<-|[]]. exists alice. simpl. auto.
Qed.

(** X1.  The statements on [books] keep the store consistent: after a
    successful insert, update or delete of a book every constraint of the
    migration still holds; a delete takes the book's reviews with it, so no
    review is left pointing at a missing book. *)
Theorem book_statements_keep_consistent
    (uid : option uuid) (new_id : uuid) (now : timestamptz) (f : BookForm)
    (added_by id : uuid) (db : Db.t) :
  consistent db ->
  (forall db', insert_book uid new_id now f added_by db = Ok db' -> consistent db')
  /\ (forall db' n, update_book uid now id f db = Ok (db', n) -> consistent db')
  /\ (forall db' n, delete_book uid id db = Ok (db', n) -> consistent db').
Proof.
  intros Hc. split; [|split].
  - intros db'. now apply insert_book_keeps_consistent.
  - intros db' n. now apply update_book_keeps_consistent.
  - intros db' n. now apply delete_book_keeps_consistent.
Qed.

Lemma book_statements_keep_consistent_witness :
  consistent (books_after_delete dune shelf).
Proof.
  destruct (book_statements_keep_consistent (Some "u-bob"%string) "b-new" 200
              second_edition "u-bob" "b-dune" shelf shelf_consistent) as (_ & _ & H).
  apply (H _ 1%nat). reflexivity.
Defined.

(** X2.  The statements on [reviews] keep the store consistent: ids and
    (book, user) pairs stay unique, every stored rating stays between 1 and
    5, also after an edit, and every review keeps pointing at an existing
    book and profile. *)
Theorem review_statements_keep_consistent
    (uid : option uuid) (new_id : uuid) (now : timestamptz) (p : ReviewInsert)
    (id : uuid) (rating : Z) (text : string) (db : Db.t) :
  consistent db ->
  (forall db', insert_review uid new_id now p db = Ok db' -> consistent db')
  /\ (forall db' n, update_review uid now id rating text db = Ok (db', n) ->
        consistent db')
  /\ (forall db' n, delete_review uid id db = Ok (db', n) -> consistent db').
Proof.
  intros Hc. split; [|split].
  - intros db'. now apply insert_review_keeps_consistent.
  - intros db' n. now apply update_review_keeps_consistent.
  - intros db' n. now apply delete_review_keeps_consistent.
Qed.

Lemma review_statements_keep_consistent_witness :
  consistent
    (Db.mk [alice; bob] [hobbit; dune]
       [alice_on_dune; Review.mk "r-2" "b-dune" "u-bob" 4 "Mine." 160 160]).
Proof.
  destruct (review_statements_keep_consistent (Some "u-bob"%string) "r-2" 160
              (mkReviewInsert "b-dune" "u-bob" 4 "Mine.") "r-1" 3 "" shelf
              shelf_consistent) as (H & _ & _).
  apply H. reflexivity.
Defined.

(** X3.  The statements on [profiles] keep the store consistent: the
    sign-up trigger and an update of a profile leave ids and emails unique,
    and no book or review loses the profile it refers to. *)
Theorem profile_statements_keep_consistent
    (uid : option uuid) (id : uuid) (patch : ProfilePatch) (NEW : AuthUser)
    (now : timestamptz) (db : Db.t) :
  consistent db ->
  (forall db' n, update_profile uid id patch db = Ok (db', n) -> consistent db')
  /\ (forall db', handle_new_user NEW now db = Ok db' -> consistent db').
Proof.
  intros Hc. split.
  - intros db' n. now apply update_profile_keeps_consistent.
  - intros db'. now apply handle_new_user_keeps_consistent.
Qed.

Lemma profile_statements_keep_consistent_witness :
  consistent (profiles_after_update new_address alice shelf).
Proof.
  destruct (profile_statements_keep_consistent (Some "u-alice"%string) "u-alice"
              new_address (mkAuthUser "u-carol" None "carol@example.org") 30 shelf
              shelf_consistent) as (H & _).
  apply (H _ 1%nat). reflexivity.
Defined.

Lemma execute_keeps_consistent (s : Statement) (db : Db.t) :
  consistent db -> consistent (execute s db).
Proof.
  intros Hc. unfold execute. destruct s as
    [NEW now|uid id patch|uid nid now f added_by|uid now id f|uid id
    |uid nid now p|uid now id rating text|uid id].
  - destruct (handle_new_user NEW now db) as [db'|] eqn:H; [|exact Hc].
    exact (handle_new_user_keeps_consistent _ _ _ _ Hc H).
  - destruct (update_profile uid id patch db) as [[db' n]|] eqn:H; simpl; [|exact Hc].
    exact (update_profile_keeps_consistent _ _ _ _ _ _ Hc H).
  - destruct (insert_book uid nid now f added_by db) as [db'|] eqn:H; [|exact Hc].
    exact (insert_book_keeps_consistent _ _ _ _ _ _ _ Hc H).
  - destruct (update_book uid now id f db) as [[db' n]|] eqn:H; simpl; [|exact Hc].
    exact (update_book_keeps_consistent _ _ _ _ _ _ _ Hc H).
  - destruct (delete_book uid id db) as [[db' n]|] eqn:H; simpl; [|exact Hc].
    exact (delete_book_keeps_consistent _ _ _ _ _ Hc H).
  - destruct (insert_review uid nid now p db) as [db'|] eqn:H; [|exact Hc].
    exact (insert_review_keeps_consistent _ _ _ _ _ _ Hc H).
  - destruct (update_review uid now id rating text db) as [[db' n]|] eqn:H; simpl;
      [|exact Hc].
    exact (update_review_keeps_consistent _ _ _ _ _ _ _ _ Hc H).
  - destruct (delete_review uid id db) as [[db' n]|] eqn:H; simpl; [|exact Hc].
    exact (delete_review_keeps_consistent _ _ _ _ _ Hc H).
Qed.

(** X4.  Whatever sequence of statements reaches the store, by whichever
    caller and whether each succeeds or is refused, a consistent store stays
    consistent; in particular every state reached from the empty store is
    consistent. *)
Theorem store_stays_consistent (log : list Statement) (db : Db.t) :
  consistent db -> consistent (run log db).
Proof.
  revert db. induction log as [|s log IH]; intros db Hc; simpl; [exact Hc|].
  apply IH. now apply execute_keeps_consistent.
Qed.

Lemma store_stays_consistent_witness :
  consistent (run morning empty_db)
  /\ List.map Review.id (Db.reviews (run morning empty_db)) = ["r-1"%string]
  /\ List.map Profile.name (Db.profiles (run morning empty_db))
     = ["Alice"; "User"]%string.
Proof.
  split; [|split; reflexivity].
  apply (store_stays_consistent morning empty_db). exact empty_db_consistent.
Defined.

(** ** Reviews: edit and delete by author only *)

Lemma review_selection uid db R (author_policy : option uuid -> Review.t -> bool) :
  (forall r, author_policy uid r
             = is_authenticated uid && auth_uid_eq uid (Review.user_id r)) ->
  reviews_pkey db -> In R (Db.reviews db) ->
  forall r, In r (Db.reviews db) ->
    String.eqb (Review.id r) (Review.id R) && author_policy uid r =
    String.eqb (Review.id r) (Review.id R) && auth_uid_eq uid (Review.user_id R).
Proof.
  intros Hpol Hpk HR r Hr.
  destruct (String.eqb_spec (Review.id r) (Review.id R)) as [Hid|]; [|reflexivity].
  simpl. rewrite (key_unique Review.id _ r R Hpk Hr HR Hid).
  rewrite Hpol. apply policy_authenticated.
Qed.

(** X5.  A review is edited and deleted by its author only.  The author's
    edit with a rating between 1 and 5 rewrites the rating and the text and
    nothing else but [updated_at]; the author's delete removes the review.
    The same requests by anyone else, anonymous callers included, change
    nothing and raise no error.  An edit to a rating outside 1..5 is refused
    with a check violation when the author sends it, and passes unnoticed,
    with no row touched, when anyone else does. *)
Theorem review_update_delete_author_only
    (uid : option uuid) (now : timestamptz) (rating : Z) (text : string)
    (db : Db.t) (R : Review.t) :
  reviews_pkey db -> In R (Db.reviews db) -> int4 rating = true ->
  (uid = Some (Review.user_id R) ->
     (1 <= rating <= 5 ->
        update_review uid now (Review.id R) rating text db
          = Ok (reviews_after_update now rating text R db, 1%nat)
        /\ In (Review.mk (Review.id R) (Review.book_id R) (Review.user_id R)
                 rating text (Review.created_at R) now)
              (Db.reviews (reviews_after_update now rating text R db)))
     /\ (~ 1 <= rating <= 5 ->
         update_review uid now (Review.id R) rating text db = Err check_violation)
     /\ delete_review uid (Review.id R) db = Ok (reviews_after_delete R db, 1%nat)
     /\ ~ In R (Db.reviews (reviews_after_delete R db)))
  /\ (uid <> Some (Review.user_id R) ->
      update_review uid now (Review.id R) rating text db = Ok (db, O)
      /\ delete_review uid (Review.id R) db = Ok (db, O)).
Proof.
  intros Hpk HR Hi.
  assert (Hcount := key_count Review.id (Db.reviews db) R Hpk HR).
  split.
  - intros Hown. apply auth_uid_eq_true in Hown.
    assert (Hsel : forall pol,
              (forall r, pol uid r
                         = is_authenticated uid && auth_uid_eq uid (Review.user_id r)) ->
              forall r, In r (Db.reviews db) ->
                String.eqb (Review.id r) (Review.id R) && pol uid r
                = String.eqb (Review.id r) (Review.id R)).
    { intros pol Hpol r Hr. rewrite (review_selection uid db R pol Hpol Hpk HR r Hr).
      rewrite Hown. apply andb_true_r. }
    split; [|split; [|split]].
    + intros Hr. unfold update_review, guard. rewrite Hi. simpl.
      rewrite (update_rows_map _ _ (review_set now rating text)).
      * simpl. unfold reviews_after_update. split.
        -- do 2 f_equal.
           ++ f_equal. apply map_ext_in. intros r Hin.
              now rewrite (Hsel reviews_update_using (fun _ => eq_refl) r Hin).
           ++ rewrite <- Hcount. f_equal. apply filter_ext_in. intros r Hin.
              now rewrite (Hsel reviews_update_using (fun _ => eq_refl) r Hin).
        -- simpl. apply in_map_iff. exists R. now rewrite String.eqb_refl.
      * intros r Hin Hs. apply andb_prop in Hs as [_ Hu].
        unfold reviews_update_check, review_set. simpl.
        unfold reviews_update_using in Hu. rewrite Hu. simpl.
        rewrite (proj2 (rating_check_iff
                   (Review.mk (Review.id r) (Review.book_id r) (Review.user_id r)
                      rating text (Review.created_at r) now)) Hr).
        reflexivity.
    + intros Hr. unfold update_review, guard. rewrite Hi. simpl.
      rewrite (update_rows_err _ _ _ R check_violation); auto.
      * rewrite (Hsel reviews_update_using (fun _ => eq_refl) R HR).
        apply String.eqb_refl.
      * unfold reviews_update_check, review_set. simpl.
        rewrite policy_authenticated, Hown. simpl.
        destruct (rating_check _) eqn:Hc; [|reflexivity].
        apply rating_check_iff in Hc. simpl in Hc. contradiction.
      * intros r Hin Hs. apply andb_prop in Hs as [Hid _].
        apply String.eqb_eq in Hid. exact (key_unique Review.id _ r R Hpk Hin HR Hid).
    + unfold delete_review, delete_rows, reviews_after_delete. simpl. do 2 f_equal.
      * f_equal. apply filter_ext_in. intros r Hin.
        now rewrite (Hsel reviews_delete_using (fun _ => eq_refl) r Hin).
      * rewrite <- Hcount. f_equal. apply filter_ext_in. intros r Hin.
        now rewrite (Hsel reviews_delete_using (fun _ => eq_refl) r Hin).
    + unfold reviews_after_delete. simpl. rewrite filter_In, String.eqb_refl.
      simpl. intros [_ ?]. discriminate.
  - intros Hother.
    assert (Hown : auth_uid_eq uid (Review.user_id R) = false).
    { destruct (auth_uid_eq uid (Review.user_id R)) eqn:E; [|reflexivity].
      apply auth_uid_eq_true in E. contradiction. }
    assert (Hsel : forall pol,
              (forall r, pol uid r
                         = is_authenticated uid && auth_uid_eq uid (Review.user_id r)) ->
              forall r, In r (Db.reviews db) ->
                String.eqb (Review.id r) (Review.id R) && pol uid r = false).
    { intros pol Hpol r Hr. rewrite (review_selection uid db R pol Hpol Hpk HR r Hr).
      rewrite Hown. apply andb_false_r. }
    split.
    + unfold update_review, guard. rewrite Hi. simpl.
      rewrite update_rows_none; [destruct db; reflexivity|].
      apply (Hsel reviews_update_using (fun _ => eq_refl)).
    + unfold delete_review.
      rewrite (delete_rows_none _ _ (Hsel reviews_delete_using (fun _ => eq_refl))).
      destruct db; reflexivity.
Qed.

Lemma shelf_reviews_pkey : reviews_pkey shelf.
Proof. apply shelf_consistent. Qed.

Lemma review_update_delete_author_only_witness :
  update_review (Some "u-alice"%string) 200 (Review.id alice_on_dune) 9 "Nine!" shelf
    = Err check_violation
  /\ update_review (Some "u-bob"%string) 200 (Review.id alice_on_dune) 9 "Nine!" shelf
     = Ok (shelf, O).
Proof.
  split.
  - destruct (review_update_delete_author_only (Some "u-alice"%string) 200 9 "Nine!"
                shelf alice_on_dune) as [H _].
    + exact shelf_reviews_pkey.
    + simpl. left. reflexivity.
    + reflexivity.
    + destruct (H eq_refl) as (_ & Hbad & _). apply Hbad. lia.
  - reflexivity.
Defined.

(** ** Deleting a book *)

(** X6.  When the store accepts a delete of a book, it removes the books
    with the given id that the caller owns and nothing else from [books];
    it removes the reviews of that book exactly when a book was removed, and
    no other review; the profiles are untouched. *)
Theorem delete_book_cascades
    (uid : option uuid) (id : uuid) (db db' : Db.t) (n : nat) :
  delete_book uid id db = Ok (db', n) ->
  Db.profiles db' = Db.profiles db
  /\ (forall b, In b (Db.books db')
                <-> In b (Db.books db)
                    /\ ~ (Book.id b = id /\ uid = Some (Book.added_by b)))
  /\ (forall r, In r (Db.reviews db')
                <-> In r (Db.reviews db)
                    /\ ~ (Review.book_id r = id /\ (0 < n)%nat))
  /\ ((0 < n)%nat <-> exists b, In b (Db.books db) /\ Book.id b = id
                                 /\ uid = Some (Book.added_by b)).
Proof.
  unfold delete_book, delete_rows. intros Hdel. injection Hdel as <- <-.
  cbn [Db.profiles Db.books Db.reviews fst snd].
  set (sel := fun b => String.eqb (Book.id b) id && books_delete_using uid b).
  assert (Hsel : forall b, sel b = true <-> Book.id b = id /\ uid = Some (Book.added_by b)).
  { intros b. unfold sel, books_delete_using.
    rewrite policy_authenticated, andb_true_iff, String.eqb_eq, auth_uid_eq_true.
    reflexivity. }
  assert (Hn : (0 < List.length (List.filter sel (Db.books db)))%nat
               <-> exists b, In b (Db.books db) /\ Book.id b = id
                             /\ uid = Some (Book.added_by b)).
  { split.
    - destruct (List.filter sel (Db.books db)) as [|b l] eqn:Hf; simpl; [lia|].
      intros _. assert (Hb : In b (List.filter sel (Db.books db))) by (rewrite Hf; now left).
      apply filter_In in Hb as [Hb Hs]. apply Hsel in Hs. eauto.
    - intros (b & Hb & Hid & Hu).
      assert (Hin : In b (List.filter sel (Db.books db))).
      { apply filter_In. split; [exact Hb|]. apply Hsel. auto. }
      destruct (List.filter sel (Db.books db)); [destruct Hin|simpl; lia]. }
  split; [reflexivity|]. split; [|split; [|exact Hn]].
  - intros b. rewrite filter_In, negb_true_iff, <- Hsel, not_true_iff_false.
    reflexivity.
  - intros r. rewrite filter_In, negb_true_iff, existsb_false_iff.
    split; intros [Hr Hkeep]; (split; [exact Hr|]).
    + intros [Hid Hpos]. apply Hn in Hpos as (b & Hb & Hbid & Hu).
      specialize (Hkeep (Book.id b)). rewrite Hbid, Hid, String.eqb_refl in Hkeep.
      assert (Hin : In id (List.map Book.id (List.filter sel (Db.books db)))).
      { rewrite <- Hbid. apply in_map. apply filter_In. split; [exact Hb|].
        apply Hsel. auto. }
      specialize (Hkeep Hin). discriminate.
    + intros g Hg. apply String.eqb_neq. intros Heq. apply Hkeep.
      apply in_map_iff in Hg as (b & Hbid & Hb).
      pose proof Hb as Hb'. apply filter_In in Hb' as [_ Hs]. apply Hsel in Hs as [Hid _].
      split; [congruence|].
      destruct (List.filter sel (Db.books db)); [destruct Hb|simpl; lia].
Qed.

Lemma delete_book_cascades_witness :
  Db.profiles (Db.mk [alice; bob] [hobbit] []) = Db.profiles shelf
  /\ (forall b, In b (Db.books (Db.mk [alice; bob] [hobbit] []))
                <-> In b (Db.books shelf)
                    /\ ~ (Book.id b = "b-dune"%string
                          /\ Some "u-bob"%string = Some (Book.added_by b)))
  /\ (forall r, In r (Db.reviews (Db.mk [alice; bob] [hobbit] []))
                <-> In r (Db.reviews shelf)
                    /\ ~ (Review.book_id r = "b-dune"%string /\ (0 < 1)%nat))
  /\ ((0 < 1)%nat <-> exists b, In b (Db.books shelf) /\ Book.id b = "b-dune"%string
                                 /\ Some "u-bob"%string = Some (Book.added_by b)).
Proof.
  apply (delete_book_cascades (Some "u-bob"%string) "b-dune" shelf). reflexivity.
Defined.

(** ** Signing up *)

(** X7.  The sign-up trigger creates a profile if and only if neither the
    id nor the email is taken, and is refused with a uniqueness error
    otherwise.  The new profile is the only change to the store: it carries
    the registered email and the given name, or the name "User" when none
    was given, and it is the one profile with that id. *)
Theorem sign_up_creates_one_profile (NEW : AuthUser) (now : timestamptz) (db : Db.t) :
  ((exists db', handle_new_user NEW now db = Ok db')
   <-> (forall q, In q (Db.profiles db) -> Profile.id q <> NEW_id NEW)
       /\ (forall q, In q (Db.profiles db) -> Profile.email q <> NEW_email NEW))
  /\ ((forall db', handle_new_user NEW now db <> Ok db') ->
      handle_new_user NEW now db = Err unique_violation)
  /\ (forall db', handle_new_user NEW now db = Ok db' ->
        Db.books db' = Db.books db
        /\ Db.reviews db' = Db.reviews db
        /\ Db.profiles db'
           = Db.profiles db
             ++ [Profile.mk (NEW_id NEW)
                   (match NEW_name NEW with Some n => n | None => "User"%string end)
                   (NEW_email NEW) now]
        /\ List.length
             (List.filter (fun q => String.eqb (Profile.id q) (NEW_id NEW))
                (Db.profiles db')) = 1%nat).
Proof.
  split; [|split].
  - split.
    + intros [db' H]. apply handle_new_user_inv in H as (_ & H1 & H2). auto.
    + intros [H1 H2]. unfold handle_new_user, guard.
      assert (E1 : existsb (fun q => String.eqb (Profile.id q) (NEW_id NEW))
                 (Db.profiles db) = false).
      { apply existsb_false_iff. intros q Hq. apply String.eqb_neq. auto. }
      assert (E2 : existsb (fun q => String.eqb (Profile.email q) (NEW_email NEW))
                 (Db.profiles db) = false).
      { apply existsb_false_iff. intros q Hq. apply String.eqb_neq. auto. }
      rewrite E1, E2. simpl. eauto.
  - unfold handle_new_user, guard. intros Hno.
    destruct (existsb _ _); simpl; [reflexivity|].
    destruct (existsb _ _); simpl; [reflexivity|].
    exfalso. exact (Hno _ eq_refl).
  - intros db' H. apply handle_new_user_inv in H as (-> & H1 & _). simpl.
    split; [reflexivity|]. split; [reflexivity|]. split.
    + destruct (NEW_name NEW); reflexivity.
    + rewrite List.filter_app, List.length_app. simpl. rewrite String.eqb_refl. simpl.
      rewrite filter_none; [reflexivity|].
      intros q Hq. apply String.eqb_neq. auto.
Qed.

(** ** The genre menu *)

Lemma Set_add_all_spec (set values : list string) :
  List.NoDup set ->
  List.NoDup (Set_add_all set values)
  /\ (forall x, In x (Set_add_all set values) <-> In x set \/ In x values).
Proof.
  revert set. induction values as [|v values IH]; intros set Hset; simpl.
  - split; [exact Hset|]. intros x. tauto.
  - destruct (existsb (String.eqb v) set) eqn:Hv.
    + destruct (IH set Hset) as [Hnd Hin]. split; [exact Hnd|].
      intros x. rewrite Hin. apply existsb_exists in Hv as (y & Hy & Heq).
      apply String.eqb_eq in Heq. subst y. split; [tauto|].
      intros [H|[<-|H]]; auto.
    + rewrite existsb_false_iff in Hv.
      assert (Hset' : List.NoDup (set ++ [v])).
      { apply (Permutation_NoDup (Permutation_cons_append _ _)).
        constructor; [|exact Hset]. intros Hin. apply Hv in Hin.
        rewrite String.eqb_refl in Hin. discriminate. }
      destruct (IH _ Hset') as [Hnd Hin]. split; [exact Hnd|].
      intros x. rewrite Hin, in_app_iff. simpl. tauto.
Qed.

Lemma Set_add_all_app (set l1 l2 : list string) :
  Set_add_all set (l1 ++ l2) = Set_add_all (Set_add_all set l1) l2.
Proof.
  revert set. induction l1 as [|v l1 IH]; intros set; simpl; [reflexivity|].
  destruct (existsb (String.eqb v) set); apply IH.
Qed.

(** X8.  The genre menu lists every genre that some book carries, each
    once.  Adding a book with a genre already on the menu leaves the menu as
    it is; adding a book with a new genre puts that genre at its end. *)
Theorem genre_menu_distinct
    (db : Db.t) (uid : option uuid) (new_id : uuid) (now : timestamptz)
    (f : BookForm) (added_by : uuid) :
  List.NoDup (BooksPage.fetchGenres db)
  /\ (forall g, In g (BooksPage.fetchGenres db)
                <-> exists b, In b (Db.books db) /\ Book.genre b = g)
  /\ (forall db', insert_book uid new_id now f added_by db = Ok db' ->
        BooksPage.fetchGenres db'
        = if existsb (String.eqb (f_genre f)) (BooksPage.fetchGenres db)
          then BooksPage.fetchGenres db
          else BooksPage.fetchGenres db ++ [f_genre f]).
Proof.
  unfold BooksPage.fetchGenres, Set_from.
  destruct (Set_add_all_spec [] (List.map Book.genre (Db.books db)) (List.NoDup_nil _))
    as [Hnd Hin].
  split; [exact Hnd|]. split.
  - intros g. rewrite Hin, in_map_iff. split.
    + intros [[]|(b & Hg & Hb)]. eauto.
    + intros (b & Hb & Hg). right. eauto.
  - intros db' H. apply insert_book_inv in H as (-> & _). simpl.
    rewrite map_app, Set_add_all_app. simpl.
    destruct (existsb _ _); reflexivity.
Qed.

(** ** Pages of the listing *)

Lemma chunks_cover {A} (l : list A) (k : nat) :
  concat (List.map (fun i => take 5 (drop (i * 5) l)) (seq 0 k)) = take (k * 5) l.
Proof.
  induction k as [|k IH]; [reflexivity|].
  rewrite seq_S, map_app, concat_app, IH. simpl. rewrite app_nil_r.
  rewrite take_take_drop. f_equal. lia.
Qed.

Lemma totalPages_ceiling (n : Z) :
  0 <= n ->
  0 <= BooksPage.totalPages n
  /\ (BooksPage.totalPages n - 1) * 5 < n <= BooksPage.totalPages n * 5
     \/ n = 0 /\ BooksPage.totalPages n = 0.
Proof.
  intros Hn. unfold BooksPage.totalPages, BooksPage.BOOKS_PER_PAGE.
  pose proof (Z.div_mod (n + 5 - 1) 5 ltac:(lia)) as Hdm.
  pose proof (Z.mod_pos_bound (n + 5 - 1) 5 ltac:(lia)) as Hm.
  destruct (Z.eq_dec n 0) as [->|Hne]; [right; split; reflexivity|].
  left. lia.
Qed.

Lemma fetchBooks_page (db : Db.t) (p : Z) (q g : string) (sortBy : BooksPage.SortBy) :
  fst (BooksPage.fetchBooks db p q g sortBy)
  = take 5 (drop (Z.to_nat ((p - 1) * 5))
              (BooksPage.ordered sortBy (BooksPage.matching q g (Db.books db)))).
Proof. unfold BooksPage.fetchBooks. cbv zeta. cbn [fst]. apply range_page. Qed.

Lemma page_buttons_In (total page : Z) :
  In page (BooksPage.page_buttons total) <-> 1 <= page <= total.
Proof.
  unfold BooksPage.page_buttons. rewrite in_map_iff. split.
  - intros (i & <- & Hi). apply in_seq in Hi. lia.
  - intros Hpg. exists (Z.to_nat (page - 1)). split; [lia|]. apply in_seq. lia.
Qed.

(** A page within [1 .. totalPages] starts at a row that exists. *)
Lemma page_within (n page : Z) :
  0 <= n -> 1 <= page <= BooksPage.totalPages n -> (page - 1) * 5 < n.
Proof.
  intros Hn Hp. destruct (totalPages_ceiling n Hn) as [[H0 H]|[H0 H]]; lia.
Qed.

(** Where no two rows have the same key, the order clause leaves one
    order only. *)
Lemma sorted_unique {A} (R : relation A) (l1 l2 : list A) :
  (forall a b c, R a b -> R b c -> R a c) ->
  (forall a b, In a l1 -> In b l1 -> R a b -> R b a -> a = b) ->
  Permutation l1 l2 -> Sorted R l1 -> Sorted R l2 -> l1 = l2.
Proof.
  intros Htrans Hanti Hperm S1 S2.
  assert (H1 : StronglySorted R l1)
    by (apply Sorted_StronglySorted; [exact Htrans|exact S1]).
  assert (H2 : StronglySorted R l2)
    by (apply Sorted_StronglySorted; [exact Htrans|exact S2]).
  clear S1 S2.
  revert l2 Hperm H2. induction H1 as [|a l1 Hs IH Hall]; intros l2 Hperm H2.
  - apply Permutation_nil in Hperm. now subst.
  - destruct H2 as [|b l2 Hs2 Hall2].
    + apply Permutation_sym, Permutation_nil in Hperm. discriminate.
    + assert (Hab : a = b).
      { assert (Hb : In b (a :: l1))
          by (apply (Permutation_in _ (Permutation_sym Hperm)); now left).
        assert (Ha : In a (b :: l2)) by (apply (Permutation_in _ Hperm); now left).
        destruct Hb as [Hb|Hb]; [exact Hb|].
        destruct Ha as [Ha|Ha]; [now symmetry|].
        rewrite List.Forall_forall in Hall, Hall2.
        apply Hanti; [now left|now right|now apply Hall|now apply Hall2]. }
      subst b. f_equal. apply IH.
      * intros x y Hx Hy. apply Hanti; now right.
      * now apply Permutation_cons_inv in Hperm.
      * exact Hs2.
Qed.

Lemma order_result_unique
    (sortBy : BooksPage.SortBy) (rows out1 out2 : list Book.t) :
  keys_distinct sortBy rows ->
  order_result (sort_order sortBy) rows out1 ->
  order_result (sort_order sortBy) rows out2 ->
  out1 = out2.
Proof.
  intros Hk [Hp1 Hs1] [Hp2 Hs2].
  apply (sorted_unique (sort_order sortBy)).
  - apply sort_order_trans.
  - intros a b Ha Hb. apply Hk; apply (Permutation_in _ (Permutation_sym Hp1));
      assumption.
  - exact (Permutation_trans (Permutation_sym Hp1) Hp2).
  - exact Hs1.
  - exact Hs2.
Qed.

(** With distinct keys every numbered page is answered with its slice of
    the one sorted sequence. *)
Lemma numbered_page
    (db : Db.t) (q g : string) (sortBy : BooksPage.SortBy)
    (reply : BooksPage.Reply) (rows : list Book.t) (page : Z) :
  keys_distinct sortBy (BooksPage.matching q g (Db.books db)) ->
  order_result (sort_order sortBy) (BooksPage.matching q g (Db.books db)) rows ->
  In page (BooksPage.page_buttons
             (BooksPage.totalPages
                (Z.of_nat (List.length (BooksPage.matching q g (Db.books db)))))) ->
  listing_reply db page q g sortBy reply ->
  reply = BooksPage.Data (take 5 (drop (Z.to_nat ((page - 1) * 5)) rows))
            (Z.of_nat (List.length (BooksPage.matching q g (Db.books db)))).
Proof.
  intros Hk Hord Hpage Hreply. apply page_buttons_In in Hpage.
  pose proof (page_within _ page (Nat2Z.is_nonneg _) Hpage) as Hin.
  destruct (listing_reply_within db page q g sortBy reply ltac:(lia) (or_introl Hin)
              Hreply) as (rows' & Hord' & ->).
  now rewrite (order_result_unique sortBy _ rows' rows Hk Hord' Hord).
Qed.

Lemma numbered_pages_cover {A} (rows : list A) :
  concat
    (List.map (fun page => take 5 (drop (Z.to_nat ((page - 1) * 5)) rows))
       (BooksPage.page_buttons (BooksPage.totalPages (Z.of_nat (List.length rows)))))
  = rows.
Proof.
  unfold BooksPage.page_buttons. rewrite map_map.
  rewrite (map_ext _ (fun i => take 5 (drop (i * 5) rows))).
  - rewrite chunks_cover. apply take_ge.
    destruct (totalPages_ceiling (Z.of_nat (List.length rows)) ltac:(lia))
      as [[H0 H]|[H0 H]]; lia.
  - intros i. do 2 f_equal. lia.
Qed.

Lemma serial_keys_distinct :
  keys_distinct BooksPage.oldest (BooksPage.matching "" "" (Db.books serial)).
Proof.
  intros a b Ha Hb Hab Hba.
  change (BooksPage.matching "" "" (Db.books serial))
    with (List.map volume [1; 2; 3; 4; 5; 6; 7; 8; 9; 10; 11; 12]) in Ha, Hb.
  apply in_map_iff in Ha as (x & <- & _). apply in_map_iff in Hb as (y & <- & _).
  simpl in Hab, Hba. unfold created_at_asc in Hab, Hba. simpl in Hab, Hba.
  replace y with x by lia. reflexivity.
Qed.

(** X9.  When no two matching books have the same sort key, the numbered
    page buttons cover the listing exactly: each page, fetched by a request
    of its own, is answered with books and the same count, and read one
    after the other the pages 1 .. totalPages show the matching books in
    the order of the key, every book once. *)
Theorem pages_cover_listing
    (db : Db.t) (q g : string) (sortBy : BooksPage.SortBy)
    (reply : Z -> BooksPage.Reply) (rows : list Book.t) (st : BooksPage.State) :
  let n := Z.of_nat (List.length (BooksPage.matching q g (Db.books db))) in
  keys_distinct sortBy (BooksPage.matching q g (Db.books db)) ->
  order_result (sort_order sortBy) (BooksPage.matching q g (Db.books db)) rows ->
  (forall page, In page (BooksPage.page_buttons (BooksPage.totalPages n)) ->
     listing_reply db page q g sortBy (reply page)) ->
  (forall page, In page (BooksPage.page_buttons (BooksPage.totalPages n)) ->
     exists data, reply page = BooksPage.Data data n /\ data <> [])
  /\ concat
       (List.map
          (fun page =>
             BooksPage.books (BooksPage.fetchBooks_settled (reply page) st))
          (BooksPage.page_buttons (BooksPage.totalPages n)))
     = rows.
Proof.
  intros n Hk Hord Hall.
  assert (Hlen : List.length rows = List.length (BooksPage.matching q g (Db.books db)))
    by exact (order_result_length _ _ _ Hord).
  split.
  - intros page Hpage.
    rewrite (numbered_page db q g sortBy _ rows page Hk Hord Hpage (Hall page Hpage)).
    eexists. split; [reflexivity|].
    apply page_buttons_In in Hpage.
    pose proof (page_within n page (Nat2Z.is_nonneg _) Hpage) as Hin.
    intros He. apply (f_equal (@List.length _)) in He.
    rewrite length_take, length_drop, Hlen in He. cbn [List.length] in He.
    unfold n in Hin. lia.
  - rewrite (map_ext_in _ (fun page => take 5 (drop (Z.to_nat ((page - 1) * 5)) rows))).
    + unfold n. rewrite <- Hlen. apply numbered_pages_cover.
    + intros page Hpage.
      now rewrite (numbered_page db q g sortBy _ rows page Hk Hord Hpage (Hall page Hpage)).
Qed.

Lemma pages_cover_listing_witness :
  concat
    (List.map
       (fun page =>
          BooksPage.books
            (BooksPage.fetchBooks_settled
               (BooksPage.Data
                  (fst (BooksPage.fetchBooks serial page "" "" BooksPage.oldest)) 12)
               BooksPage.initial))
       [1; 2; 3])
  = BooksPage.ordered BooksPage.oldest (Db.books serial).
Proof.
  apply (pages_cover_listing serial "" "" BooksPage.oldest
           (fun page =>
              BooksPage.Data
                (fst (BooksPage.fetchBooks serial page "" "" BooksPage.oldest)) 12)
           (BooksPage.ordered BooksPage.oldest (Db.books serial)) BooksPage.initial).
  - exact serial_keys_distinct.
  - apply (ordered_order_result BooksPage.oldest).
  - intros page Hpage. apply page_buttons_In in Hpage.
    change (BooksPage.totalPages _) with 3 in Hpage.
    apply (fetchBooks_admissible serial page "" "" BooksPage.oldest); [lia|].
    left. change (Z.of_nat _) with 12. lia.
Defined.

(** X10.  For a page [p] within 1 .. totalPages of the matching books every
    reply holds books, min(5, count - 5(p-1)) of them, and the count: the
    request cannot fall beyond the last row.  The previous and next buttons
    and the numbered buttons lead from such a page to such a page only. *)
Theorem pagination_controls_stay_in_range
    (db : Db.t) (q g : string) (sortBy : BooksPage.SortBy) (p : Z)
    (reply : BooksPage.Reply) :
  let n := Z.of_nat (List.length (BooksPage.matching q g (Db.books db))) in
  let total := BooksPage.totalPages n in
  1 <= p <= total ->
  listing_reply db p q g sortBy reply ->
  (exists data,
      reply = BooksPage.Data data n
      /\ Z.of_nat (List.length data) = Z.min 5 (n - 5 * (p - 1))
      /\ data <> [])
  /\ 1 <= BooksPage.previous_page p <= total
  /\ 1 <= BooksPage.next_page total p <= total
  /\ (BooksPage.previous_page p = p <-> p = 1)
  /\ (BooksPage.next_page total p = p <-> p = total)
  /\ (forall page, In page (BooksPage.page_buttons total) <-> 1 <= page <= total).
Proof.
  intros n total Hp Hreply.
  pose proof (page_within n p ltac:(lia) Hp) as Hin.
  split; [|split; [|split; [|split; [|split]]]].
  - destruct (listing_reply_within db p q g sortBy reply ltac:(lia) (or_introl Hin)
                Hreply) as (rows & Hord & ->).
    eexists. split; [reflexivity|].
    assert (Hlen : Z.of_nat (List.length (take 5 (drop (Z.to_nat ((p - 1) * 5)) rows)))
                   = Z.min 5 (n - 5 * (p - 1))).
    { rewrite length_take, length_drop, (order_result_length _ _ _ Hord).
      fold n. lia. }
    split; [exact Hlen|].
    intros He. rewrite He in Hlen. simpl in Hlen. lia.
  - unfold BooksPage.previous_page. lia.
  - unfold BooksPage.next_page. lia.
  - unfold BooksPage.previous_page. lia.
  - unfold BooksPage.next_page. lia.
  - intros page. apply page_buttons_In.
Qed.

Lemma pagination_controls_stay_in_range_witness :
  (exists data,
      BooksPage.Data (fst (BooksPage.fetchBooks serial 3 "" "" BooksPage.newest))
        (snd (BooksPage.fetchBooks serial 3 "" "" BooksPage.newest))
      = BooksPage.Data data 12
      /\ Z.of_nat (List.length data) = Z.min 5 (12 - 5 * (3 - 1))
      /\ data <> [])
  /\ BooksPage.next_page 3 3 = 3.
Proof.
  split; [|reflexivity].
  apply (pagination_controls_stay_in_range serial "" "" BooksPage.newest 3).
  - vm_compute. split; discriminate.
  - apply fetchBooks_admissible; [lia|]. left. vm_compute. reflexivity.
Defined.

(** ** The book page: loading *)

#[local] Instance review_created_at_desc_total : Total review_created_at_desc.
Proof. intros a b. unfold review_created_at_desc. lia. Qed.

Lemma fetchReviews_Permutation (db : Db.t) (st : BookDetailsPage.State) :
  Permutation (BookDetailsPage.reviews (BookDetailsPage.fetchReviews db st))
    (List.filter (fun r => String.eqb (Review.book_id r) (BookDetailsPage.id st))
       (Db.reviews db)).
Proof. apply merge_sort_Permutation. Qed.

Lemma fetchReviews_In (db : Db.t) (st : BookDetailsPage.State) (r : Review.t) :
  In r (BookDetailsPage.reviews (BookDetailsPage.fetchReviews db st))
  <-> In r (Db.reviews db) /\ Review.book_id r = BookDetailsPage.id st.
Proof.
  split.
  - intros H. apply (Permutation_in _ (fetchReviews_Permutation db st)) in H.
    apply filter_In in H as [H Hb]. apply String.eqb_eq in Hb. auto.
  - intros [H Hb].
    apply (Permutation_in _ (Permutation_sym (fetchReviews_Permutation db st))).
    apply filter_In. split; [exact H|]. now apply String.eqb_eq.
Qed.


Lemma find_some_iff {A} (f : A -> bool) (l : list A) :
  List.find f l <> None <-> exists x, In x l /\ f x = true.
Proof.
  split.
  - destruct (List.find f l) as [x|] eqn:H; [|congruence].
    intros _. apply find_some in H. eauto.
  - intros (x & Hx & Hf) Hnone. rewrite find_none_iff in Hnone.
    rewrite (Hnone x Hx) in Hf. discriminate.
Qed.

Lemma find_key {A} (key : A -> string) (l : list A) (B : A) :
  List.NoDup (List.map key l) -> In B l ->
  List.find (fun x => String.eqb (key x) (key B)) l = Some B.
Proof.
  intros Hnd HB.
  destruct (List.find (fun x => String.eqb (key x) (key B)) l) as [x|] eqn:H.
  - apply find_some in H as [Hx Hk]. apply String.eqb_eq in Hk.
    f_equal. exact (key_unique key l x B Hnd Hx HB Hk).
  - exfalso. apply (find_none _ _ H) in HB. rewrite String.eqb_refl in HB. discriminate.
Qed.

Lemma book_page_not_found_aux (db : Db.t) (st : BookDetailsPage.State) :
  (forall b, In b (Db.books db) -> Book.id b <> BookDetailsPage.id st) ->
  BookDetailsPage.render (BookDetailsPage.fetchBookDetails db st)
  = BookDetailsPage.BookNotFound.
Proof.
  intros Hno. unfold BookDetailsPage.render, BookDetailsPage.fetchBookDetails.
  cbn [BookDetailsPage.loading BookDetailsPage.book BookDetailsPage.id].
  destruct (List.find _ (Db.books db)) as [b|] eqn:H; [|reflexivity].
  apply find_some in H as [Hb Hid]. apply String.eqb_eq in Hid.
  exfalso. exact (Hno b Hb Hid).
Qed.


(** ** What the listing shows *)

Lemma in_take_drop {A} (x : A) (n m : nat) (l : list A) :
  In x (take n (drop m l)) -> In x l.
Proof.
  intros H. rewrite <- (firstn_skipn m l). apply in_or_app. right.
  rewrite <- (firstn_skipn n (skipn m l)). apply in_or_app. now left.
Qed.

Lemma matching_In (q g : string) (rows : list Book.t) (b : Book.t) :
  In b (BooksPage.matching q g rows)
  <-> In b rows
      /\ (q = ""%string \/ BooksPage.search_filter q b = true)
      /\ (g = ""%string \/ Book.genre b = g).
Proof.
  unfold BooksPage.matching.
  destruct (String.eqb_spec q "") as [Hq|Hq], (String.eqb_spec g "") as [Hg|Hg];
    rewrite ?filter_In, ?String.eqb_eq; intuition congruence.
Qed.

Lemma evaluated_admissible
    (db : Db.t) (q g : string) (sortBy : BooksPage.SortBy) (page : Z) :
  listing_reply db page q g sortBy (evaluated db q g sortBy page).
Proof.
  unfold evaluated.
  destruct (Z.leb_spec 1 page) as [H1|H1]; cbn [andb];
    [|apply failed_admissible; left; lia].
  destruct (Z.ltb_spec ((page - 1) * 5)
              (Z.of_nat (List.length (BooksPage.matching q g (Db.books db)))))
    as [H2|H2]; cbn [orb].
  - apply fetchBooks_admissible; [exact H1|now left].
  - destruct (Z.eqb_spec page 1) as [H3|H3].
    + apply fetchBooks_admissible; [exact H1|now right].
    + apply failed_admissible. right. lia.
Qed.

(** X13.  With an empty search box, every book a page of the listing
    shows is a book of the store with the selected genre (any genre when
    none is selected), whatever the page and the reply.  When no two of
    these books have the same sort key, each of them is shown on one of the
    numbered pages. *)
Theorem listed_iff_matching
    (db : Db.t) (g : string) (sortBy : BooksPage.SortBy)
    (reply : Z -> BooksPage.Reply) (b : Book.t) :
  let n := Z.of_nat (List.length (BooksPage.matching "" g (Db.books db))) in
  (forall page, listing_reply db page "" g sortBy (reply page)) ->
  ((exists page data count,
       reply page = BooksPage.Data data count /\ In b data) ->
   In b (Db.books db) /\ (g = ""%string \/ Book.genre b = g))
  /\ (keys_distinct sortBy (BooksPage.matching "" g (Db.books db)) ->
      In b (Db.books db) -> g = ""%string \/ Book.genre b = g ->
      exists page data,
        In page (BooksPage.page_buttons (BooksPage.totalPages n))
        /\ reply page = BooksPage.Data data n /\ In b data).
Proof.
  intros n Hall. split.
  - intros (page & data & count & Hr & Hb).
    destruct (Hall page) as (rows & [Hperm _] & H). cbv zeta in H. rewrite Hr in H.
    assert (Hin : In b rows).
    { destruct ((_ =? 0) || _).
      - injection H as -> _. unfold range in Hb. now apply in_take_drop in Hb.
      - destruct H as [H|H]; [|discriminate]. injection H as -> _. destruct Hb. }
    apply (Permutation_in _ (Permutation_sym Hperm)) in Hin.
    apply matching_In in Hin as (Hin & _ & Hg). auto.
  - intros Hk Hb Hg.
    assert (Hm : In b (BooksPage.matching "" g (Db.books db)))
      by (apply matching_In; auto).
    pose proof (ordered_order_result sortBy (BooksPage.matching "" g (Db.books db)))
      as Hord.
    set (rows := BooksPage.ordered sortBy (BooksPage.matching "" g (Db.books db))) in *.
    assert (Hrows : In b rows) by exact (Permutation_in _ (proj1 Hord) Hm).
    assert (Hlen : List.length rows
                   = List.length (BooksPage.matching "" g (Db.books db)))
      by exact (order_result_length _ _ _ Hord).
    rewrite <- (numbered_pages_cover rows), Hlen in Hrows. fold n in Hrows.
    apply in_concat in Hrows as (l & Hl & Hbl).
    apply in_map_iff in Hl as (page & <- & Hpage).
    exists page. eexists. split; [exact Hpage|]. split; [|exact Hbl].
    exact (numbered_page db "" g sortBy _ rows page Hk Hord Hpage (Hall page)).
Qed.

Lemma listed_iff_matching_witness :
  (In hobbit (Db.books shelf)
   /\ ("Fantasy" = ""%string \/ Book.genre hobbit = "Fantasy"%string))
  /\ exists page data,
       In page (BooksPage.page_buttons (BooksPage.totalPages 1))
       /\ evaluated shelf "" "Fantasy" BooksPage.newest page = BooksPage.Data data 1
       /\ In hobbit data.
Proof.
  destruct (listed_iff_matching shelf "Fantasy" BooksPage.newest
              (evaluated shelf "" "Fantasy" BooksPage.newest) hobbit) as [H1 H2].
  - intros page. apply evaluated_admissible.
  - split.
    + apply H1. exists 1, [hobbit], 1. split; [reflexivity|]. now left.
    + apply H2.
      * intros a b [<-|[]] [<-|[]] _ _. reflexivity.
      * now left.
      * now right.
Defined.

(** ** The book page: actions and what is shown next *)

Lemma key_unique_any {A K} (key : A -> K) (l : list A) (a b : A) :
  List.NoDup (List.map key l) -> In a l -> In b l -> key a = key b -> a = b.
Proof.
  induction l as [|x l IH]; simpl; [tauto|].
  intros Hnd Ha Hb Hk. inversion Hnd as [|? ? Hx Hnd']; subst.
  destruct Ha as [Ha|Ha], Hb as [Hb|Hb]; subst; auto.
  - exfalso. apply Hx. rewrite Hk. now apply in_map.
  - exfalso. apply Hx. rewrite <- Hk. now apply in_map.
Qed.

(** X14.  When the owner confirms the delete of a book, the book and its
    reviews leave the store and the page navigates home; from then on the
    book's page shows "Book not found" with no reviews, and no page of the
    listing shows the book, whatever the filters.  A delete that is not
    confirmed changes nothing. *)
Theorem deleted_book_is_gone
    (db : Db.t) (B : Book.t) (st : BookDetailsPage.State) :
  books_pkey db -> In B (Db.books db) ->
  BookDetailsPage.user st = Some (Book.added_by B) ->
  BookDetailsPage.id st = Book.id B ->
  BookDetailsPage.handleDeleteBook true db st
    = (books_after_delete B db, Some "/"%string)
  /\ BookDetailsPage.render
       (BookDetailsPage.fetchBookDetails (books_after_delete B db) st)
     = BookDetailsPage.BookNotFound
  /\ BookDetailsPage.reviews
       (BookDetailsPage.fetchReviews (books_after_delete B db) st) = []
  /\ (forall p q g sortBy,
        ~ In B (fst (BooksPage.fetchBooks (books_after_delete B db) p q g sortBy)))
  /\ BookDetailsPage.handleDeleteBook false db st = (db, None).
Proof.
  intros Hpk HB Hu Hid. split; [|split; [|split; [|split]]].
  - unfold BookDetailsPage.handleDeleteBook. rewrite Hu, Hid.
    rewrite (delete_book_owner _ db B Hpk HB); [reflexivity|].
    simpl. apply String.eqb_refl.
  - apply book_page_not_found_aux. intros b Hb. rewrite Hid.
    unfold books_after_delete in Hb. simpl in Hb. apply filter_In in Hb as [_ Hb].
    apply negb_true_iff in Hb. now apply String.eqb_neq.
  - unfold BookDetailsPage.fetchReviews. cbn [BookDetailsPage.reviews].
    rewrite filter_none; [reflexivity|].
    intros r Hr. unfold books_after_delete in Hr. simpl in Hr.
    apply filter_In in Hr as [_ Hr]. rewrite Hid. now apply negb_true_iff in Hr.
  - intros p q g sortBy Hin. rewrite fetchBooks_page in Hin. apply in_take_drop in Hin.
    apply (Permutation_in _ (ordered_Permutation sortBy _)) in Hin.
    apply matching_In in Hin as [Hin _]. unfold books_after_delete in Hin. simpl in Hin.
    apply filter_In in Hin as [_ Hin]. rewrite String.eqb_refl in Hin. discriminate.
  - reflexivity.
Qed.

Lemma deleted_book_is_gone_witness :
  BookDetailsPage.handleDeleteBook true shelf
    (BookDetailsPage.mkState "b-dune" (Some "u-bob"%string) (Some dune)
       [alice_on_dune] false 5 "" false None None)
  = (Db.mk [alice; bob] [hobbit] [], Some "/"%string).
Proof.
  apply (deleted_book_is_gone shelf dune
           (BookDetailsPage.mkState "b-dune" (Some "u-bob"%string) (Some dune)
              [alice_on_dune] false 5 "" false None None)).
  - exact shelf_books_pkey.
  - simpl. right. left. reflexivity.
  - reflexivity.
  - reflexivity.
Defined.

(** X15.  When a signed-in user submits a new review that passes the
    store's checks, the review is stored with the user as author and the
    page's book as its book, the form is reset (five stars, empty text, no
    error), the review shows up among the page's reviews, and the review
    form is no longer rendered. *)
Theorem submitted_review_replaces_form
    (db : Db.t) (st : BookDetailsPage.State) (u new_id : uuid) (now : timestamptz)
    (b : Book.t) :
  BookDetailsPage.user st = Some u ->
  BookDetailsPage.truthy (BookDetailsPage.editingReview st) = false ->
  BookDetailsPage.loading st = false ->
  BookDetailsPage.book st = Some b ->
  1 <= BookDetailsPage.rating st <= 5 ->
  review_insertable (Some u) new_id
    (mkReviewInsert (BookDetailsPage.id st) u (BookDetailsPage.rating st)
       (BookDetailsPage.reviewText st)) db ->
  let row := Review.mk new_id (BookDetailsPage.id st) u (BookDetailsPage.rating st)
               (BookDetailsPage.reviewText st) now now in
  let db' := Db.mk (Db.profiles db) (Db.books db) (Db.reviews db ++ [row]) in
  exists st' p,
    BookDetailsPage.handleSubmitReview new_id now db st = (db', st', None)
    /\ In row (BookDetailsPage.reviews st')
    /\ BookDetailsPage.rating st' = 5
    /\ BookDetailsPage.reviewText st' = ""%string
    /\ BookDetailsPage.editingReview st' = None
    /\ BookDetailsPage.error st' = None
    /\ BookDetailsPage.submitting st' = false
    /\ BookDetailsPage.render st' = BookDetailsPage.Details p
    /\ BookDetailsPage.review_form p = None.
Proof.
  intros Hu Hed Hl Hb Hr Hins row db'.
  assert (Hok : insert_review (Some u) new_id now
                  (mkReviewInsert (BookDetailsPage.id st) u (BookDetailsPage.rating st)
                     (BookDetailsPage.reviewText st)) db = Ok db').
  { assert (Hex : exists d, insert_review (Some u) new_id now
                      (mkReviewInsert (BookDetailsPage.id st) u
                         (BookDetailsPage.rating st) (BookDetailsPage.reviewText st))
                      db = Ok d).
    { apply insert_review_ok_iff. split; [exact Hr|exact Hins]. }
    destruct Hex as [d Hd]. rewrite Hd. f_equal. now apply insert_review_ok_row in Hd. }
  unfold BookDetailsPage.handleSubmitReview, BookDetailsPage.submit_call.
  rewrite Hu, Hed, Hok.
  set (st' := BookDetailsPage.fetchReviews db' _).
  assert (Hin : In row (BookDetailsPage.reviews st')).
  { apply fetchReviews_In. split; [|reflexivity].
    simpl. apply in_or_app. right. now left. }
  assert (Hur : BookDetailsPage.userReview st' <> None).
  { unfold BookDetailsPage.userReview. apply find_some_iff. exists row.
    split; [exact Hin|]. cbv beta.
    change (BookDetailsPage.user st') with (Some u). apply String.eqb_refl. }
  exists st'. eexists. split; [reflexivity|]. split; [exact Hin|].
  repeat (split; [reflexivity|]).
  unfold BookDetailsPage.render.
  change (BookDetailsPage.loading st') with (BookDetailsPage.loading st).
  change (BookDetailsPage.book st') with (BookDetailsPage.book st).
  change (BookDetailsPage.user st') with (Some u).
  rewrite Hl, Hb. split; [reflexivity|]. cbn [BookDetailsPage.review_form].
  destruct (BookDetailsPage.userReview st'); [reflexivity|contradiction].
Qed.

Lemma submitted_review_replaces_form_witness :
  exists st' p,
    BookDetailsPage.handleSubmitReview "r-2" 160 shelf
      (BookDetailsPage.mkState "b-dune" (Some "u-bob"%string) (Some dune)
         [alice_on_dune] false 4 "Mine." false None None)
    = (Db.mk [alice; bob] [hobbit; dune]
         [alice_on_dune; Review.mk "r-2" "b-dune" "u-bob" 4 "Mine." 160 160],
       st', None)
    /\ BookDetailsPage.render st' = BookDetailsPage.Details p
    /\ BookDetailsPage.review_form p = None.
Proof.
  destruct (submitted_review_replaces_form shelf
              (BookDetailsPage.mkState "b-dune" (Some "u-bob"%string) (Some dune)
                 [alice_on_dune] false 4 "Mine." false None None)
              "u-bob" "r-2" 160 dune)
    as (st' & p & H1 & _ & _ & _ & _ & _ & _ & H2 & H3).
  - reflexivity.
  - reflexivity.
  - reflexivity.
  - reflexivity.
  - simpl. lia.
  - unfold review_insertable. simpl. repeat split.
    + intros r [<-|[]]. discriminate.
    + intros r [<-|[]] [_ H]. discriminate H.
    + exists dune. split; [right; left; reflexivity|reflexivity].
    + exists bob. split; [right; left; reflexivity|reflexivity].
  - exists st', p. auto.
Defined.

Lemma delete_review_by uid db R :
  reviews_pkey db -> In R (Db.reviews db) ->
  delete_review uid (Review.id R) db
  = if auth_uid_eq uid (Review.user_id R)
    then Ok (reviews_after_delete R db, 1%nat) else Ok (db, O).
Proof.
  intros Hpk HR. unfold delete_review.
  pose proof (review_selection uid db R reviews_delete_using (fun _ => eq_refl) Hpk HR)
    as Hsel.
  destruct (auth_uid_eq uid (Review.user_id R)) eqn:Hown.
  - unfold delete_rows, reviews_after_delete. simpl. do 2 f_equal.
    + f_equal. apply filter_ext_in. intros r Hr. rewrite (Hsel r Hr).
      now rewrite andb_true_r.
    + rewrite <- (key_count Review.id (Db.reviews db) R Hpk HR).
      f_equal. apply filter_ext_in. intros r Hr. rewrite (Hsel r Hr).
      now rewrite andb_true_r.
  - rewrite delete_rows_none; [destruct db; reflexivity|].
    intros r Hr. rewrite (Hsel r Hr). apply andb_false_r.
Qed.

Lemma delete_book_by uid db B :
  books_pkey db -> In B (Db.books db) ->
  delete_book uid (Book.id B) db
  = if auth_uid_eq uid (Book.added_by B)
    then Ok (books_after_delete B db, 1%nat) else Ok (db, O).
Proof.
  intros Hpk HB. destruct (auth_uid_eq uid (Book.added_by B)) eqn:Hown.
  - now apply delete_book_owner.
  - now apply delete_book_other.
Qed.

(** X16.  Submitting the edit of a review that the store no longer holds,
    or that belongs to someone else, writes nothing and yet looks like a
    success: no error is shown, and the form is reset to five stars and an
    empty text, so what the user typed is gone. *)
Theorem stale_edit_is_dropped_silently
    (db : Db.t) (st : BookDetailsPage.State) (u rid new_id : uuid)
    (now : timestamptz) :
  BookDetailsPage.user st = Some u ->
  BookDetailsPage.editingReview st = Some rid -> rid <> ""%string ->
  int4 (BookDetailsPage.rating st) = true ->
  (forall r, In r (Db.reviews db) -> ~ (Review.id r = rid /\ Review.user_id r = u)) ->
  exists st',
    BookDetailsPage.handleSubmitReview new_id now db st = (db, st', None)
    /\ BookDetailsPage.error st' = None
    /\ BookDetailsPage.rating st' = 5
    /\ BookDetailsPage.reviewText st' = ""%string
    /\ BookDetailsPage.editingReview st' = None
    /\ (forall r, In r (BookDetailsPage.reviews st') -> In r (Db.reviews db)).
Proof.
  intros Hu He Hrid Hi Hnone.
  unfold BookDetailsPage.handleSubmitReview, BookDetailsPage.submit_call.
  rewrite Hu, He. cbn [BookDetailsPage.truthy default].
  rewrite (proj2 (String.eqb_neq rid "") Hrid). cbn [negb].
  unfold update_review, guard. rewrite Hi. cbn [bind].
  rewrite update_rows_none.
  - cbn [bind fst snd]. replace (Db.mk (Db.profiles db) (Db.books db) (Db.reviews db))
      with db by (destruct db; reflexivity).
    eexists. split; [reflexivity|]. repeat (split; [reflexivity|]).
    intros r Hr. now apply fetchReviews_In in Hr as [Hr _].
  - intros r Hr. unfold reviews_update_using. rewrite policy_authenticated. simpl.
    destruct (String.eqb_spec (Review.id r) rid) as [Hid|]; [|reflexivity].
    destruct (String.eqb_spec u (Review.user_id r)) as [Hur|]; [|reflexivity].
    exfalso. apply (Hnone r Hr). auto.
Qed.

Lemma stale_edit_is_dropped_silently_witness :
  exists st',
    BookDetailsPage.handleSubmitReview "r-9" 300 shelf
      (BookDetailsPage.mkState "b-dune" (Some "u-alice"%string) (Some dune)
         [] false 2 "On second thought..." false (Some "r-gone"%string) None)
    = (shelf, st', None)
    /\ BookDetailsPage.error st' = None
    /\ BookDetailsPage.reviewText st' = ""%string.
Proof.
  destruct (stale_edit_is_dropped_silently shelf
              (BookDetailsPage.mkState "b-dune" (Some "u-alice"%string) (Some dune)
                 [] false 2 "On second thought..." false (Some "r-gone"%string) None)
              "u-alice" "r-gone" "r-9" 300)
    as (st' & H1 & H2 & _ & H3 & _).
  - reflexivity.
  - reflexivity.
  - discriminate.
  - reflexivity.
  - intros r [<-|[]] [H _]. discriminate H.
  - exists st'. auto.
Defined.

(** X17.  When the author confirms the delete of the review they wrote for
    the page's book, the review leaves the store and the list, and the
    review form is rendered again; its heading still says "Edit Your Review"
    if the edit action had been used before.  A delete that is not confirmed
    changes nothing. *)
Theorem deleted_review_brings_back_form
    (db : Db.t) (st : BookDetailsPage.State) (R : Review.t) (b : Book.t) :
  reviews_pkey db -> reviews_pairs_unique db -> In R (Db.reviews db) ->
  BookDetailsPage.user st = Some (Review.user_id R) ->
  BookDetailsPage.id st = Review.book_id R ->
  BookDetailsPage.loading st = false ->
  BookDetailsPage.book st = Some b ->
  exists st' p,
    BookDetailsPage.handleDeleteReview true (Review.id R) db st
      = (reviews_after_delete R db, st')
    /\ ~ In R (BookDetailsPage.reviews st')
    /\ BookDetailsPage.render st' = BookDetailsPage.Details p
    /\ BookDetailsPage.review_form p
       = Some (if BookDetailsPage.truthy (BookDetailsPage.editingReview st)
               then "Edit Your Review" else "Write a Review")%string
    /\ BookDetailsPage.handleDeleteReview false (Review.id R) db st = (db, st).
Proof.
  intros Hpk Hun HR Hu Hid Hl Hb.
  unfold BookDetailsPage.handleDeleteReview at 1.
  rewrite Hu, (delete_review_by _ db R Hpk HR). simpl auth_uid_eq.
  rewrite String.eqb_refl.
  set (st' := BookDetailsPage.fetchReviews (reviews_after_delete R db) st).
  assert (Hgone : forall r, In r (BookDetailsPage.reviews st') ->
            In r (Db.reviews db) /\ Review.id r <> Review.id R
            /\ Review.book_id r = Review.book_id R).
  { intros r Hr. apply fetchReviews_In in Hr as [Hr Hbk].
    unfold reviews_after_delete in Hr. simpl in Hr. apply filter_In in Hr as [Hr Hne].
    apply negb_true_iff, String.eqb_neq in Hne. rewrite Hid in Hbk. auto. }
  assert (Hur : BookDetailsPage.userReview st' = None).
  { unfold BookDetailsPage.userReview. apply find_none_iff. intros r Hr.
    change (BookDetailsPage.user st') with (BookDetailsPage.user st). rewrite Hu.
    apply String.eqb_neq. intros Hru.
    destruct (Hgone r Hr) as (Hin & Hne & Hbk). apply Hne. f_equal.
    apply (key_unique_any (fun r => (Review.book_id r, Review.user_id r))
             (Db.reviews db) r R Hun Hin HR). congruence. }
  exists st'. eexists. split; [reflexivity|]. split; [|split; [|split]].
  - intros Hin. destruct (Hgone R Hin) as (_ & Hne & _). congruence.
  - unfold BookDetailsPage.render.
    change (BookDetailsPage.loading st') with (BookDetailsPage.loading st).
    change (BookDetailsPage.book st') with (BookDetailsPage.book st).
    rewrite Hl, Hb. reflexivity.
  - cbn [BookDetailsPage.review_form]. rewrite Hur.
    change (BookDetailsPage.user st') with (BookDetailsPage.user st). rewrite Hu.
    reflexivity.
  - reflexivity.
Qed.

Lemma shelf_reviews_pairs_unique : reviews_pairs_unique shelf.
Proof. apply shelf_consistent. Qed.

Lemma deleted_review_brings_back_form_witness :
  exists st' p,
    BookDetailsPage.handleDeleteReview true "r-1" shelf alice_view
      = (Db.mk [alice; bob] [hobbit; dune] [], st')
    /\ BookDetailsPage.render st' = BookDetailsPage.Details p
    /\ BookDetailsPage.review_form p = Some "Write a Review"%string.
Proof.
  destruct (deleted_review_brings_back_form shelf alice_view alice_on_dune dune)
    as (st' & p & H1 & _ & H2 & H3 & _).
  - exact shelf_reviews_pkey.
  - exact shelf_reviews_pairs_unique.
  - simpl. left. reflexivity.
  - reflexivity.
  - reflexivity.
  - reflexivity.
  - reflexivity.
  - exists st', p. auto.
Defined.

(** ** Controls and rights *)

(** X18.  The pages offer a control exactly where the store would honour
    it.  The edit and delete controls of a book are rendered if and only if
    a delete by the signed-in user would remove the book, and the edit form
    opens for that user if and only if they are rendered; a review's
    controls are rendered if and only if a delete of that review by the
    signed-in user would remove it. *)
Theorem controls_match_store_rights
    (db : Db.t) (st : BookDetailsPage.State) (b : Book.t) (formData : BookForm) :
  books_pkey db -> reviews_pkey db -> In b (Db.books db) ->
  BookDetailsPage.loading st = false -> BookDetailsPage.book st = Some b ->
  exists p,
    BookDetailsPage.render st = BookDetailsPage.Details p
    /\ (BookDetailsPage.owner_controls p = true
        <-> delete_book (BookDetailsPage.user st) (Book.id b) db
            = Ok (books_after_delete b db, 1%nat))
    /\ (BookDetailsPage.owner_controls p = false
        <-> delete_book (BookDetailsPage.user st) (Book.id b) db = Ok (db, O))
    /\ (BookDetailsPage.owner_controls p = true
        <-> BookFormPage.fetchBook (Book.id b) (BookDetailsPage.user st) formData db
            = (mkBookForm (Book.title b) (Book.author b) (Book.description b)
                 (Book.genre b) (Book.published_year b), None))
    /\ (BookDetailsPage.owner_controls p = false
        <-> BookFormPage.fetchBook (Book.id b) (BookDetailsPage.user st) formData db
            = (formData, Some "/"%string))
    /\ List.length (BookDetailsPage.review_controls p)
       = List.length (BookDetailsPage.reviews st)
    /\ (forall i r, nth_error (BookDetailsPage.reviews st) i = Some r ->
          In r (Db.reviews db) ->
          (nth_error (BookDetailsPage.review_controls p) i = Some true
           <-> delete_review (BookDetailsPage.user st) (Review.id r) db
               = Ok (reviews_after_delete r db, 1%nat))
          /\ (nth_error (BookDetailsPage.review_controls p) i = Some false
              <-> delete_review (BookDetailsPage.user st) (Review.id r) db
                  = Ok (db, O))).
Proof.
  intros Hbp Hrp Hb Hl Hbk. unfold BookDetailsPage.render. rewrite Hl, Hbk.
  eexists. split; [reflexivity|].
  cbn [BookDetailsPage.owner_controls BookDetailsPage.review_controls].
  assert (Hflag : forall x : uuid,
            match BookDetailsPage.user st with
            | Some u => String.eqb x u
            | None => false
            end = auth_uid_eq (BookDetailsPage.user st) x).
  { intros x. destruct (BookDetailsPage.user st); simpl; [apply String.eqb_sym|reflexivity]. }
  rewrite Hflag.
  unfold BookFormPage.fetchBook. rewrite (find_key Book.id _ b Hbp Hb), Hflag.
  rewrite (delete_book_by _ db b Hbp Hb).
  split; [|split; [|split; [|split; [|split]]]].
  - destruct (auth_uid_eq _ _); split; congruence.
  - destruct (auth_uid_eq _ _); split; congruence.
  - destruct (auth_uid_eq _ _); simpl; split; congruence.
  - destruct (auth_uid_eq _ _); simpl; split; congruence.
  - apply length_map.
  - intros i r Hi Hr. rewrite nth_error_map, Hi. simpl. rewrite Hflag.
    rewrite (delete_review_by _ db r Hrp Hr).
    destruct (auth_uid_eq _ _); split; split; congruence.
Qed.

Lemma controls_match_store_rights_witness :
  exists p,
    BookDetailsPage.render alice_view = BookDetailsPage.Details p
    /\ BookDetailsPage.owner_controls p = false
    /\ BookDetailsPage.review_controls p = [true].
Proof.
  destruct (controls_match_store_rights shelf alice_view dune
              (BookFormPage.initial_formData 2025))
    as (p & H1 & _ & H2 & _).
  - exact shelf_books_pkey.
  - exact shelf_reviews_pkey.
  - simpl. right. left. reflexivity.
  - reflexivity.
  - reflexivity.
  - exists p. split; [exact H1|]. split.
    + apply H2. reflexivity.
    + injection H1 as <-. reflexivity.
Defined.

(** ** The book form: load, save, view *)

Lemma update_book_by uid now f db B :
  books_pkey db -> In B (Db.books db) -> int4 (f_published_year f) = true ->
  update_book uid now (Book.id B) f db
  = if auth_uid_eq uid (Book.added_by B)
    then Ok (books_after_update now f B db, 1%nat) else Ok (db, O).
Proof.
  intros Hpk HB Hy. destruct (auth_uid_eq uid (Book.added_by B)) eqn:Hown.
  - now apply update_book_owner.
  - now apply update_book_other.
Qed.

(** X19.  On the edit route the owner's form is filled with the book's
    five editable columns.  Saving it unchanged writes the book back with
    every column as it was except [updated_at], which becomes the time of
    the save; the books of the store are then this row and the other books
    as they were, under the same ids, and the page navigates to the book.
    For anyone else the form is not filled and the visitor is sent home; a
    save forced all the same changes nothing in the store. *)
Theorem edit_form_round_trip
    (db : Db.t) (B : Book.t) (user : option uuid) (new_id : uuid)
    (now : timestamptz) (formData : BookForm) :
  books_pkey db -> In B (Db.books db) -> Book.id B <> ""%string ->
  int4 (Book.published_year B) = true -> int4 (f_published_year formData) = true ->
  (user = Some (Book.added_by B) ->
     exists loaded db',
       BookFormPage.fetchBook (Book.id B) user formData db = (loaded, None)
       /\ BookFormPage.handleSubmit (Some (Book.id B)) user new_id now loaded db
          = (db', inl ("/books/" ++ Book.id B)%string)
       /\ In (Book.mk (Book.id B) (Book.title B) (Book.author B) (Book.description B)
                (Book.genre B) (Book.published_year B) (Book.added_by B)
                (Book.created_at B) now)
             (Db.books db')
       /\ (forall b, In b (Db.books db) -> Book.id b <> Book.id B -> In b (Db.books db'))
       /\ (forall b, In b (Db.books db') ->
             b = Book.mk (Book.id B) (Book.title B) (Book.author B)
                   (Book.description B) (Book.genre B) (Book.published_year B)
                   (Book.added_by B) (Book.created_at B) now
             \/ (In b (Db.books db) /\ Book.id b <> Book.id B))
       /\ Permutation (List.map Book.id (Db.books db'))
            (List.map Book.id (Db.books db))
       /\ Db.reviews db' = Db.reviews db
       /\ Db.profiles db' = Db.profiles db)
  /\ (user <> Some (Book.added_by B) ->
      BookFormPage.fetchBook (Book.id B) user formData db = (formData, Some "/"%string)
      /\ BookFormPage.handleSubmit (Some (Book.id B)) user new_id now formData db
         = (db, inl ("/books/" ++ Book.id B)%string)).
Proof.
  intros Hpk HB Hid Hy Hyf.
  assert (Hflag : match user with
                  | Some u => String.eqb (Book.added_by B) u
                  | None => false
                  end = auth_uid_eq user (Book.added_by B)).
  { destruct user; simpl; [apply String.eqb_sym|reflexivity]. }
  assert (Htruthy : BookDetailsPage.truthy (Some (Book.id B)) = true).
  { simpl. now rewrite (proj2 (String.eqb_neq _ _) Hid). }
  split.
  - intros Hu. apply auth_uid_eq_true in Hu.
    unfold BookFormPage.fetchBook. rewrite (find_key Book.id _ B Hpk HB), Hflag, Hu.
    cbn [negb].
    set (loaded := mkBookForm (Book.title B) (Book.author B) (Book.description B)
                     (Book.genre B) (Book.published_year B)).
    exists loaded. eexists. split; [reflexivity|].
    unfold BookFormPage.handleSubmit. rewrite Htruthy. cbv zeta. cbn [from_option].
    change (id (Book.id B)) with (Book.id B).
    rewrite (update_book_by user now loaded db B Hpk HB Hy), Hu.
    split; [reflexivity|]. unfold books_after_update. cbn [Db.books Db.reviews Db.profiles].
    split; [|split; [|split; [|split; [|split; reflexivity]]]].
    + apply in_map_iff. exists B. rewrite String.eqb_refl. split; [reflexivity|exact HB].
    + intros b Hb Hne. apply in_map_iff. exists b.
      rewrite (proj2 (String.eqb_neq _ _) Hne). auto.
    + intros b Hb. apply in_map_iff in Hb as (x & <- & Hx).
      destruct (String.eqb_spec (Book.id x) (Book.id B)) as [Heq|Hne].
      * left. rewrite (key_unique_any Book.id _ x B Hpk Hx HB Heq). reflexivity.
      * right. auto.
    + rewrite map_map.
      rewrite (map_ext (fun b => Book.id (if String.eqb (Book.id b) (Book.id B)
                                          then book_set now loaded b else b))
                 Book.id); [reflexivity|].
      intros b. destruct (String.eqb (Book.id b) (Book.id B)); reflexivity.
  - intros Hu.
    assert (Hown : auth_uid_eq user (Book.added_by B) = false).
    { destruct (auth_uid_eq user (Book.added_by B)) eqn:E; [|reflexivity].
      apply auth_uid_eq_true in E. contradiction. }
    unfold BookFormPage.fetchBook. rewrite (find_key Book.id _ B Hpk HB), Hflag, Hown.
    split; [reflexivity|].
    unfold BookFormPage.handleSubmit. rewrite Htruthy. cbv zeta. cbn [from_option].
    change (id (Book.id B)) with (Book.id B).
    rewrite (update_book_by user now _ db B Hpk HB Hyf), Hown. reflexivity.
Qed.

Lemma edit_form_round_trip_witness :
  exists loaded db',
    BookFormPage.fetchBook (Book.id hobbit) (Some "u-alice"%string)
      (BookFormPage.initial_formData 2025) shelf = (loaded, None)
    /\ BookFormPage.handleSubmit (Some (Book.id hobbit)) (Some "u-alice"%string)
         "b-new" 200 loaded shelf
       = (db', inl "/books/b-hobbit"%string)
    /\ In (Book.mk "b-hobbit" "The Hobbit" "J.R.R. Tolkien" "There and back again."
             "Fantasy" 1937 "u-alice" 100 200) (Db.books db')
    /\ Permutation (List.map Book.id (Db.books db')) ["b-hobbit"; "b-dune"]%string.
Proof.
  destruct (edit_form_round_trip shelf hobbit (Some "u-alice"%string) "b-new" 200
              (BookFormPage.initial_formData 2025)) as [H _].
  - exact shelf_books_pkey.
  - simpl. left. reflexivity.
  - discriminate.
  - reflexivity.
  - reflexivity.
  - destruct (H eq_refl) as (loaded & db' & H1 & H2 & H3 & _ & _ & H4 & _).
    exists loaded, db'. auto.
Defined.

(** X20.  A book saved from the empty form can be viewed and edited right
    away: the page navigates to the new book, whose page finds it, with the
    entered columns and the signed-in user as owner, and whose edit form
    loads exactly what was entered. *)
Theorem created_book_round_trip
    (db : Db.t) (u new_id : uuid) (now : timestamptz) (f formData : BookForm)
    (st : BookDetailsPage.State) :
  books_pkey db ->
  (forall b, In b (Db.books db) -> Book.id b <> new_id) ->
  (exists q, In q (Db.profiles db) /\ Profile.id q = u) ->
  int4 (f_published_year f) = true ->
  BookDetailsPage.id st = new_id ->
  exists db',
    BookFormPage.handleSubmit None (Some u) new_id now f db
      = (db', inl ("/books/" ++ new_id)%string)
    /\ BookDetailsPage.book (BookDetailsPage.fetchBookDetails db' st)
       = Some (Book.mk new_id (f_title f) (f_author f) (f_description f) (f_genre f)
                 (f_published_year f) u now now)
    /\ BookFormPage.fetchBook new_id (Some u) formData db' = (f, None)
    /\ books_pkey db'
    /\ (forall b, In b (Db.books db) -> In b (Db.books db')).
Proof.
  intros Hpk Hfresh Hq Hy Hid.
  pose proof (insert_book_ok u new_id now f db Hy Hfresh Hq) as Hins.
  unfold BookFormPage.handleSubmit. cbn [BookDetailsPage.truthy].
  rewrite Hins. eexists. split; [reflexivity|].
  set (row := book_row new_id now f u).
  set (db' := Db.mk (Db.profiles db) (Db.books db ++ [row]) (Db.reviews db)).
  assert (Hpk' : books_pkey db').
  { unfold books_pkey, db'. simpl. now apply NoDup_map_snoc. }
  assert (Hrow : In row (Db.books db')).
  { simpl. apply in_or_app. right. now left. }
  pose proof (find_key Book.id _ row Hpk' Hrow) as Hfind.
  split; [|split; [|split]].
  - unfold BookDetailsPage.fetchBookDetails. cbn [BookDetailsPage.book].
    rewrite Hid. exact Hfind.
  - unfold BookFormPage.fetchBook.
    change new_id with (Book.id row) at 1. rewrite Hfind. simpl.
    rewrite String.eqb_refl. simpl. destruct f; reflexivity.
  - exact Hpk'.
  - intros b Hb. simpl. apply in_or_app. now left.
Qed.

Lemma created_book_round_trip_witness :
  exists db',
    BookFormPage.handleSubmit None (Some "u-bob"%string) "b-iliad" 300 iliad shelf
      = (db', inl "/books/b-iliad"%string)
    /\ BookFormPage.fetchBook "b-iliad" (Some "u-bob"%string)
         (BookFormPage.initial_formData 2025) db' = (iliad, None).
Proof.
  destruct (created_book_round_trip shelf "u-bob" "b-iliad" 300 iliad
              (BookFormPage.initial_formData 2025)
              (BookDetailsPage.mkState "b-iliad" (Some "u-bob"%string) None [] true 5 ""
                 false None None))
    as (db' & H1 & _ & H2 & _).
  - exact shelf_books_pkey.
  - intros b [<-|[<-|[]]]; discriminate.
  - exists bob. split; [right; left; reflexivity|reflexivity].
  - reflexivity.
  - reflexivity.
  - exists db'. auto.
Defined.

(** X21.  On the edit route of a uuid that names no book the form keeps
    its initial values and nobody is sent away; saving it writes nothing,
    raises nothing, and navigates to the book's page, which shows "Book not
    found". *)
Theorem editing_a_missing_book
    (db : Db.t) (missing : uuid) (user : option uuid) (new_id : uuid)
    (now : timestamptz) (f formData : BookForm) (st : BookDetailsPage.State) :
  canonical_uuid missing = true -> int4 (f_published_year f) = true ->
  (forall b, In b (Db.books db) -> Book.id b <> missing) ->
  BookDetailsPage.id st = missing ->
  BookFormPage.fetchBook missing user formData db = (formData, None)
  /\ BookFormPage.handleSubmit (Some missing) user new_id now f db
     = (db, inl ("/books/" ++ missing)%string)
  /\ BookDetailsPage.render (BookDetailsPage.fetchBookDetails db st)
     = BookDetailsPage.BookNotFound.
Proof.
  intros Huuid Hy Hno Hst.
  assert (Hid : missing <> ""%string) by (intros ->; discriminate Huuid).
  split; [|split].
  - unfold BookFormPage.fetchBook.
    rewrite (proj2 (find_none_iff _ _)); [reflexivity|].
    intros b Hb. apply String.eqb_neq. now apply Hno.
  - unfold BookFormPage.handleSubmit. simpl BookDetailsPage.truthy.
    rewrite (proj2 (String.eqb_neq _ _) Hid). cbv zeta. cbn [negb from_option].
    change (id missing) with missing.
    unfold update_book, guard. rewrite Hy. cbn [bind].
    rewrite update_rows_none.
    + cbn [bind fst snd]. destruct db; reflexivity.
    + intros b Hb. rewrite (proj2 (String.eqb_neq _ _) (Hno b Hb)). reflexivity.
  - apply book_page_not_found_aux. rewrite Hst. exact Hno.
Qed.

Lemma editing_a_missing_book_witness :
  BookFormPage.handleSubmit (Some "6f1c2a3e-0b7d-4c55-9e21-3a4b5c6d7e8f"%string)
    (Some "u-bob"%string) "b-new" 300 iliad shelf
  = (shelf, inl "/books/6f1c2a3e-0b7d-4c55-9e21-3a4b5c6d7e8f"%string).
Proof.
  apply (editing_a_missing_book shelf "6f1c2a3e-0b7d-4c55-9e21-3a4b5c6d7e8f"
           (Some "u-bob"%string) "b-new" 300 iliad
           (BookFormPage.initial_formData 2025)
           (BookDetailsPage.mkState "6f1c2a3e-0b7d-4c55-9e21-3a4b5c6d7e8f" None None
              [] true 5 "" false None None)).
  - reflexivity.
  - reflexivity.
  - intros b [<-|[<-|[]]]; discriminate.
  - reflexivity.
Defined.

(** ** The profile page *)

Lemma NoDup_map_fst_of_pairs {A K1 K2} (f : A -> K1) (g : A -> K2) (c : K2) (l : list A) :
  List.NoDup (List.map (fun x => (f x, g x)) l) ->
  (forall x, In x l -> g x = c) ->
  List.NoDup (List.map f l).
Proof.
  induction l as [|x l IH]; simpl; intros Hnd Hc; [constructor|].
  inversion Hnd as [|? ? Hx Hl]; subst. constructor; [|apply IH; auto].
  intros Hin. apply Hx. apply in_map_iff in Hin as (y & Hy & Hin).
  apply in_map_iff. exists y. split; [|exact Hin].
  rewrite Hy, (Hc y), (Hc x); auto.
Qed.

(** X22.  On a consistent store the profile page lists under "My Books"
    exactly the books the user added, the newest first, and under "My
    Reviews" exactly the reviews the user wrote, each together with the book
    it is about (the book is always there), and never two reviews of the
    same book. *)
Theorem profile_page_lists_own_content (db : Db.t) (user : uuid) :
  consistent db ->
  (forall b, In b (fst (ProfilePage.fetchUserData user db))
             <-> In b (Db.books db) /\ Book.added_by b = user)
  /\ StronglySorted (fun a b => Book.created_at a >= Book.created_at b)
       (fst (ProfilePage.fetchUserData user db))
  /\ (forall r, In r (List.map fst (snd (ProfilePage.fetchUserData user db)))
                <-> In r (Db.reviews db) /\ Review.user_id r = user)
  /\ (forall r o, In (r, o) (snd (ProfilePage.fetchUserData user db)) ->
        exists b, o = Some b /\ In b (Db.books db) /\ Book.id b = Review.book_id r)
  /\ List.NoDup
       (List.map (fun x => Review.book_id (fst x))
          (snd (ProfilePage.fetchUserData user db))).
Proof.
  intros Hc. unfold ProfilePage.fetchUserData. cbn [fst snd].
  set (mine := List.filter (fun b => String.eqb (Book.added_by b) user) (Db.books db)).
  set (written := List.filter (fun r => String.eqb (Review.user_id r) user)
                    (Db.reviews db)).
  assert (Hpb : Permutation (order_by created_at_desc mine) mine)
    by apply merge_sort_Permutation.
  assert (Hpr : Permutation (order_by review_created_at_desc written) written)
    by apply merge_sort_Permutation.
  split; [|split; [|split; [|split]]].
  - intros b. unfold mine. rewrite <- String.eqb_eq.
    rewrite <- (filter_In (fun b => String.eqb (Book.added_by b) user)).
    split; apply Permutation_in; [exact Hpb|now symmetry].
  - assert (Hs : StronglySorted created_at_desc (order_by created_at_desc mine)).
    { unfold order_by. apply Sorted_StronglySorted.
      - intros a b c. unfold created_at_desc. lia.
      - apply Sorted_merge_sort. apply _. }
    revert Hs. generalize (order_by created_at_desc mine).
    induction 1 as [|a l Hl IH Ha]; constructor; auto.
    rewrite List.Forall_forall in *. intros b Hb. specialize (Ha b Hb).
    unfold created_at_desc in Ha. lia.
  - intros r. rewrite map_map. cbn [fst]. rewrite map_id.
    unfold written. rewrite <- String.eqb_eq.
    rewrite <- (filter_In (fun r => String.eqb (Review.user_id r) user)).
    split; apply Permutation_in; [exact Hpr|now symmetry].
  - intros r o Hin. apply in_map_iff in Hin as (r' & Heq & Hin).
    injection Heq as -> <-.
    apply (Permutation_in _ Hpr) in Hin. apply filter_In in Hin as [Hin _].
    destruct (c_reviews_book_id_fkey _ Hc r Hin) as (b & Hb & Hid).
    rewrite <- Hid. rewrite (find_key Book.id _ b (c_books_pkey _ Hc) Hb).
    eauto.
  - rewrite map_map. cbn [fst].
    apply (Permutation_NoDup (Permutation_map Review.book_id (Permutation_sym Hpr))).
    apply (NoDup_map_fst_of_pairs Review.book_id Review.user_id user).
    + apply NoDup_map_filter. apply (c_reviews_pairs_unique _ Hc).
    + intros r Hr. apply filter_In in Hr as [_ Hr]. now apply String.eqb_eq.
Qed.

Lemma profile_page_lists_own_content_witness :
  fst (ProfilePage.fetchUserData "u-alice" shelf) = [hobbit]
  /\ snd (ProfilePage.fetchUserData "u-alice" shelf) = [(alice_on_dune, Some dune)]
  /\ List.NoDup
       (List.map (fun x => Review.book_id (fst x))
          (snd (ProfilePage.fetchUserData "u-alice" shelf))).
Proof.
  split; [reflexivity|]. split; [reflexivity|].
  apply (profile_page_lists_own_content shelf "u-alice"). exact shelf_consistent.
Defined.

(** ** Stars *)



(** ** What a write can and cannot change *)

(** X24.  An update neither adds nor removes a row nor changes whose it
    is: whoever sends it and whatever it carries, after a successful update
    of a book the books carry the same ids, owners and creation times as
    before, each as often, and no other table is touched; a row it did
    rewrite belongs to the caller, has the requested id and is stamped with
    the time of the update.  The same holds for an update of a review and
    its id, book, author and creation time. *)
Theorem updates_keep_identity
    (uid : option uuid) (now : timestamptz) (id : uuid) (f : BookForm)
    (rating : Z) (text : string) (db : Db.t) :
  (forall db' n, update_book uid now id f db = Ok (db', n) ->
     Permutation
       (List.map (fun b => (Book.id b, Book.added_by b, Book.created_at b)) (Db.books db'))
       (List.map (fun b => (Book.id b, Book.added_by b, Book.created_at b)) (Db.books db))
     /\ Db.profiles db' = Db.profiles db /\ Db.reviews db' = Db.reviews db
     /\ (forall b, In b (Db.books db') ->
           In b (Db.books db)
           \/ (Book.id b = id /\ uid = Some (Book.added_by b)
               /\ Book.updated_at b = now
               /\ mkBookForm (Book.title b) (Book.author b) (Book.description b)
                    (Book.genre b) (Book.published_year b) = f)))
  /\ (forall db' n, update_review uid now id rating text db = Ok (db', n) ->
        Permutation
          (List.map (fun r => (Review.id r, Review.book_id r, Review.user_id r,
                               Review.created_at r)) (Db.reviews db'))
          (List.map (fun r => (Review.id r, Review.book_id r, Review.user_id r,
                               Review.created_at r)) (Db.reviews db))
        /\ Db.profiles db' = Db.profiles db /\ Db.books db' = Db.books db
        /\ (forall r, In r (Db.reviews db') ->
              In r (Db.reviews db)
              \/ (Review.id r = id /\ uid = Some (Review.user_id r)
                  /\ Review.updated_at r = now
                  /\ Review.rating r = rating /\ Review.review_text r = text
                  /\ 1 <= rating <= 5))).
Proof.
  split.
  - intros db' n H. unfold update_book, guard in H.
    destruct (int4 (f_published_year f)); simpl in H; [|discriminate].
    destruct (update_rows _ _ (Db.books db)) as [[l' n']|] eqn:Hu; simpl in H;
      [|discriminate].
    injection H as <- <-.
    assert (Hupd : forall x y : Book.t,
              (let new := book_set now f x in
               let* _ := guard (books_update_check uid new) insufficient_privilege in
               Ok new) = Ok y -> y = book_set now f x).
    { intros x y. simpl. unfold guard.
      destruct (books_update_check uid (book_set now f x)); simpl; congruence. }
    cbn [Db.books Db.profiles Db.reviews].
    split; [|split; [reflexivity|split; [reflexivity|]]].
    + rewrite (update_rows_keys _ _ _ _ _ _
                 (fun x y _ Hxy =>
                    f_equal (fun b => (Book.id b, Book.added_by b, Book.created_at b))
                      (Hupd x y Hxy)) Hu).
      reflexivity.
    + intros b Hb.
      destruct (update_rows_in _ _ _ _ _ b Hu Hb) as (x & Hx & [->|[Hs Hy]]);
        [now left|right].
      rewrite (Hupd x b Hy). apply andb_prop in Hs as [Hid Hown].
      apply String.eqb_eq in Hid. unfold books_update_using in Hown.
      rewrite policy_authenticated in Hown. apply auth_uid_eq_true in Hown.
      simpl. destruct f. auto.
  - intros db' n H. unfold update_review, guard in H.
    destruct (int4 rating); simpl in H; [|discriminate].
    destruct (update_rows _ _ (Db.reviews db)) as [[l' n']|] eqn:Hu; simpl in H;
      [|discriminate].
    injection H as <- <-.
    cbn [Db.books Db.profiles Db.reviews].
    split; [|split; [reflexivity|split; [reflexivity|]]].
    + rewrite (update_rows_keys _ _ _ _ _ _
                 (fun x y _ Hxy =>
                    f_equal (fun r => (Review.id r, Review.book_id r, Review.user_id r,
                                       Review.created_at r))
                      (proj1 (review_update_row_ok _ _ _ _ x y Hxy))) Hu).
      reflexivity.
    + intros r Hr.
      destruct (update_rows_in _ _ _ _ _ r Hu Hr) as (x & Hx & [->|[Hs Hy]]);
        [now left|right].
      apply review_update_row_ok in Hy as [-> Hrange].
      apply andb_prop in Hs as [Hid Hown].
      apply String.eqb_eq in Hid. unfold reviews_update_using in Hown.
      rewrite policy_authenticated in Hown. apply auth_uid_eq_true in Hown.
      simpl. auto 10.
Qed.

Lemma updates_keep_identity_witness :
  Permutation
    (List.map (fun b => (Book.id b, Book.added_by b, Book.created_at b))
       (Db.books (books_after_update 200 second_edition hobbit shelf)))
    (List.map (fun b => (Book.id b, Book.added_by b, Book.created_at b))
       (Db.books shelf)).
Proof.
  destruct (updates_keep_identity (Some "u-alice"%string) 200 "b-hobbit"
              second_edition 5 "" shelf) as [H _].
  destruct (H (books_after_update 200 second_edition hobbit shelf) 1%nat)
    as [Hp _].
  - reflexivity.
  - exact Hp.
Defined.

(** X25.  Nothing is created in someone else's name.  An insert of a book
    or of a review succeeds only if the row names the caller as its owner or
    author, and is refused by the policy otherwise, for anonymous callers in
    particular; the pages' submit handlers send no insert at all without a
    signed-in user. *)
Theorem inserts_carry_the_caller
    (uid : option uuid) (new_id : uuid) (now : timestamptz) (f : BookForm)
    (added_by : uuid) (p : ReviewInsert) (db : Db.t) (st : BookDetailsPage.State) :
  (forall db', insert_book uid new_id now f added_by db = Ok db' ->
     uid = Some added_by
     /\ In (Book.mk new_id (f_title f) (f_author f) (f_description f) (f_genre f)
              (f_published_year f) added_by now now) (Db.books db'))
  /\ (uid <> Some added_by -> int4 (f_published_year f) = true ->
      insert_book uid new_id now f added_by db = Err insufficient_privilege)
  /\ (forall db', insert_review uid new_id now p db = Ok db' ->
        uid = Some (i_user_id p)
        /\ In (Review.mk new_id (i_book_id p) (i_user_id p) (i_rating p)
                 (i_review_text p) now now) (Db.reviews db'))
  /\ (uid <> Some (i_user_id p) -> int4 (i_rating p) = true ->
      insert_review uid new_id now p db = Err insufficient_privilege)
  /\ BookFormPage.handleSubmit None None new_id now f db
     = (db, inr BookFormPage.TypeError)
  /\ (BookDetailsPage.user st = None ->
      BookDetailsPage.handleSubmitReview new_id now db st
      = (db, st, Some "/login"%string)).
Proof.
  split; [|split; [|split; [|split; [|split]]]].
  - intros db' H. apply insert_book_inv in H as (-> & _ & Hu & _).
    split; [exact Hu|]. simpl. apply in_or_app. right. now left.
  - intros Hne Hy. unfold insert_book, guard, books_insert_check. rewrite Hy.
    cbn [bind Book.added_by]. rewrite policy_authenticated.
    destruct (auth_uid_eq uid added_by) eqn:E; [|reflexivity].
    apply auth_uid_eq_true in E. contradiction.
  - intros db' H.
    assert (Hex : exists d, insert_review uid new_id now p db = Ok d) by eauto.
    apply insert_review_ok_iff in Hex as (_ & Hu & _).
    apply insert_review_ok_row in H. subst db'.
    split; [exact Hu|]. simpl. apply in_or_app. right. now left.
  - intros Hne Hy. unfold insert_review, guard, reviews_insert_check. rewrite Hy.
    cbn [bind Review.user_id]. rewrite policy_authenticated.
    destruct (auth_uid_eq uid (i_user_id p)) eqn:E; [|reflexivity].
    apply auth_uid_eq_true in E. contradiction.
  - reflexivity.
  - intros Hu. unfold BookDetailsPage.handleSubmitReview. rewrite Hu. reflexivity.
Qed.

(** ** The listing's controls *)

Lemma in_step_settled (db : Db.t) (ctl : BooksPage.State)
    (data : list Book.t) (count : Z) :
  listing_reply db (BooksPage.currentPage ctl) (BooksPage.searchQuery ctl)
    (BooksPage.selectedGenre ctl) (BooksPage.sortBy ctl)
    (BooksPage.Data data count) ->
  in_step db (BooksPage.fetchBooks_settled (BooksPage.Data data count) ctl).
Proof. intros H. split; [reflexivity|exact H]. Qed.

(** A state in step that shows books: its count is the number of matching
    books, and its page starts at a row that exists. *)
Lemma in_step_listing (db : Db.t) (st : BooksPage.State) :
  in_step db st -> BooksPage.books st <> [] ->
  exists rows,
    order_result (sort_order (BooksPage.sortBy st))
      (BooksPage.matching (BooksPage.searchQuery st) (BooksPage.selectedGenre st)
         (Db.books db)) rows
    /\ BooksPage.books st
       = take 5 (drop (Z.to_nat ((BooksPage.currentPage st - 1) * 5)) rows)
    /\ BooksPage.totalBooks st = Z.of_nat (List.length rows)
    /\ (Z.to_nat ((BooksPage.currentPage st - 1) * 5) < List.length rows)%nat.
Proof.
  intros [_ (rows & Hord & H)] Hne. exists rows. split; [exact Hord|].
  cbv zeta in H. rewrite range_page in H.
  assert (Hr : BooksPage.books st
               = take 5 (drop (Z.to_nat ((BooksPage.currentPage st - 1) * 5)) rows)
               /\ BooksPage.totalBooks st = Z.of_nat (List.length rows)).
  { destruct ((_ =? 0) || _).
    - injection H as -> ->. split; reflexivity.
    - destruct H as [H|H]; [|discriminate]. injection H as Hb _. contradiction. }
  destruct Hr as [Hb Ht]. split; [exact Hb|]. split; [exact Ht|].
  destruct (Nat.lt_ge_cases (Z.to_nat ((BooksPage.currentPage st - 1) * 5))
              (List.length rows)) as [Hlt|Hge]; [exact Hlt|].
  exfalso. apply Hne. rewrite Hb, drop_ge by exact Hge. reflexivity.
Qed.

(** A fetch of page 1 always goes through. *)
Lemma first_page (db : Db.t) (ctl st' : BooksPage.State) :
  BooksPage.currentPage ctl = 1 ->
  refetch db ctl st' ->
  in_step db st' /\ BooksPage.currentPage st' = 1
  /\ (BooksPage.render st' = BooksPage.NoBooksFound
      <-> BooksPage.matching (BooksPage.searchQuery ctl) (BooksPage.selectedGenre ctl)
            (Db.books db) = []).
Proof.
  intros Hp (reply & Hreply & ->). rewrite Hp in Hreply.
  pose proof Hreply as Hreply'.
  apply listing_reply_within in Hreply' as (rows & [Hperm Hs] & ->);
    [|lia|now right].
  split; [apply in_step_settled; rewrite Hp; exact Hreply|]. split; [exact Hp|].
  unfold BooksPage.render. cbn [BooksPage.fetchBooks_settled BooksPage.loading
                                  BooksPage.books BooksPage.totalBooks].
  change (Z.to_nat ((1 - 1) * 5)) with 0%nat. rewrite drop_0.
  destruct rows as [|r rows].
  - apply Permutation_sym, Permutation_nil in Hperm. rewrite Hperm. tauto.
  - cbn [take]. split; [discriminate|].
    intros He. rewrite He in Hperm. apply Permutation_nil in Hperm. discriminate.
Qed.

(** A fetch of a page within 1 .. totalPages goes through and shows books. *)
Lemma page_in_range (db : Db.t) (ctl st' : BooksPage.State) :
  1 <= BooksPage.currentPage ctl
    <= BooksPage.totalPages
         (Z.of_nat (List.length
            (BooksPage.matching (BooksPage.searchQuery ctl)
               (BooksPage.selectedGenre ctl) (Db.books db)))) ->
  refetch db ctl st' ->
  in_step db st' /\ BooksPage.books st' <> []
  /\ BooksPage.totalBooks st'
     = Z.of_nat (List.length
         (BooksPage.matching (BooksPage.searchQuery ctl)
            (BooksPage.selectedGenre ctl) (Db.books db)))
  /\ BooksPage.render st' <> BooksPage.NoBooksFound.
Proof.
  intros Hp (reply & Hreply & ->).
  pose proof (page_within _ _ (Nat2Z.is_nonneg _) Hp) as Hin.
  pose proof Hreply as Hreply'.
  apply listing_reply_within in Hreply' as (rows & Hord & Hr); [|lia|now left].
  rewrite Hr in Hreply |- *.
  assert (Hne : take 5 (drop (Z.to_nat ((BooksPage.currentPage ctl - 1) * 5)) rows)
                <> []).
  { intros He. apply (f_equal (@List.length _)) in He.
    rewrite length_take, length_drop, (order_result_length _ _ _ Hord) in He.
    cbn [List.length] in He. lia. }
  split; [now apply in_step_settled|]. split; [exact Hne|]. split; [reflexivity|].
  unfold BooksPage.render. cbn [BooksPage.fetchBooks_settled BooksPage.loading
                                  BooksPage.books BooksPage.totalBooks].
  destruct (take 5 _); [contradiction|discriminate].
Qed.

(** X26.  From a listing in step with the store: the search button, the
    genre menu and the sort menu return to page 1, whose fetch always goes
    through, so after them "No books found" means that nothing matches.
    From a page that shows books, the previous, next and numbered buttons
    lead to a page that shows books again, with the same count.  Typing in
    the search box keeps the page: when the new query has fewer pages, the
    empty state is shown although books may match, or, if the request is
    refused, the old books stay on the screen.  A listing without the
    pagination bar is on page 1 and shows every match. *)
Theorem listing_controls (db : Db.t) (st st' : BooksPage.State) :
  in_step db st -> 1 <= BooksPage.currentPage st ->
  (forall ctl,
      ctl = BooksPage.handleSearch st
      \/ (exists v, ctl = BooksPage.onGenreChange v st)
      \/ (exists v, ctl = BooksPage.onSortChange v st) ->
      refetch db ctl st' ->
      in_step db st' /\ BooksPage.currentPage st' = 1
      /\ (BooksPage.render st' = BooksPage.NoBooksFound
          <-> BooksPage.matching (BooksPage.searchQuery ctl)
                (BooksPage.selectedGenre ctl) (Db.books db) = []))
  /\ (BooksPage.books st <> [] ->
      forall ctl,
        ctl = BooksPage.onPrevious st
        \/ ctl = BooksPage.onNext st
        \/ (exists page,
              In page (BooksPage.page_buttons
                         (BooksPage.totalPages (BooksPage.totalBooks st)))
              /\ ctl = BooksPage.onPage page st) ->
        refetch db ctl st' ->
        in_step db st' /\ BooksPage.books st' <> []
        /\ BooksPage.totalBooks st' = BooksPage.totalBooks st
        /\ BooksPage.render st' <> BooksPage.NoBooksFound)
  /\ (forall v, refetch db (BooksPage.onSearchChange v st) st' ->
        BooksPage.currentPage st' = BooksPage.currentPage st
        /\ BooksPage.searchQuery st' = v
        /\ (in_step db st'
            \/ (BooksPage.books st' = BooksPage.books st
                /\ BooksPage.totalBooks st' = BooksPage.totalBooks st))
        /\ (Z.of_nat (List.length
               (BooksPage.matching v (BooksPage.selectedGenre st) (Db.books db)))
              <= (BooksPage.currentPage st - 1) * 5 ->
            1 < BooksPage.currentPage st ->
            BooksPage.render st' = BooksPage.NoBooksFound
            \/ BooksPage.books st' = BooksPage.books st))
  /\ (forall books,
        BooksPage.render st = BooksPage.Listing books None ->
        BooksPage.currentPage st = 1
        /\ Permutation books
             (BooksPage.matching (BooksPage.searchQuery st)
                (BooksPage.selectedGenre st) (Db.books db))).
Proof.
  intros Hstep Hp. split; [|split; [|split]].
  - intros ctl Hctl. apply first_page.
    destruct Hctl as [->|[[v ->]|[v ->]]]; reflexivity.
  - intros Hne ctl Hctl Hre.
    destruct (in_step_listing db st Hstep Hne) as (rows & Hord & _ & Ht & Hlt).
    pose proof (order_result_length _ _ _ Hord) as Hlen.
    set (n := Z.of_nat (List.length
                  (BooksPage.matching (BooksPage.searchQuery st)
                     (BooksPage.selectedGenre st) (Db.books db)))) in *.
    assert (Htn : BooksPage.totalBooks st = n) by (unfold n; lia).
    assert (Hcp : BooksPage.currentPage st <= BooksPage.totalPages n).
    { destruct (totalPages_ceiling n ltac:(unfold n; lia)) as [[H0 H]|[H0 H]];
        unfold n in *; lia. }
    assert (Hrange : 1 <= BooksPage.currentPage ctl <= BooksPage.totalPages n
                     /\ BooksPage.searchQuery ctl = BooksPage.searchQuery st
                     /\ BooksPage.selectedGenre ctl = BooksPage.selectedGenre st).
    { destruct Hctl as [->|[->|(page & Hpage & ->)]];
        cbn [BooksPage.onPrevious BooksPage.onNext BooksPage.onPage
             BooksPage.currentPage BooksPage.searchQuery BooksPage.selectedGenre].
      - unfold BooksPage.previous_page. repeat split; lia.
      - rewrite Htn. unfold BooksPage.next_page. repeat split; lia.
      - rewrite Htn in Hpage. apply page_buttons_In in Hpage. repeat split; lia. }
    destruct Hrange as (Hr & Hq & Hg).
    destruct (page_in_range db ctl st') as (H1 & H2 & H3 & H4).
    + rewrite Hq, Hg. exact Hr.
    + exact Hre.
    + rewrite Hq, Hg in H3. fold n in H3. rewrite Htn. auto.
  - intros v (reply & Hreply & ->).
    cbn [BooksPage.onSearchChange BooksPage.currentPage BooksPage.searchQuery
         BooksPage.selectedGenre BooksPage.sortBy] in Hreply.
    split; [destruct reply; reflexivity|]. split; [destruct reply; reflexivity|].
    split.
    + destruct reply as [data count|].
      * left. apply in_step_settled. exact Hreply.
      * right. split; reflexivity.
    + intros Hout Hp1.
      destruct (listing_reply_beyond db _ v _ _ reply Hp1 Hout Hreply) as [->| ->].
      * left. reflexivity.
      * right. reflexivity.
  - intros books Hr. unfold BooksPage.render in Hr.
    destruct Hstep as [Hl Hreply]. rewrite Hl in Hr.
    assert (Hne : BooksPage.books st <> []).
    { intros He. rewrite He in Hr. discriminate. }
    destruct (in_step_listing db st (conj Hl Hreply) Hne)
      as (rows & Hord & Hb & Ht & Hlt).
    assert (Hone : BooksPage.totalPages (BooksPage.totalBooks st) <= 1
                   /\ books = BooksPage.books st).
    { destruct (BooksPage.books st); [contradiction|].
      destruct (Z.ltb_spec 1 (BooksPage.totalPages (BooksPage.totalBooks st)));
        [discriminate|]. split; [lia|congruence]. }
    destruct Hone as [Hone ->].
    assert (Hsmall : (List.length rows <= 5)%nat).
    { destruct (totalPages_ceiling (BooksPage.totalBooks st) ltac:(lia))
        as [[H0 H]|[H0 H]]; lia. }
    assert (Hpage : BooksPage.currentPage st = 1) by lia.
    split; [exact Hpage|].
    rewrite Hb, Hpage. change (Z.to_nat ((1 - 1) * 5)) with 0%nat.
    rewrite drop_0, take_ge by exact Hsmall.
    exact (Permutation_sym (proj1 Hord)).
Qed.

Lemma listing_controls_witness :
  in_step serial
    (BooksPage.fetchBooks_settled (evaluated serial "" "" BooksPage.oldest 2)
       (BooksPage.onPrevious last_page))
  /\ List.map Book.title
       (BooksPage.books
          (BooksPage.fetchBooks_settled (evaluated serial "" "" BooksPage.oldest 2)
             (BooksPage.onPrevious last_page)))
     = ["Volume 6"; "Volume 7"; "Volume 8"; "Volume 9"; "Volume 10"]%string.
Proof.
  split; [|reflexivity].
  destruct (listing_controls serial last_page
              (BooksPage.fetchBooks_settled (evaluated serial "" "" BooksPage.oldest 2)
                 (BooksPage.onPrevious last_page))) as (_ & H & _).
  - split; [reflexivity|].
    change (listing_reply serial 3 "" "" BooksPage.oldest
              (evaluated serial "" "" BooksPage.oldest 3)).
    apply evaluated_admissible.
  - vm_compute. discriminate.
  - destruct (H ltac:(vm_compute; discriminate) (BooksPage.onPrevious last_page))
      as [Hs _].
    + now left.
    + exists (evaluated serial "" "" BooksPage.oldest 2). split; [|reflexivity].
      change (listing_reply serial 2 "" "" BooksPage.oldest
                (evaluated serial "" "" BooksPage.oldest 2)).
      apply evaluated_admissible.
    + exact Hs.
Defined.
